(** * MCP-Client: the two LLM-to-tool-host bridges

    A shallow embedding of [src/mcp-client-openai.ts] and
    [src/mcp-client-claude.ts].  Both files define a class [MCPClient] whose
    method [processQuery] talks to two remote services: the tool host
    (requests [tools/list] and [tools/call]) and the chat API of the LLM
    provider.  The remote services are oracles over an abstract world; every
    remote call is recorded, with its request and its outcome, in a trace.
    Local variables that the source mutates ([messages], [finalText],
    [textResponses], [response]) live in an explicit state that survives a
    thrown exception, as a JavaScript array does.  Of the console output
    only what the prompt loop prints for a query is modelled. *)

From Stdlib Require Import String Ascii List Bool Arith Lia Sorted.
Import ListNotations.
Local Open Scope string_scope.

Set Implicit Arguments.
Set Warnings "-register-all".

(* ================================================================= *)
(** ** JavaScript values and built-ins *)

(** A JSON value.  A number is kept as the decimal literal that
    [Number.prototype.toString] prints for it, so that neither
    [JSON.stringify] nor string conversion needs floating point.  The keys
    of an object are pairwise distinct and kept in insertion order. *)
Inductive JSON : Type :=
| JNull
| JBool (b : bool)
| JNumber (literal : string)
| JString (s : string)
| JArray (elements : list JSON)
| JObject (members : list (string * JSON)).

(** Property lookup on an object: [None] stands for [undefined]. *)
Fixpoint lookup (key : string) (members : list (string * JSON)) : option JSON :=
  match members with
  | [] => None
  | (k, v) :: rest => if String.eqb k key then Some v else lookup key rest
  end.

Definition newline : string := String (ascii_of_nat 10) "".
Definition dquote : ascii := ascii_of_nat 34.
Definition backslash : ascii := ascii_of_nat 92.

(** [Array.prototype.join] on an array of strings. *)
Fixpoint join (sep : string) (parts : list string) : string :=
  match parts with
  | [] => ""
  | x :: rest =>
      match rest with
      | [] => x
      | _ :: _ => x ++ sep ++ join sep rest
      end
  end.

Definition hex_digit (n : nat) : ascii :=
  if (n <? 10)%nat then ascii_of_nat (48 + n) else ascii_of_nat (87 + n).

(** The escaping of one code unit by [JSON.stringify]. *)
Definition escape_char (c : ascii) : string :=
  let n := nat_of_ascii c in
  if (n =? 34)%nat then String backslash (String dquote "")
  else if (n =? 92)%nat then String backslash (String backslash "")
  else if (n =? 8)%nat then String backslash "b"
  else if (n =? 12)%nat then String backslash "f"
  else if (n =? 10)%nat then String backslash "n"
  else if (n =? 13)%nat then String backslash "r"
  else if (n =? 9)%nat then String backslash "t"
  else if (n <? 32)%nat then
    String backslash
      ("u00" ++ String (hex_digit (n / 16)%nat)
                  (String (hex_digit (n mod 16)%nat) ""))
  else String c "".

Fixpoint escape (s : string) : string :=
  match s with
  | EmptyString => ""
  | String c rest => escape_char c ++ escape rest
  end.

Definition quote (s : string) : string :=
  String dquote (escape s ++ String dquote "").

(** [JSON.stringify] with one argument. *)
Fixpoint JSON_stringify (j : JSON) : string :=
  match j with
  | JNull => "null"
  | JBool true => "true"
  | JBool false => "false"
  | JNumber literal => literal
  | JString s => quote s
  | JArray elements =>
      "[" ++ join "," (map JSON_stringify elements) ++ "]"
  | JObject members =>
      "{" ++ join ","
               ((fix each (l : list (string * JSON)) : list string :=
                   match l with
                   | [] => []
                   | (k, v) :: rest =>
                       (quote k ++ ":" ++ JSON_stringify v) :: each rest
                   end) members)
          ++ "}"
  end.

(** [String(v)] for a JSON value; an array prints its elements joined by
    commas, with [null] printed as the empty string. *)
Fixpoint toString (j : JSON) : string :=
  match j with
  | JNull => "null"
  | JBool true => "true"
  | JBool false => "false"
  | JNumber literal => literal
  | JString s => s
  | JArray elements =>
      join ","
        (map (fun e => match e with JNull => "" | _ => toString e end) elements)
  | JObject _ => "[object Object]"
  end.

(** The conversion [Array.prototype.join] applies to one element:
    [undefined] and [null] give the empty string. *)
Definition join_element (v : option JSON) : string :=
  match v with
  | None => ""
  | Some JNull => ""
  | Some j => toString j
  end.

(** ASCII lower-casing; no character outside ASCII lower-cases to one of
    the letters of [quit], so this decides [s.toLowerCase() === "quit"]. *)
Definition lower_char (c : ascii) : ascii :=
  let n := nat_of_ascii c in
  if ((65 <=? n) && (n <=? 90))%nat then ascii_of_nat (n + 32) else c.

Fixpoint toLowerCase (s : string) : string :=
  match s with
  | EmptyString => ""
  | String c rest => String (lower_char c) (toLowerCase rest)
  end.

(** Truthiness of a [string | null | undefined]. *)
Definition truthy (s : option string) : bool :=
  match s with
  | Some (String _ _) => true
  | _ => false
  end.

(** [s || ""] for a [string | null | undefined]. *)
Definition or_empty (s : option string) : string :=
  match s with
  | Some t => t
  | None => ""
  end.

(* ================================================================= *)
(** ** Exceptions *)

(** What a [throw] carries, as far as the handlers of the source tell
    values apart: [error instanceof OpenAI.APIError], [error instanceof
    Error], and anything else, of which only [String(error)] is used. *)
Inductive Thrown : Type :=
| APIError (message : string)
| JsError (message : string)
| NonError (shown : string).

(** [error instanceof Error ? error.message : String(error)] *)
Definition error_text (error : Thrown) : string :=
  match error with
  | APIError message => message
  | JsError message => message
  | NonError shown => shown
  end.

(* ================================================================= *)
(** ** A state monad whose state survives exceptions *)

Section Monad.
Variable St : Type.

Definition M (A : Type) : Type := St -> (Thrown + A) * St.

Definition ret {A} (a : A) : M A := fun s => (inr a, s).

Definition bind {A B} (m : M A) (k : A -> M B) : M B :=
  fun s =>
    match m s with
    | (inl e, s') => (inl e, s')
    | (inr a, s') => k a s'
    end.

Definition throw {A} (e : Thrown) : M A := fun s => (inl e, s).

(** [try { body } catch (error) { handler }] *)
Definition try_catch {A} (body : M A) (handler : Thrown -> M A) : M A :=
  fun s =>
    match body s with
    | (inl e, s') => handler e s'
    | (inr a, s') => (inr a, s')
    end.

Definition get : M St := fun s => (inr s, s).

Definition modify (f : St -> St) : M unit := fun s => (inr tt, f s).

(** [for (const x of xs) { body }] over an array that the body does not
    change. *)
Fixpoint for_of {A} (xs : list A) (body : A -> M unit) : M unit :=
  match xs with
  | [] => ret tt
  | x :: rest => bind (body x) (fun _ => for_of rest body)
  end.
End Monad.

Arguments ret {St A} a.
Arguments bind {St A B} m k.
Arguments throw {St A} e.
Arguments try_catch {St A} body handler.
Arguments get {St}.
Arguments modify {St} f.
Arguments for_of {St A} xs body.

Declare Scope js_scope.
Delimit Scope js_scope with js.
Notation "x <- m ;; k" := (bind m (fun x => k))
  (at level 61, m at next level, right associativity) : js_scope.
Notation "m ;; k" := (bind m (fun _ => k))
  (at level 61, right associativity) : js_scope.
Local Open Scope js_scope.

(* ================================================================= *)
(** ** The tool host *)

(** A tool descriptor as [tools/list] returns it; [description] is
    optional. *)
Module Tool.
Record t : Type := {
  name : string;
  description : option string;
  inputSchema : JSON
}.
End Tool.

(** A non-array JSON value. *)
Inductive NonArray : Type :=
| VNull
| VBool (b : bool)
| VNumber (literal : string)
| VString (s : string)
| VObject (members : list (string * JSON)).

(** Modelled from the spec: the result type of [tools/call], which the
    source takes from the SDK's [CallToolResultSchema].  The content is
    either an ordered sequence of typed content blocks (each an object) or
    any other structured value. *)
Inductive Content : Type :=
| Blocks (items : list (list (string * JSON)))
| Structured (value : NonArray).

Definition NonArray_json (v : NonArray) : JSON :=
  match v with
  | VNull => JNull
  | VBool b => JBool b
  | VNumber literal => JNumber literal
  | VString s => JString s
  | VObject members => JObject members
  end.

Definition Content_json (c : Content) : JSON :=
  match c with
  | Blocks items => JArray (map JObject items)
  | Structured value => NonArray_json value
  end.

(** The content block [{type: "text", text: t}]. *)
Definition text_block (t : string) : list (string * JSON) :=
  [("type", JString "text"); ("text", JString t)].

(** [item.type === "text"] *)
Definition is_text (item : list (string * JSON)) : bool :=
  match lookup "type" item with
  | Some (JString t) => String.eqb t "text"
  | _ => false
  end.

(** The connection [this.client] / [this.transport]: the remote
    operations of the tool host over a world [W]. *)
Record Host (W : Type) : Type := {
  tools_list : W -> (Thrown + list Tool.t) * W;
  tools_call : JSON -> W -> (Thrown + Content) * W;
  transport_close : W -> (Thrown + unit) * W
}.

(** What the interactive prompt does after one line of input. *)
Inductive Prompt : Type :=
| Rearmed       (* the question is asked again *)
| Closed        (* [rl.close()] after [quit] *)
| Abandoned.    (* the callback's promise rejected; nothing asks again *)

Record Turn : Type := {
  printed : option string;      (* [console.log("\n" + response)] *)
  reported : option Thrown;     (* [console.error("\nError:", error)] *)
  rejected : option Thrown;     (* rejection that no handler receives *)
  prompt : Prompt
}.

(* ================================================================= *)
(** ** The OpenAI client: [src/mcp-client-openai.ts] *)

Module OpenAI.

(** The function schema of the chat API. *)
Module Fn.
Record t : Type := {
  name : string;
  description : string;
  parameters : JSON
}.
End Fn.

(** [{type: "function", function: {...}}] *)
Record ChatCompletionTool : Type := {
  type : string;
  function : Fn.t
}.

(** A tool call of an assistant message: [id], [function.name] and
    [function.arguments], the latter a string on the wire. *)
Record ToolCall : Type := {
  id : string;
  function_name : string;
  function_arguments : string
}.

(** [choices[i].message] *)
Record ChatCompletionMessage : Type := {
  content : option string;
  tool_calls : option (list ToolCall)
}.

(** The elements of the array [messages]. *)
Inductive Message : Type :=
| System (text : string)
| User (text : string)
| Assistant (message : ChatCompletionMessage)
| ToolMessage (tool_call_id tool_name text : string).

(** The argument of [openai.chat.completions.create]. *)
Record Request : Type := {
  model : option string;
  sent : list Message;
  tools : list ChatCompletionTool;
  tool_choice : string
}.

(** A completion is the list of the messages of its [choices]. *)
Definition Completion : Type := list ChatCompletionMessage.

Inductive Event : Type :=
| ToolsList (result : Thrown + list Tool.t)
| ToolsCall (params : JSON) (result : Thrown + Content)
| Create (request : Request) (result : Thrown + Completion).

(** [toolsResponse.tools.map(tool => ...)] *)
Definition formatTool (tool : Tool.t) : ChatCompletionTool :=
  {| type := "function";
     function :=
       {| Fn.name := Tool.name tool;
          Fn.description := or_empty (Tool.description tool);
          Fn.parameters := Tool.inputSchema tool |} |}.

Definition formatTools (tools : list Tool.t) : list ChatCompletionTool :=
  map formatTool tools.

(** The text of the tool message, computed from [result.content]. *)
Definition toolResultText (content : Content) : string :=
  match content with
  | Blocks items =>
      join newline
        (map (fun item => join_element (lookup "text" item))
           (filter is_text items))
  | Structured value => JSON_stringify (NonArray_json value)
  end.

(** [params] of the [tools/call] request. *)
Definition call_params (toolName : string) (toolArgs : JSON) : JSON :=
  JObject [("name", JString toolName); ("arguments", toolArgs)].

Definition calling_notice (toolName : string) (toolArgs : JSON) : string :=
  "[Calling tool " ++ toolName ++ " with args " ++ JSON_stringify toolArgs ++ "]".

Definition error_notice (error : Thrown) : string :=
  "[Error calling tool: " ++ error_text error ++ "]".

Definition additional_notice : string := "[Additional tool calls detected]".

Definition system_prompt : string :=
  "You are a helpful assistant that can use tools.".

(** The transcript a query starts with. *)
Definition base (query : string) : list Message :=
  [System system_prompt; User query].

(** [m.tool_calls && m.tool_calls.length > 0] *)
Definition has_tool_calls (m : ChatCompletionMessage) : bool :=
  match tool_calls m with
  | Some (_ :: _) => true
  | _ => false
  end.

Definition requested (m : ChatCompletionMessage) : list ToolCall :=
  match tool_calls m with
  | Some calls => calls
  | None => []
  end.

(** The text of an assistant turn as [if (m.content) finalText.push(m.content)]
    collects it. *)
Definition text_part (m : ChatCompletionMessage) : list string :=
  if truthy (content m) then [or_empty (content m)] else [].

Definition additional_part (m : ChatCompletionMessage) : list string :=
  if has_tool_calls m then [additional_notice] else [].

(** The strings that the outer [catch] returns. *)
Definition failure_text (error : Thrown) : string :=
  match error with
  | APIError message => "Error: " ++ message
  | _ => "Unexpected error occurred: " ++ error_text error
  end.

Definition no_choice : Thrown :=
  JsError "Cannot read properties of undefined (reading 'message')".

(** *** Reading a trace *)

(** The requests of the LLM calls, in order. *)
Definition requests (t : list Event) : list Request :=
  flat_map (fun e => match e with
                     | Create request _ => [request]
                     | _ => []
                     end) t.

(** The assistant turns received: [choices[0].message] of every call that
    returned one. *)
Definition turns (t : list Event) : list ChatCompletionMessage :=
  flat_map (fun e => match e with
                     | Create _ (inr (m :: _)) => [m]
                     | _ => []
                     end) t.

(** The [params] of the [tools/call] requests, in order. *)
Definition invocations (t : list Event) : list JSON :=
  flat_map (fun e => match e with
                     | ToolsCall params _ => [params]
                     | _ => []
                     end) t.

(** The contents returned by the tool invocations that succeeded. *)
Definition returned (t : list Event) : list Content :=
  flat_map (fun e => match e with
                     | ToolsCall _ (inr c) => [c]
                     | _ => []
                     end) t.

(** The errors of the tool invocations that failed. *)
Definition failures (t : list Event) : list Thrown :=
  flat_map (fun e => match e with
                     | ToolsCall _ (inl error) => [error]
                     | _ => []
                     end) t.

(** The errors of the LLM calls that failed. *)
Definition refusals (t : list Event) : list Thrown :=
  flat_map (fun e => match e with
                     | Create _ (inl error) => [error]
                     | _ => []
                     end) t.

(** *** Reading a transcript *)

(** The tool results of a transcript: correlation id and text. *)
Definition results (ms : list Message) : list (string * string) :=
  flat_map (fun m => match m with
                     | ToolMessage i _ text => [(i, text)]
                     | _ => []
                     end) ms.

(** How many tool results of a transcript carry the correlation id [i]. *)
Definition answers (i : string) (ms : list Message) : nat :=
  length (filter (fun r => String.eqb (fst r) i) (results ms)).

(** Every tool request of the transcript [before ++ rest] that stands in
    [rest] has exactly one tool result with its id, and that one stands
    after the request. *)
Fixpoint answered_from (before rest : list Message) : bool :=
  match rest with
  | [] => true
  | m :: after =>
      match m with
      | Assistant a =>
          forallb (fun c => (answers (id c) after =? 1)%nat
                            && (answers (id c) before =? 0)%nat)
            (requested a)
      | _ => true
      end && answered_from (before ++ [m]) after
  end.

Definition answered (ms : list Message) : bool := answered_from [] ms.

(** The parts that the rounds of the tool loop add to [finalText], read
    off the events of those rounds. *)
Definition reply_parts (reply : Thrown + Completion) : list string :=
  match reply with
  | inl error => [error_notice error]
  | inr [] => [error_notice no_choice]
  | inr (m :: _) => text_part m ++ additional_part m
  end.

Definition event_parts (e : Event) : list string :=
  match e with
  | ToolsCall (JObject [(_, JString toolName); (_, toolArgs)]) result =>
      calling_notice toolName toolArgs
      :: match result with
         | inl error => [error_notice error]
         | inr _ => []
         end
  | Create _ reply => reply_parts reply
  | _ => []
  end.

Definition narrate (t : list Event) : list string := flat_map event_parts t.

(** The parts of the answer of a session that reached its end: the text
    of the first assistant turn, then what the rounds of the tool loop
    say. *)
Definition story (t : list Event) : list string :=
  match t with
  | ToolsList _ :: Create _ (inr (m :: _)) :: rounds =>
      text_part m ++ narrate rounds
  | _ => []
  end.

(** The tool requests of the first assistant turn of a session. *)
Definition first_requests (t : list Event) : list ToolCall :=
  match turns t with
  | m :: _ => requested m
  | [] => []
  end.

(** The text portions of the assistant turns of a session, in order. *)
Definition spoken (t : list Event) : list string :=
  flat_map text_part (turns t).

(** What the round of each tool invocation adds to [finalText] behind
    its notice, read off a trace: the diagnostic of an invocation that
    failed, and for one that returned what the LLM call behind it gave. *)
Fixpoint outcomes (t : list Event) : list (list string) :=
  match t with
  | [] => []
  | ToolsCall _ (inl error) :: rest => [error_notice error] :: outcomes rest
  | ToolsCall _ (inr _) :: Create _ reply :: rest =>
      reply_parts reply :: outcomes rest
  | _ :: rest => outcomes rest
  end.

(** In the events [t] every LLM call stands right behind a tool
    invocation that returned, one call behind each. *)
Fixpoint paced (t : list Event) : bool :=
  match t with
  | [] => true
  | ToolsCall _ (inr _) :: Create _ _ :: rest => paced rest
  | ToolsCall _ (inr _) :: _ => false
  | Create _ _ :: _ => false
  | _ :: rest => paced rest
  end.

Record State (W : Type) : Type := {
  world : W;
  trace : list Event;
  messages : list Message;
  finalText : list string
}.

Section Client.
Variable W : Type.
(** [this.client], null until [connectToServer] has run. *)
Variable client : option (Host W).
(** [this.openai.chat.completions.create] *)
Variable create : Request -> W -> (Thrown + Completion) * W.
(** [process.env.OPENAI_MODEL] *)
Variable OPENAI_MODEL : option string.
(** [JSON.parse]; [inl] is the thrown [SyntaxError]. *)
Variable JSON_parse : string -> Thrown + JSON.

Definition initial (w : W) : State W :=
  {| world := w; trace := []; messages := []; finalText := [] |}.

(** A remote call: the oracle moves the world, the trace records the
    outcome. *)
Definition remote {A} (call : W -> (Thrown + A) * W)
    (record : Thrown + A -> Event) : M (State W) A :=
  fun s =>
    let (r, w) := call (world s) in
    (r, {| world := w; trace := trace s ++ [record r];
           messages := messages s; finalText := finalText s |}).

Definition push_message (m : Message) : M (State W) unit :=
  modify (fun s => {| world := world s; trace := trace s;
                      messages := messages s ++ [m];
                      finalText := finalText s |}).

Definition push_text (t : string) : M (State W) unit :=
  modify (fun s => {| world := world s; trace := trace s;
                      messages := messages s;
                      finalText := finalText s ++ [t] |}).

(** [let messages = [...]] *)
Definition set_messages (ms : list Message) : M (State W) unit :=
  modify (fun s => {| world := world s; trace := trace s;
                      messages := ms;
                      finalText := finalText s |}).

Definition lift {A} (r : Thrown + A) : M (State W) A :=
  match r with
  | inl e => throw e
  | inr a => ret a
  end.

(** [response.choices[0].message]; reading [message] of [undefined]
    throws a [TypeError]. *)
Definition first_message (completion : Completion)
  : M (State W) ChatCompletionMessage :=
  match completion with
  | m :: _ => ret m
  | [] => throw no_choice
  end.

Definition request_of (availableTools : list ChatCompletionTool)
    (transcript : list Message) : Request :=
  {| model := OPENAI_MODEL; sent := transcript;
     tools := availableTools; tool_choice := "auto" |}.

Definition completions_create (availableTools : list ChatCompletionTool)
  : M (State W) Completion :=
  s <- get ;;
  remote (create (request_of availableTools (messages s)))
    (Create (request_of availableTools (messages s))).

(** The message [{role: "tool", tool_call_id, name, content}]. *)
Definition tool_message (toolCall : ToolCall) (result : Content) : Message :=
  ToolMessage (id toolCall) (function_name toolCall) (toolResultText result).

(** The [params] of the [tools/call] request made for a tool call, once
    its arguments are parsed. *)
Definition tool_params (toolCall : ToolCall) : Thrown + JSON :=
  match JSON_parse (function_arguments toolCall) with
  | inl error => inl error
  | inr toolArgs => inr (call_params (function_name toolCall) toolArgs)
  end.

(** What one round of the tool loop pushes to [finalText]: the notice
    of the tool call, then the outcome of the round. *)
Definition told (round : ToolCall * list string) : list string :=
  match JSON_parse (function_arguments (fst round)) with
  | inl _ => []
  | inr toolArgs =>
      calling_notice (function_name (fst round)) toolArgs :: snd round
  end.

(** The body of [for (const toolCall of responseMessage.tool_calls)]. *)
Definition callTool (c : Host W) (availableTools : list ChatCompletionTool)
    (toolCall : ToolCall) : M (State W) unit :=
  let toolName := function_name toolCall in
  toolArgs <- lift (JSON_parse (function_arguments toolCall)) ;;
  push_text (calling_notice toolName toolArgs) ;;
  try_catch
    (result <- remote (tools_call c (call_params toolName toolArgs))
                 (ToolsCall (call_params toolName toolArgs)) ;;
     push_message (tool_message toolCall result) ;;
     nextResponse <- completions_create availableTools ;;
     nextMessage <- first_message nextResponse ;;
     (if truthy (content nextMessage)
      then push_text (or_empty (content nextMessage))
      else ret tt) ;;
     (if has_tool_calls nextMessage
      then push_text additional_notice
      else ret tt))
    (fun error => push_text (error_notice error)).

(** The [try] block of [processQuery]; it ends without a value. *)
Definition conversation (c : Host W) (availableTools : list ChatCompletionTool)
  : M (State W) (option string) :=
  currentResponse <- completions_create availableTools ;;
  responseMessage <- first_message currentResponse ;;
  push_message (Assistant responseMessage) ;;
  (if truthy (content responseMessage)
   then push_text (or_empty (content responseMessage))
   else ret tt) ;;
  (if has_tool_calls responseMessage
   then for_of (requested responseMessage) (callTool c availableTools)
   else ret tt) ;;
  ret None.

(** The outer [catch]: both branches return from [processQuery]. *)
Definition failed (error : Thrown) : M (State W) (option string) :=
  ret (Some (failure_text error)).

Definition processQuery (query : string) : M (State W) string :=
  match client with
  | None => throw (JsError "Client not connected")
  | Some c =>
      set_messages (base query) ;;
      toolsResponse <- remote (tools_list c) ToolsList ;;
      let availableTools := formatTools toolsResponse in
      returned <- try_catch (conversation c availableTools) failed ;;
      match returned with
      | Some answer => ret answer
      | None => s <- get ;; ret (join newline (finalText s))
      end
  end.

(** [cleanup]: closes the transport when there is one. *)
Definition cleanup (w : W) : (Thrown + unit) * W :=
  match client with
  | Some c => transport_close c w
  | None => (inr tt, w)
  end.

(** One round of [askQuestion]: the callback of [rl.question] run on one
    line of input.  The whole callback is inside [try]; its [catch] logs
    the error and asks again. *)
Definition askQuestion (line : string) (w : W) : Turn * W :=
  if String.eqb (toLowerCase line) "quit" then
    match cleanup w with
    | (inr _, w') =>
        ({| printed := None; reported := None; rejected := None;
            prompt := Closed |}, w')
    | (inl e, w') =>
        ({| printed := None; reported := Some e; rejected := None;
            prompt := Rearmed |}, w')
    end
  else
    match processQuery line (initial w) with
    | (inr response, s) =>
        ({| printed := Some response; reported := None; rejected := None;
            prompt := Rearmed |}, world s)
    | (inl e, s) =>
        ({| printed := None; reported := Some e; rejected := None;
            prompt := Rearmed |}, world s)
    end.

(** *** The shape of a run

    [Round] lists what one round of the tool loop adds to the trace, to
    the transcript and to [finalText]; [Rounds] chains the rounds of the
    loop, which a syntax error in a request's arguments leaves. *)
Inductive Round (availableTools : list ChatCompletionTool)
    (before : list Message) (toolCall : ToolCall) (toolArgs : JSON)
  : list Event -> list Message -> list string -> Prop :=
| round_failed (error : Thrown) :
    Round availableTools before toolCall toolArgs
      [ToolsCall (call_params (function_name toolCall) toolArgs) (inl error)]
      []
      [calling_notice (function_name toolCall) toolArgs; error_notice error]
| round_invoked (result : Content) (reply : Thrown + Completion) :
    Round availableTools before toolCall toolArgs
      [ToolsCall (call_params (function_name toolCall) toolArgs) (inr result);
       Create (request_of availableTools
                 (before ++ [tool_message toolCall result])) reply]
      [tool_message toolCall result]
      (calling_notice (function_name toolCall) toolArgs :: reply_parts reply).

Inductive Rounds (availableTools : list ChatCompletionTool)
  : list Message -> list ToolCall -> Thrown + unit ->
    list Event -> list Message -> list string -> Prop :=
| rounds_done (before : list Message) :
    Rounds availableTools before [] (inr tt) [] [] []
| rounds_syntax_error (before : list Message) (toolCall : ToolCall)
    (rest : list ToolCall) (error : Thrown) :
    JSON_parse (function_arguments toolCall) = inl error ->
    Rounds availableTools before (toolCall :: rest) (inl error) [] [] []
| rounds_next (before : list Message) (toolCall : ToolCall)
    (rest : list ToolCall) (toolArgs : JSON) (outcome : Thrown + unit)
    (events events' : list Event) (added added' : list Message)
    (parts parts' : list string) :
    JSON_parse (function_arguments toolCall) = inr toolArgs ->
    Round availableTools before toolCall toolArgs events added parts ->
    Rounds availableTools (before ++ added) rest outcome events' added' parts' ->
    Rounds availableTools before (toolCall :: rest) outcome
      (events ++ events') (added ++ added') (parts ++ parts').

End Client.

End OpenAI.

(* ================================================================= *)
(** ** The Claude client: [src/mcp-client-claude.ts] *)

Module Claude.

(** The tool schema of the messages API, as [formatTools] builds it. *)
Module Schema.
Record t : Type := {
  name : string;
  description : option string;
  input_schema : JSON
}.
End Schema.

(** A block of [response.content].  [Other] is a block whose type is
    neither [text] nor [tool_use]. *)
Inductive ContentBlock : Type :=
| Text (text : string)
| ToolUse (id name : string) (input : JSON)
| Other (type : string).

(** The elements of the array [messages]: the user's query, an assistant
    turn, and the user turn [[{type: "tool_result", tool_use_id,
    content: [{type: "text", text}]}]]. *)
Inductive Message : Type :=
| User (text : string)
| Assistant (blocks : list ContentBlock)
| ToolResult (tool_use_id text : string).

(** The argument of [anthropic.messages.create]. *)
Record Request : Type := {
  model : option string;
  max_tokens : nat;
  sent : list Message;
  tools : list Schema.t
}.

(** A response is its [content]. *)
Definition Response : Type := list ContentBlock.

Inductive Event : Type :=
| ToolsList (result : Thrown + list Tool.t)
| ToolsCall (params : JSON) (result : Thrown + Content)
| Create (request : Request) (result : Thrown + Response).

Definition formatTools (tools : list Tool.t) : list Schema.t :=
  map (fun tool =>
         {| Schema.name := Tool.name tool;
            Schema.description := Tool.description tool;
            Schema.input_schema := Tool.inputSchema tool |}) tools.

(** [params] of the [tools/call] request. *)
Definition call_params (name : string) (input : JSON) : JSON :=
  JObject [("name", JString name); ("args", input)].

Definition follow_up_model : string := "claude-3-5-sonnet-20241022".

(** The text of the tool result: [JSON.stringify(toolResult.content)]. *)
Definition toolResultText (content : Content) : string :=
  JSON_stringify (Content_json content).

(** [if (response.content[0]?.type === "text") push(response.content[0].text)] *)
Definition leading_text (r : Response) : list string :=
  match r with
  | Text text :: _ => [text]
  | _ => []
  end.

(** The correlation ids of the tool requests of an assistant turn. *)
Fixpoint uses (blocks : list ContentBlock) : list string :=
  match blocks with
  | [] => []
  | ToolUse id _ _ :: rest => id :: uses rest
  | _ :: rest => uses rest
  end.

(** The texts of the text blocks of an assistant turn. *)
Fixpoint texts (blocks : list ContentBlock) : list string :=
  match blocks with
  | [] => []
  | Text text :: rest => text :: texts rest
  | _ :: rest => texts rest
  end.

(** *** Reading a trace *)

Definition requests (t : list Event) : list Request :=
  flat_map (fun e => match e with
                     | Create request _ => [request]
                     | _ => []
                     end) t.

(** The assistant turns received. *)
Definition turns (t : list Event) : list Response :=
  flat_map (fun e => match e with
                     | Create _ (inr r) => [r]
                     | _ => []
                     end) t.

Definition invocations (t : list Event) : list JSON :=
  flat_map (fun e => match e with
                     | ToolsCall params _ => [params]
                     | _ => []
                     end) t.

Definition returned (t : list Event) : list Content :=
  flat_map (fun e => match e with
                     | ToolsCall _ (inr c) => [c]
                     | _ => []
                     end) t.

(** The errors of the LLM calls that failed. *)
Definition refusals (t : list Event) : list Thrown :=
  flat_map (fun e => match e with
                     | Create _ (inl error) => [error]
                     | _ => []
                     end) t.

(** The parts that the loop over the blocks of the first response
    collects in [textResponses]: its text blocks, and at each tool request
    the leading text block of the follow-up response. *)
Fixpoint weave (blocks : list ContentBlock) (followups : list Response)
  : list string :=
  match blocks with
  | [] => []
  | Text text :: rest => text :: weave rest followups
  | ToolUse _ _ _ :: rest =>
      match followups with
      | next :: more => leading_text next ++ weave rest more
      | [] => []
      end
  | Other _ :: rest => weave rest followups
  end.

Definition story (t : list Event) : list string :=
  match turns t with
  | first :: followups => weave first followups
  | [] => []
  end.

(** The correlation ids of the tool requests of the first assistant turn
    of a session. *)
Definition first_uses (t : list Event) : list string :=
  match turns t with
  | first :: _ => uses first
  | [] => []
  end.

(** *** Reading a transcript *)

Definition results (ms : list Message) : list (string * string) :=
  flat_map (fun m => match m with
                     | ToolResult i text => [(i, text)]
                     | _ => []
                     end) ms.

Definition answers (i : string) (ms : list Message) : nat :=
  length (filter (fun r => String.eqb (fst r) i) (results ms)).

Fixpoint answered_from (before rest : list Message) : bool :=
  match rest with
  | [] => true
  | m :: after =>
      match m with
      | Assistant blocks =>
          forallb (fun i => (answers i after =? 1)%nat
                            && (answers i before =? 0)%nat)
            (uses blocks)
      | _ => true
      end && answered_from (before ++ [m]) after
  end.

Definition answered (ms : list Message) : bool := answered_from [] ms.

Definition request_of (m : option string) (formattedTools : list Schema.t)
    (transcript : list Message) : Request :=
  {| model := m; max_tokens := 1000; sent := transcript;
     tools := formattedTools |}.

(** The two messages pushed after a tool invocation: the assistant turn
    held by [response] and the tool result. *)
Definition exchange (current : Response) (id : string) (result : Content)
  : list Message :=
  [Assistant current; ToolResult id (toolResultText result)].

Record State (W : Type) : Type := {
  world : W;
  trace : list Event;
  messages : list Message;
  textResponses : list string;
  response : Response
}.

Section Client.
Variable W : Type.
(** [this.client], null until [connectToServer] has run. *)
Variable client : option (Host W).
(** [this.anthropic.messages.create] *)
Variable create : Request -> W -> (Thrown + Response) * W.
(** [process.env.ANTHROPIC_MODEL] *)
Variable ANTHROPIC_MODEL : option string.

Definition initial (w : W) : State W :=
  {| world := w; trace := []; messages := []; textResponses := [];
     response := [] |}.

Definition remote {A} (call : W -> (Thrown + A) * W)
    (record : Thrown + A -> Event) : M (State W) A :=
  fun s =>
    let (r, w) := call (world s) in
    (r, {| world := w; trace := trace s ++ [record r];
           messages := messages s; textResponses := textResponses s;
           response := response s |}).

Definition push_message (m : Message) : M (State W) unit :=
  modify (fun s => {| world := world s; trace := trace s;
                      messages := messages s ++ [m];
                      textResponses := textResponses s;
                      response := response s |}).

Definition push_text (t : string) : M (State W) unit :=
  modify (fun s => {| world := world s; trace := trace s;
                      messages := messages s;
                      textResponses := textResponses s ++ [t];
                      response := response s |}).

(** [let messages = [...]] *)
Definition set_messages (ms : list Message) : M (State W) unit :=
  modify (fun s => {| world := world s; trace := trace s;
                      messages := ms;
                      textResponses := textResponses s;
                      response := response s |}).

Definition set_response (r : Response) : M (State W) unit :=
  modify (fun s => {| world := world s; trace := trace s;
                      messages := messages s;
                      textResponses := textResponses s;
                      response := r |}).

Definition messages_create (m : option string) (formattedTools : list Schema.t)
  : M (State W) Response :=
  s <- get ;;
  remote (create (request_of m formattedTools (messages s)))
    (Create (request_of m formattedTools (messages s))).

(** The body of [for (const content of response.content)].  The
    [continue] that ends the [tool_use] branch is the last statement of
    the body. *)
Definition handle (c : Host W) (formattedTools : list Schema.t)
    (content : ContentBlock) : M (State W) unit :=
  match content with
  | Text text => push_text text
  | ToolUse id name input =>
      toolResult <- remote (tools_call c (call_params name input))
                      (ToolsCall (call_params name input)) ;;
      s <- get ;;
      push_message (Assistant (response s)) ;;
      push_message (ToolResult id (toolResultText toolResult)) ;;
      next <- messages_create (Some follow_up_model) formattedTools ;;
      set_response next ;;
      match next with
      | Text text :: _ => push_text text
      | _ => ret tt
      end
  | Other _ => ret tt
  end.

(** [while (true) { for (...) {...} break; }] runs its body once: the
    [for] iterates over the array that [response.content] was when the
    loop started, and the [break] follows it. *)
Definition processQuery (query : string) : M (State W) string :=
  match client with
  | None => throw (JsError "Client not connected")
  | Some c =>
      toolsResponse <- remote (tools_list c) ToolsList ;;
      let formattedTools := formatTools toolsResponse in
      set_messages [User query] ;;
      first <- messages_create ANTHROPIC_MODEL formattedTools ;;
      set_response first ;;
      for_of first (handle c formattedTools) ;;
      s <- get ;;
      ret (join newline (textResponses s))
  end.

Definition cleanup (w : W) : (Thrown + unit) * W :=
  match client with
  | Some c => transport_close c w
  | None => (inr tt, w)
  end.

(** One round of [ask]: the callback of [rl.question] run on one line of
    input.  The callback has no [try]: an exception rejects its promise,
    which nothing awaits, and [ask()] is not reached. *)
Definition ask (line : string) (w : W) : Turn * W :=
  if String.eqb (toLowerCase line) "quit" then
    match cleanup w with
    | (inr _, w') =>
        ({| printed := None; reported := None; rejected := None;
            prompt := Closed |}, w')
    | (inl e, w') =>
        ({| printed := None; reported := None; rejected := Some e;
            prompt := Abandoned |}, w')
    end
  else
    match processQuery line (initial w) with
    | (inr answer, s) =>
        ({| printed := Some answer; reported := None; rejected := None;
            prompt := Rearmed |}, world s)
    | (inl e, s) =>
        ({| printed := None; reported := None; rejected := Some e;
            prompt := Abandoned |}, world s)
    end.

End Client.

(** *** The shape of a run

    [Steps] lists what the loop over the blocks of the first response adds
    to the trace, to the transcript and to [textResponses], from the
    transcript [before] and the value [current] of [response]. *)
Inductive Steps (formattedTools : list Schema.t)
  : list Message -> Response -> list ContentBlock -> Thrown + unit ->
    list Event -> list Message -> list string -> Prop :=
| steps_done (before : list Message) (current : Response) :
    Steps formattedTools before current [] (inr tt) [] [] []
| steps_text (before : list Message) (current : Response) (text : string)
    (rest : list ContentBlock) (outcome : Thrown + unit)
    (events : list Event) (added : list Message) (parts : list string) :
    Steps formattedTools before current rest outcome events added parts ->
    Steps formattedTools before current (Text text :: rest) outcome
      events added (text :: parts)
| steps_other (before : list Message) (current : Response) (type : string)
    (rest : list ContentBlock) (outcome : Thrown + unit)
    (events : list Event) (added : list Message) (parts : list string) :
    Steps formattedTools before current rest outcome events added parts ->
    Steps formattedTools before current (Other type :: rest) outcome
      events added parts
| steps_tool_failed (before : list Message) (current : Response)
    (id name : string) (input : JSON) (rest : list ContentBlock)
    (error : Thrown) :
    Steps formattedTools before current (ToolUse id name input :: rest)
      (inl error)
      [ToolsCall (call_params name input) (inl error)] [] []
| steps_llm_failed (before : list Message) (current : Response)
    (id name : string) (input : JSON) (rest : list ContentBlock)
    (result : Content) (error : Thrown) :
    Steps formattedTools before current (ToolUse id name input :: rest)
      (inl error)
      [ToolsCall (call_params name input) (inr result);
       Create (request_of (Some follow_up_model) formattedTools
                 (before ++ exchange current id result)) (inl error)]
      (exchange current id result) []
| steps_next (before : list Message) (current : Response)
    (id name : string) (input : JSON) (rest : list ContentBlock)
    (result : Content) (next : Response) (outcome : Thrown + unit)
    (events : list Event) (added : list Message) (parts : list string) :
    Steps formattedTools (before ++ exchange current id result) next rest
      outcome events added parts ->
    Steps formattedTools before current (ToolUse id name input :: rest)
      outcome
      (ToolsCall (call_params name input) (inr result)
       :: Create (request_of (Some follow_up_model) formattedTools
                    (before ++ exchange current id result)) (inr next)
       :: events)
      (exchange current id result ++ added)
      (leading_text next ++ parts).

End Claude.

(* ================================================================= *)
(** ** Scripted worlds *)

(** A world for running the clients: the answers the tool host and the
    LLM will give, in order.  A service whose script has run out fails. *)
Module Script.

Record World (R : Type) : Type := {
  listed : list Tool.t;
  calls : list (Thrown + Content);
  replies : list (Thrown + R)
}.

Definition exhausted : Thrown := JsError "script exhausted".

Definition host (R : Type) : Host (World R) :=
  {| tools_list := fun w => (inr (listed w), w);
     tools_call := fun _ w =>
       match calls w with
       | r :: rest =>
           (r, {| listed := listed w; calls := rest; replies := replies w |})
       | [] => (inl exhausted, w)
       end;
     transport_close := fun w => (inr tt, w) |}.

Definition llm (Q R : Type) (_ : Q) (w : World R) : (Thrown + R) * World R :=
  match replies w with
  | r :: rest =>
      (r, {| listed := listed w; calls := calls w; replies := rest |})
  | [] => (inl exhausted, w)
  end.

(** A stand-in for [JSON.parse] that knows the argument strings of the
    scenarios below; every other text is a syntax error. *)
Definition parse (text : string) : Thrown + JSON :=
  if String.eqb text "{}" then inr (JObject [])
  else if String.eqb text
            ("{" ++ quote "path" ++ ":" ++ quote "/tmp" ++ "}")
       then inr (JObject [("path", JString "/tmp")])
  else inl (JsError "Unexpected token in JSON").

End Script.

(* ================================================================= *)
(** ** The specification's wording of the tool-result text *)

(** The text of a content block that is [{type: "text", text: <string>}]. *)
Definition block_text (item : list (string * JSON)) : option string :=
  if is_text item then
    match lookup "text" item with
    | Some (JString t) => Some t
    | _ => None
    end
  else None.

(** The texts of an array that consists of text blocks only. *)
Fixpoint all_text (items : list (list (string * JSON))) : option (list string) :=
  match items with
  | [] => Some []
  | item :: rest =>
      match block_text item, all_text rest with
      | Some t, Some ts => Some (t :: ts)
      | _, _ => None
      end
  end.

(** The tool-result text in the specification's words: an array of text
    blocks is joined with newlines, any other content shape is serialized
    to JSON. *)
Definition specified_text (c : Content) : string :=
  match c with
  | Blocks items =>
      match all_text items with
      | Some ts => join newline ts
      | None => JSON_stringify (Content_json c)
      end
  | Structured value => JSON_stringify (NonArray_json value)
  end.

(* ================================================================= *)
(** ** Sessions used as examples *)

Module Scenario.

Definition listed : list Tool.t :=
  [{| Tool.name := "list_files"; Tool.description := None;
      Tool.inputSchema := JObject [("type", JString "object")] |}].

(** The arguments [{path: "/tmp"}], on the wire and parsed. *)
Definition path_text : string :=
  "{" ++ quote "path" ++ ":" ++ quote "/tmp" ++ "}".

Definition path : JSON := JObject [("path", JString "/tmp")].

Definition files : Content :=
  Blocks [text_block ("a.txt" ++ newline ++ "b.txt")].

Definition picture : Content :=
  Blocks [[("type", JString "image"); ("data", JString "AAAA");
           ("mimeType", JString "image/png")]].

Definition boom : Thrown := JsError "boom".

Definition rate_limit : Thrown := APIError "429 rate limit".

(** *** OpenAI *)

Definition list_files (id : string) : OpenAI.ToolCall :=
  {| OpenAI.id := id; OpenAI.function_name := "list_files";
     OpenAI.function_arguments := path_text |}.

Definition says (text : string) : OpenAI.Completion :=
  [{| OpenAI.content := Some text; OpenAI.tool_calls := None |}].

Definition asks (calls : list OpenAI.ToolCall) : OpenAI.Completion :=
  [{| OpenAI.content := None; OpenAI.tool_calls := Some calls |}].

Definition openai_world (calls : list (Thrown + Content))
    (replies : list (Thrown + OpenAI.Completion))
  : Script.World OpenAI.Completion :=
  {| Script.listed := listed; Script.calls := calls;
     Script.replies := replies |}.

Definition openai (w : Script.World OpenAI.Completion) (query : string)
  : (Thrown + string) * OpenAI.State (Script.World OpenAI.Completion) :=
  OpenAI.processQuery (Some (Script.host OpenAI.Completion))
    (@Script.llm OpenAI.Request OpenAI.Completion) (Some "gpt-4o")
    Script.parse query (OpenAI.initial w).

(** Scenario A: a plain answer. *)
Definition plain : Script.World OpenAI.Completion :=
  openai_world [] [inr (says "4")].

(** Scenario B: one tool request, then a plain answer. *)
Definition one_tool : Script.World OpenAI.Completion :=
  openai_world [inr files]
    [inr (asks [list_files "call_1"]); inr (says "Found 2 files.")].

(** Scenario D: two tool requests in one turn, the first fails. *)
Definition first_fails : Script.World OpenAI.Completion :=
  openai_world [inl boom; inr files]
    [inr (asks [list_files "call_1"; list_files "call_2"]);
     inr (says "Found 2 files.")].

(** Two tool requests in one turn, both succeed. *)
Definition two_tools : Script.World OpenAI.Completion :=
  openai_world [inr files; inr files]
    [inr (asks [list_files "call_1"; list_files "call_2"]);
     inr (says "One."); inr (says "Two.")].

(** One tool request; the follow-up turn requests a tool again. *)
Definition chained : Script.World OpenAI.Completion :=
  openai_world [inr files; inr files]
    [inr (asks [list_files "call_1"]); inr (asks [list_files "call_2"]);
     inr (says "Found 2 files.")].

(** One tool request, which fails. *)
Definition one_fails : Script.World OpenAI.Completion :=
  openai_world [inl boom] [inr (asks [list_files "call_1"])].

(** The first LLM call fails. *)
Definition refused : Script.World OpenAI.Completion :=
  openai_world [] [inl rate_limit].

(** Two tool requests in one turn; the LLM call after the first fails. *)
Definition refused_later : Script.World OpenAI.Completion :=
  openai_world [inr files; inr files]
    [inr (asks [list_files "call_1"; list_files "call_2"]);
     inl rate_limit; inr (says "Two.")].

(** *** Claude *)

Definition claude_world (calls : list (Thrown + Content))
    (replies : list (Thrown + Claude.Response))
  : Script.World Claude.Response :=
  {| Script.listed := listed; Script.calls := calls;
     Script.replies := replies |}.

Definition claude (w : Script.World Claude.Response) (query : string)
  : (Thrown + string) * Claude.State (Script.World Claude.Response) :=
  Claude.processQuery (Some (Script.host Claude.Response))
    (@Script.llm Claude.Request Claude.Response)
    (Some "claude-3-opus-20240229") query (Claude.initial w).

Definition claude_ask (w : Script.World Claude.Response) (line : string)
  : Turn * Script.World Claude.Response :=
  Claude.ask (Some (Script.host Claude.Response))
    (@Script.llm Claude.Request Claude.Response)
    (Some "claude-3-opus-20240229") line w.

Definition openai_ask (w : Script.World OpenAI.Completion) (line : string)
  : Turn * Script.World OpenAI.Completion :=
  OpenAI.askQuestion (Some (Script.host OpenAI.Completion))
    (@Script.llm OpenAI.Request OpenAI.Completion) (Some "gpt-4o")
    Script.parse line w.

(** Scenario A. *)
Definition claude_plain : Script.World Claude.Response :=
  claude_world [] [inr [Claude.Text "4"]].

(** Scenario B. *)
Definition claude_one_tool : Script.World Claude.Response :=
  claude_world [inr files]
    [inr [Claude.ToolUse "toolu_1" "list_files" path];
     inr [Claude.Text "Found 2 files."]].

(** The first LLM call fails. *)
Definition claude_refused : Script.World Claude.Response :=
  claude_world [] [inl rate_limit].

(** *** The runs *)

Definition run_plain := openai plain "What is 2+2?".
Definition run_one_tool := openai one_tool "List files in /tmp".
Definition run_first_fails := openai first_fails "List files in /tmp".
Definition run_two_tools := openai two_tools "List files in /tmp".
Definition run_chained := openai chained "List files in /tmp".
Definition run_one_fails := openai one_fails "List files in /tmp".
Definition run_refused_later := openai refused_later "List files in /tmp".
Definition run_claude_plain := claude claude_plain "What is 2+2?".
Definition run_claude_one_tool := claude claude_one_tool "List files in /tmp".

(** A tool without a description. *)
Definition undescribed : Tool.t :=
  {| Tool.name := "list_files"; Tool.description := None;
     Tool.inputSchema := JObject [("type", JString "object")] |}.

End Scenario.

(* ================================================================= *)
(** ** The process around [processQuery] *)

(** [s.endsWith(suffix)] *)
Fixpoint endsWith (s suffix : string) : bool :=
  if String.eqb s suffix then true
  else match s with
       | EmptyString => false
       | String _ rest => endsWith rest suffix
       end.

(** [s.includes(part)] *)
Fixpoint includes (s part : string) : bool :=
  if String.prefix part s then true
  else match s with
       | EmptyString => false
       | String _ rest => includes rest part
       end.

(** The argument of [new StdioClientTransport]. *)
Record Transport : Type := {
  command : string;
  args : list string
}.

(** [b] is [a] with something appended. *)
Definition grows {A : Type} (a b : list A) : Prop :=
  exists more, more <> [] /\ b = (a ++ more)%list.

(** [b] starts with [a]. *)
Definition starts_with {A : Type} (a b : list A) : Prop :=
  exists more, b = (a ++ more)%list.

(** How [main] ends. *)
Inductive Outcome : Type :=
| Exited (code : nat)         (* [process.exit(code)] *)
| Prompting                   (* [chatLoop] armed the prompt and returned *)
| Rejected (error : Thrown)   (* the promise of [main] rejected *)
| Idle.                       (* [main] was not called *)

(** *** OpenAI: [constructor], [connectToServer], [chatLoop], [main] *)

Module OpenAIMain.

(** The tools that the session listed first. *)
Definition listed (t : list OpenAI.Event) : list Tool.t :=
  match t with
  | OpenAI.ToolsList (inr tools) :: _ => tools
  | _ => []
  end.

(** The assistant messages of a transcript. *)
Definition assistants (ms : list OpenAI.Message)
  : list OpenAI.ChatCompletionMessage :=
  flat_map (fun m => match m with
                     | OpenAI.Assistant a => [a]
                     | _ => []
                     end) ms.

Section Process.
Variable W : Type.
(** The connection that [new Client] gives over
    [new StdioClientTransport(transport)]. *)
Variable server : Transport -> Host W.
(** [client.connect(transport)]: starts the server process. *)
Variable connect : Transport -> W -> (Thrown + unit) * W.
Variable create : OpenAI.Request -> W -> (Thrown + OpenAI.Completion) * W.
(** [process.env.OPENAI_API_KEY] and [process.env.OPENAI_MODEL] *)
Variable OPENAI_API_KEY : option string.
Variable OPENAI_MODEL : option string.
Variable JSON_parse : string -> Thrown + JSON.

(** [constructor]: the fields [client] and [transport] start null. *)
Definition construct : Thrown + option (Host W) :=
  if truthy OPENAI_API_KEY then inr None
  else inl (JsError "OPENAI_API_KEY environment variable is not set").

(** [connectToServer]: from the fields [self] and the world to the tool
    names it logs, the fields and the world.  The fields are assigned
    before [connect] is awaited. *)
Definition connectToServer (serverScriptPath : string)
    (self : option (Host W)) (w : W)
  : (Thrown + list string) * (option (Host W) * W) :=
  let isPython := endsWith serverScriptPath ".py" in
  let isJs := endsWith serverScriptPath ".js" in
  if negb isPython && negb isJs then
    (inl (JsError "Server script must be a .py or .js file"), (self, w))
  else
    let transport :=
      {| command := if isPython then "python" else "node";
         args := [serverScriptPath] |} in
    let client := server transport in
    match connect transport w with
    | (inl error, w1) => (inl error, (Some client, w1))
    | (inr _, w1) =>
        match tools_list client w1 with
        | (inl error, w2) => (inl error, (Some client, w2))
        | (inr tools, w2) => (inr (map Tool.name tools), (Some client, w2))
        end
    end.

(** [chatLoop] on the lines that answer its prompts: the callback runs on
    one line, and the next line is read only if the callback asked
    again. *)
Fixpoint chatLoop (self : option (Host W)) (lines : list string) (w : W)
  : list Turn * W :=
  match lines with
  | [] => ([], w)
  | line :: rest =>
      let (turn, w1) :=
        OpenAI.askQuestion self create OPENAI_MODEL JSON_parse line w in
      match prompt turn with
      | Rearmed =>
          let (turns, w2) := chatLoop self rest w1 in (turn :: turns, w2)
      | _ => ([turn], w1)
      end
  end.

(** [main] with [process.argv]. *)
Definition main (argv : list string) (w : W)
  : Outcome * (option (Host W) * W) :=
  if (length argv <? 3)%nat then (Exited 1, (None, w))
  else
    match construct with
    | inl error => (Rejected error, (None, w))
    | inr self =>
        match connectToServer (nth 2 argv "") self w with
        | (inr _, state) => (Prompting, state)
        | (inl _, (self1, w1)) =>
            match OpenAI.cleanup self1 w1 with
            | (inr _, w2) => (Exited 1, (self1, w2))
            | (inl error, w2) => (Rejected error, (self1, w2))
            end
        end
    end.

(** The entry point: [main] is called when [process.argv[1]] includes
    [openai-client], and a rejection of it exits with code 1. *)
Definition start (argv : list string) (w : W)
  : Outcome * (option (Host W) * W) :=
  match nth_error argv 1 with
  | Some script =>
      if includes script "openai-client" then
        match main argv w with
        | (Rejected _, state) => (Exited 1, state)
        | done => done
        end
      else (Idle, (None, w))
  | None => (Idle, (None, w))
  end.

End Process.

End OpenAIMain.

(** *** Claude: [constructor], [connectToServer], [chatLoop], [main] *)

Module ClaudeMain.

Definition listed (t : list Claude.Event) : list Tool.t :=
  match t with
  | Claude.ToolsList (inr tools) :: _ => tools
  | _ => []
  end.

(** The error of a remote call that failed. *)
Definition failure (e : Claude.Event) : option Thrown :=
  match e with
  | Claude.ToolsList (inl error) => Some error
  | Claude.ToolsCall _ (inl error) => Some error
  | Claude.Create _ (inl error) => Some error
  | _ => None
  end.

(** The assistant turns of a transcript. *)
Definition assistants (ms : list Claude.Message) : list Claude.Response :=
  flat_map (fun m => match m with
                     | Claude.Assistant blocks => [blocks]
                     | _ => []
                     end) ms.

Section Process.
Variable W : Type.
Variable server : Transport -> Host W.
Variable connect : Transport -> W -> (Thrown + unit) * W.
Variable create : Claude.Request -> W -> (Thrown + Claude.Response) * W.
(** [process.env.ANTHROPIC_API_KEY] and [process.env.ANTHROPIC_MODEL] *)
Variable ANTHROPIC_API_KEY : option string.
Variable ANTHROPIC_MODEL : option string.

Definition construct : Thrown + option (Host W) :=
  if truthy ANTHROPIC_API_KEY then inr None
  else inl (JsError "ANTHROPIC_API_KEY environment variable is not set").

Definition connectToServer (serverScriptPath : string)
    (self : option (Host W)) (w : W)
  : (Thrown + list string) * (option (Host W) * W) :=
  let transport :=
    {| command := if endsWith serverScriptPath ".py" then "python" else "node";
       args := [serverScriptPath] |} in
  let client := server transport in
  match connect transport w with
  | (inl error, w1) => (inl error, (Some client, w1))
  | (inr _, w1) =>
      match tools_list client w1 with
      | (inl error, w2) => (inl error, (Some client, w2))
      | (inr tools, w2) => (inr (map Tool.name tools), (Some client, w2))
      end
  end.

Fixpoint chatLoop (self : option (Host W)) (lines : list string) (w : W)
  : list Turn * W :=
  match lines with
  | [] => ([], w)
  | line :: rest =>
      let (turn, w1) := Claude.ask self create ANTHROPIC_MODEL line w in
      match prompt turn with
      | Rearmed =>
          let (turns, w2) := chatLoop self rest w1 in (turn :: turns, w2)
      | _ => ([turn], w1)
      end
  end.

(** [main]: [path] is [process.argv[2]]; nothing catches. *)
Definition main (argv : list string) (w : W)
  : Outcome * (option (Host W) * W) :=
  if truthy (nth_error argv 2) then
    match construct with
    | inl error => (Rejected error, (None, w))
    | inr self =>
        match connectToServer (nth 2 argv "") self w with
        | (inr _, state) => (Prompting, state)
        | (inl error, state) => (Rejected error, state)
        end
    end
  else (Exited 1, (None, w)).

End Process.

End ClaudeMain.

(** *** Stages for examples *)

Module Stage.

(** A launcher whose server is the scripted host. *)
Definition server (R : Type) (_ : Transport) : Host (Script.World R) :=
  Script.host R.

Definition connects (R : Type) (_ : Transport) (w : Script.World R)
  : (Thrown + unit) * Script.World R := (inr tt, w).

Definition refuses (R : Type) (_ : Transport) (w : Script.World R)
  : (Thrown + unit) * Script.World R := (inl Scenario.boom, w).

(** A host whose transport cannot be closed. *)
Definition stuck (R : Type) : Host (Script.World R) :=
  {| tools_list := tools_list (Script.host R);
     tools_call := tools_call (Script.host R);
     transport_close := fun w => (inl Scenario.boom, w) |}.

(** A host that cannot list its tools. *)
Definition deaf (R : Type) : Host (Script.World R) :=
  {| tools_list := fun w => (inl Scenario.boom, w);
     tools_call := tools_call (Script.host R);
     transport_close := transport_close (Script.host R) |}.

(** A first assistant turn whose second request has malformed
    arguments. *)
Definition garbled : Script.World OpenAI.Completion :=
  Scenario.openai_world [inr Scenario.files; inr Scenario.files]
    [inr (Scenario.asks
            [Scenario.list_files "call_1";
             {| OpenAI.id := "call_2"; OpenAI.function_name := "list_files";
                OpenAI.function_arguments := "{path" |};
             Scenario.list_files "call_3"]);
     inr (Scenario.says "One.")].

(** Two tool requests in one Claude turn. *)
Definition claude_two_tools : Script.World Claude.Response :=
  Scenario.claude_world [inr Scenario.files; inr Scenario.files]
    [inr [Claude.ToolUse "toolu_1" "list_files" Scenario.path;
          Claude.ToolUse "toolu_2" "list_files" Scenario.path];
     inr [Claude.Text "One."]; inr [Claude.Text "Two."]].

(** One tool request, which fails. *)
Definition claude_tool_fails : Script.World Claude.Response :=
  Scenario.claude_world [inl Scenario.boom]
    [inr [Claude.ToolUse "toolu_1" "list_files" Scenario.path]].

(** A world that is the log of the transports launched, with a tool
    host that lists no tool. *)
Definition quiet : Host (list Transport) :=
  {| tools_list := fun w => (inr [], w);
     tools_call := fun _ w => (inl Scenario.boom, w);
     transport_close := fun w => (inr tt, w) |}.

Definition launches (transport : Transport) (w : list Transport)
  : (Thrown + unit) * list Transport := (inr tt, w ++ [transport])%list.

(** A launcher that finds no [python] on the machine. *)
Definition no_python (transport : Transport) (w : list Transport)
  : (Thrown + unit) * list Transport :=
  if String.eqb (command transport) "python"
  then (inl (JsError "spawn python ENOENT"), w)
  else (inr tt, w ++ [transport])%list.

(** A first assistant turn whose second request has malformed
    arguments, after a follow-up turn that requests a tool again. *)
Definition garbled_later : Script.World OpenAI.Completion :=
  Scenario.openai_world [inr Scenario.files]
    [inr (Scenario.asks
            [Scenario.list_files "call_1";
             {| OpenAI.id := "call_2"; OpenAI.function_name := "list_files";
                OpenAI.function_arguments := "{path" |}]);
     inr (Scenario.asks [Scenario.list_files "call_3"])].

(** Three queries to the Claude client; the LLM refuses the second. *)
Definition claude_second_refused : Script.World Claude.Response :=
  Scenario.claude_world []
    [inr [Claude.Text "4"]; inl Scenario.rate_limit; inr [Claude.Text "9"]].

End Stage.

(* ================================================================= *)
(** ** Facts about the OpenAI client *)

Local Open Scope list_scope.

Module OpenAIFacts.
Import OpenAI.

#[local] Arguments calling_notice : simpl never.
#[local] Arguments error_notice : simpl never.
#[local] Arguments tool_message : simpl never.
#[local] Arguments request_of : simpl never.
#[local] Arguments call_params : simpl never.

Section Facts.
Variable W : Type.
Variable client : option (Host W).
Variable create : Request -> W -> (Thrown + Completion) * W.
Variable OPENAI_MODEL : option string.
Variable JSON_parse : string -> Thrown + JSON.

Local Abbreviation callTool := (callTool create OPENAI_MODEL JSON_parse).
Local Abbreviation Round := (Round OPENAI_MODEL).
Local Abbreviation Rounds := (Rounds OPENAI_MODEL JSON_parse).
Local Abbreviation request_of := (request_of OPENAI_MODEL).
Local Abbreviation processQuery :=
  (processQuery client create OPENAI_MODEL JSON_parse).

Ltac shape R :=
  match type of R with
  | OpenAI.Round _ _ _ _ _ ?events ?added ?parts =>
      exists events, added, parts; eexists; split; [reflexivity|]; cbn;
      repeat rewrite <- app_assoc; rewrite ?app_nil_r;
      repeat split; [reflexivity .. | exact R]
  end.

(** Readers distribute over concatenation. *)
Lemma requests_app a b : requests (a ++ b) = requests a ++ requests b.
Proof. apply flat_map_app. Qed.

Lemma turns_app a b : turns (a ++ b) = turns a ++ turns b.
Proof. apply flat_map_app. Qed.

Lemma invocations_app a b : invocations (a ++ b) = invocations a ++ invocations b.
Proof. apply flat_map_app. Qed.

Lemma returned_app a b : returned (a ++ b) = returned a ++ returned b.
Proof. apply flat_map_app. Qed.

Lemma failures_app a b : failures (a ++ b) = failures a ++ failures b.
Proof. apply flat_map_app. Qed.

Lemma narrate_app a b : narrate (a ++ b) = narrate a ++ narrate b.
Proof. apply flat_map_app. Qed.

Lemma results_app a b : results (a ++ b) = results a ++ results b.
Proof. apply flat_map_app. Qed.

(** *** One round *)

Lemma Round_narrate tools before toolCall toolArgs events added parts :
  Round tools before toolCall toolArgs events added parts ->
  parts = narrate events.
Proof.
  intros [error|result reply]; cbn; rewrite ?app_nil_r; reflexivity.
Qed.

Lemma Round_invocations tools before toolCall toolArgs events added parts :
  Round tools before toolCall toolArgs events added parts ->
  invocations events = [call_params (function_name toolCall) toolArgs].
Proof. intros []; reflexivity. Qed.

Lemma Round_requests tools before toolCall toolArgs events added parts :
  Round tools before toolCall toolArgs events added parts ->
  requests events = []
  \/ exists result,
       requests events
       = [request_of tools (before ++ [tool_message toolCall result])].
Proof. intros [error|result reply]; [left|right; exists result]; reflexivity. Qed.

Lemma Round_results tools before toolCall toolArgs events added parts :
  Round tools before toolCall toolArgs events added parts ->
  results added
  = map (fun content => (id toolCall, toolResultText content)) (returned events).
Proof. intros []; reflexivity. Qed.

Lemma Round_failures tools before toolCall toolArgs events added parts :
  Round tools before toolCall toolArgs events added parts ->
  length (returned events) + length (failures events) = 1
  /\ forall error, In error (failures events) -> In (error_notice error) parts.
Proof.
  intros [error|result reply]; cbn; split; auto.
  - intros e [<-|[]]. auto.
  - intros e [].
Qed.

Lemma Round_additional tools before toolCall toolArgs events added parts :
  Round tools before toolCall toolArgs events added parts ->
  forall m, In m (turns events) -> has_tool_calls m = true ->
            In additional_notice parts.
Proof.
  intros [error|result [error|[|m others]]]; cbn; try tauto.
  intros m' [<-|[]] H. right. apply in_or_app. right.
  unfold additional_part. rewrite H. now left.
Qed.

Lemma Round_first tools before toolCall toolArgs events added parts :
  Round tools before toolCall toolArgs events added parts ->
  exists more,
    parts = calling_notice (function_name toolCall) toolArgs :: more.
Proof. intros []; eexists; reflexivity. Qed.

(** *** The loop *)

Lemma Rounds_narrate tools before calls outcome events added parts :
  Rounds tools before calls outcome events added parts ->
  parts = narrate events.
Proof.
  induction 1 as [| |? ? ? ? ? ? ? ? ? ? ? P R Rs IH]; try reflexivity.
  rewrite narrate_app. f_equal; [eapply Round_narrate; eassumption | exact IH].
Qed.

Lemma Rounds_complete tools before calls outcome events added parts :
  Rounds tools before calls outcome events added parts ->
  Forall (fun toolCall =>
            exists toolArgs,
              JSON_parse (function_arguments toolCall) = inr toolArgs) calls ->
  outcome = inr tt
  /\ map inr (invocations events) = map (tool_params JSON_parse) calls.
Proof.
  induction 1 as [| ? ? ? ? P |? ? ? ? ? ? ? ? ? ? ? P R Rs IH]; intros F.
  - split; reflexivity.
  - inversion F as [|? ? [toolArgs Q] F']; subst. congruence.
  - inversion F as [|? ? Q F']; subst. destruct (IH F') as [-> E].
    split; [reflexivity|].
    rewrite invocations_app, map_app, E, (Round_invocations R).
    cbn. unfold tool_params at 2. rewrite P. reflexivity.
Qed.

Lemma Rounds_bounds tools before calls outcome events added parts :
  Rounds tools before calls outcome events added parts ->
  length (invocations events) <= length calls
  /\ length (requests events) <= length (invocations events).
Proof.
  induction 1 as [| |? ? ? ? ? ? ? ? ? ? ? P R Rs IH]; cbn; try lia.
  rewrite invocations_app, requests_app, !length_app, (Round_invocations R).
  destruct (Round_requests R) as [->|[result ->]]; cbn; lia.
Qed.

Lemma Rounds_results tools before calls outcome events added parts :
  Rounds tools before calls outcome events added parts ->
  map snd (results added) = map toolResultText (returned events).
Proof.
  induction 1 as [| |? ? ? ? ? ? ? ? ? ? ? P R Rs IH]; try reflexivity.
  rewrite results_app, returned_app, !map_app, IH, (Round_results R), map_map.
  reflexivity.
Qed.

Lemma Rounds_failures tools before calls outcome events added parts :
  Rounds tools before calls outcome events added parts ->
  length (returned events) + length (failures events)
  = length (invocations events)
  /\ forall error, In error (failures events) -> In (error_notice error) parts.
Proof.
  induction 1 as [| |? ? ? ? ? ? ? ? ? ? ? P R Rs [IHn IH]]; cbn;
    try (split; [reflexivity | intros ? []]).
  destruct (Round_failures R) as [Hn Hf]. split.
  - rewrite returned_app, failures_app, invocations_app, !length_app,
      (Round_invocations R). cbn. lia.
  - intros error Hin. rewrite failures_app in Hin.
    apply in_or_app. apply in_app_or in Hin. destruct Hin; [left|right]; auto.
Qed.

Lemma Rounds_additional tools before calls outcome events added parts :
  Rounds tools before calls outcome events added parts ->
  forall m, In m (turns events) -> has_tool_calls m = true ->
            In additional_notice parts.
Proof.
  induction 1 as [| |? ? ? ? ? ? ? ? ? ? ? P R Rs IH]; cbn; try tauto.
  intros m Hin H. rewrite turns_app in Hin. apply in_or_app.
  apply in_app_or in Hin. destruct Hin as [Hin|Hin]; [left|right].
  - eapply Round_additional; eassumption.
  - eapply IH; eassumption.
Qed.

Lemma Rounds_single tools before toolCall outcome events added parts :
  Rounds tools before [toolCall] outcome events added parts ->
  requests events = []
  \/ exists result,
       requests events
       = [request_of tools (before ++ [tool_message toolCall result])].
Proof.
  inversion 1 as [| |? ? ? ? ? ? ? ? ? ? ? P R Rs]; subst; [now left|].
  inversion Rs; subst. rewrite app_nil_r. exact (Round_requests R).
Qed.

Lemma Rounds_nil tools before outcome events added parts :
  Rounds tools before [] outcome events added parts ->
  outcome = inr tt /\ events = [] /\ added = [] /\ parts = [].
Proof. inversion 1; auto. Qed.

Ltac run :=
  cbv beta iota zeta delta
    [bind ret throw try_catch get modify remote push_message push_text lift
     set_messages first_message completions_create conversation failed
     initial];
  cbn [world trace messages finalText app].

Lemma callTool_round (c : Host W) tools toolCall (s : State W) :
  match JSON_parse (function_arguments toolCall) with
  | inl error => callTool c tools toolCall s = (inl error, s)
  | inr toolArgs =>
      exists events added parts s',
        callTool c tools toolCall s = (inr tt, s')
        /\ trace s' = trace s ++ events
        /\ messages s' = messages s ++ added
        /\ finalText s' = finalText s ++ parts
        /\ Round tools (messages s) toolCall toolArgs events added parts
  end.
Proof.
  unfold OpenAI.callTool, bind, lift.
  destruct (JSON_parse (function_arguments toolCall)) as [error|toolArgs];
    [reflexivity|].
  cbn [ret throw].
  unfold try_catch, completions_create, bind, remote, push_text, push_message,
    modify, get, first_message. cbn.
  match goal with |- context [tools_call c ?p ?w] =>
    destruct (tools_call c p w) as [[error|result] w1] end; cbn.
  - pose proof (round_failed OPENAI_MODEL tools (messages s) toolCall
                  toolArgs error) as R.
    shape R.
  - match goal with |- context [create ?r ?w] =>
      destruct (create r w) as [[error|[|m others]] w2] end; cbn.
    + pose proof (round_invoked OPENAI_MODEL tools (messages s) toolCall
                    toolArgs result (inl error)) as R.
      shape R.
    + pose proof (round_invoked OPENAI_MODEL tools (messages s) toolCall
                    toolArgs result (inr [])) as R.
      shape R.
    + pose proof (round_invoked OPENAI_MODEL tools (messages s) toolCall
                    toolArgs result (inr (m :: others))) as R.
      cbn in R. unfold text_part, additional_part in R.
      destruct (truthy (content m)); destruct (has_tool_calls m); cbn in *;
        shape R.
Qed.

Lemma for_of_rounds (c : Host W) tools calls : forall s : State W,
  exists outcome events added parts s',
    for_of calls (callTool c tools) s = (outcome, s')
    /\ trace s' = trace s ++ events
    /\ messages s' = messages s ++ added
    /\ finalText s' = finalText s ++ parts
    /\ Rounds tools (messages s) calls outcome events added parts.
Proof.
  induction calls as [|toolCall rest IH]; intros s.
  - exists (inr tt), [], [], [], s. cbn. rewrite !app_nil_r.
    repeat split; constructor.
  - cbn [for_of]. unfold bind at 1.
    pose proof (callTool_round c tools toolCall s) as H.
    destruct (JSON_parse (function_arguments toolCall))
      as [error|toolArgs] eqn:P.
    + rewrite H. exists (inl error), [], [], [], s. rewrite !app_nil_r.
      repeat split. now constructor.
    + destruct H as (events & added & parts & s1 & -> & Ht & Hm & Hf & R).
      destruct (IH s1) as (outcome & events' & added' & parts' & s2
                           & E & Ht' & Hm' & Hf' & Rs).
      rewrite E. exists outcome, (events ++ events'), (added ++ added'),
                   (parts ++ parts'), s2.
      rewrite Ht', Ht, Hm', Hm, Hf', Hf, !app_assoc.
      repeat split. rewrite Hm in Rs. eapply rounds_next; eassumption.
Qed.

Lemma loop_guard (m : ChatCompletionMessage)
    (body : ToolCall -> M (State W) unit) :
  (if has_tool_calls m then for_of (requested m) body else ret tt)
  = for_of (requested m) body.
Proof.
  unfold has_tool_calls, requested.
  destruct (tool_calls m) as [[|toolCall rest]|]; reflexivity.
Qed.

Lemma openai_query_shape (c : Host W) query (w : W) :
  client = Some c ->
  match tools_list c w with
  | (inl error, w1) =>
      processQuery query (initial w)
      = (inl error, {| world := w1; trace := [ToolsList (inl error)];
                       messages := base query; finalText := [] |})
  | (inr listed, w1) =>
      let request := request_of (formatTools listed) (base query) in
      match create request w1 with
      | (inl error, w2) =>
          processQuery query (initial w)
          = (inr (failure_text error),
             {| world := w2;
                trace := [ToolsList (inr listed); Create request (inl error)];
                messages := base query; finalText := [] |})
      | (inr [], w2) =>
          processQuery query (initial w)
          = (inr (failure_text no_choice),
             {| world := w2;
                trace := [ToolsList (inr listed); Create request (inr [])];
                messages := base query; finalText := [] |})
      | (inr (m :: others), w2) =>
          exists outcome events added parts s',
            processQuery query (initial w)
            = (inr match outcome with
                   | inl error => failure_text error
                   | inr _ => join newline (text_part m ++ parts)
                   end, s')
            /\ trace s' = [ToolsList (inr listed);
                           Create request (inr (m :: others))] ++ events
            /\ messages s' = base query ++ Assistant m :: added
            /\ finalText s' = text_part m ++ parts
            /\ Rounds (formatTools listed) (base query ++ [Assistant m])
                 (requested m) outcome events added parts
      end
  end.
Proof.
  intros Hc. unfold OpenAI.processQuery. rewrite Hc. run.
  destruct (tools_list c w) as [[error|listed] w1]; run; [reflexivity|].
  destruct (create (request_of (formatTools listed) (base query)) w1)
    as [[error|[|m others]] w2]; run; try reflexivity.
  rewrite loop_guard. unfold text_part.
  destruct (truthy (content m)); run;
  match goal with
  | |- context [for_of (requested m) ?body ?s] =>
      destruct (for_of_rounds c (formatTools listed) (requested m) s)
        as (outcome & events & added & parts & s' & E & Ht & Hm & Hf & Rs)
  end; rewrite E; cbn [world trace messages finalText app] in *;
  exists outcome, events, added, parts, s';
  (destruct outcome as [error|[]]; run;
   rewrite ?Hf, Ht, Hm, <- ?app_assoc; cbn [app]; repeat split; exact Rs).
Qed.

Lemma openai_query_cases query (w : W) :
  let run := processQuery query (initial w) in
  (turns (trace (snd run)) = []
   /\ invocations (trace (snd run)) = []
   /\ Forall (fun r => sent r = base query) (requests (trace (snd run)))
   /\ length (requests (trace (snd run))) <= 1
   /\ results (messages (snd run)) = []
   /\ returned (trace (snd run)) = [])
  \/ (exists listed request m others outcome events added parts,
        fst run = inr match outcome with
                      | inl error => failure_text error
                      | inr _ => join newline (text_part m ++ parts)
                      end
        /\ trace (snd run) = [ToolsList (inr listed);
                              Create request (inr (m :: others))] ++ events
        /\ sent request = base query
        /\ messages (snd run) = base query ++ Assistant m :: added
        /\ finalText (snd run) = text_part m ++ parts
        /\ Rounds (formatTools listed) (base query ++ [Assistant m])
             (requested m) outcome events added parts).
Proof.
  cbv zeta. destruct client as [c|] eqn:Hc.
  - pose proof (@openai_query_shape c query w Hc) as H. rewrite Hc in H.
    destruct (tools_list c w) as [[error|listed] w1].
    + left. rewrite H. cbn. repeat split; auto.
    + cbv zeta in H.
      destruct (create (request_of (formatTools listed) (base query)) w1)
        as [[error|[|m others]] w2].
      * left. rewrite H. cbn. repeat split; auto.
      * left. rewrite H. cbn. repeat split; auto.
      * right. destruct H as (outcome & events & added & parts & s'
                              & E & Ht & Hm & Hf & Rs).
        exists listed, (request_of (formatTools listed) (base query)),
          m, others, outcome, events, added, parts.
        rewrite E. cbn [fst snd]. repeat split; assumption.
  - left. cbn. repeat split; auto.
Qed.

(** When the first LLM call fails, the caller receives the string of the
    outer handler, and no further remote call is made. *)
Lemma openai_first_refusal query (w : W) error :
  let run := processQuery query (initial w) in
  turns (trace (snd run)) = [] ->
  In error (refusals (trace (snd run))) ->
  fst run = inr (failure_text error)
  /\ length (requests (trace (snd run))) = 1
  /\ invocations (trace (snd run)) = [].
Proof.
  cbv zeta. destruct client as [c|] eqn:Hc.
  - pose proof (@openai_query_shape c query w Hc) as H. rewrite Hc in H.
    destruct (tools_list c w) as [[e|listed] w1].
    + rewrite H. intros _ [].
    + cbv zeta in H.
      destruct (create (request_of (formatTools listed) (base query)) w1)
        as [[e|[|m others]] w2].
      * rewrite H. intros _ [->|[]]. auto.
      * rewrite H. intros _ [].
      * destruct H as (outcome & events & added & parts & s'
                       & E & Ht & _).
        rewrite E. cbn [fst snd]. rewrite Ht. discriminate.
  - intros _ [].
Qed.

(** Whatever [processQuery] does, the prompt asks again. *)
Lemma askQuestion_rearms (line : string) (w : W) :
  String.eqb (toLowerCase line) "quit" = false ->
  prompt (fst (askQuestion client create OPENAI_MODEL JSON_parse line w))
  = Rearmed.
Proof.
  intros Hq. unfold askQuestion. rewrite Hq.
  destruct (processQuery line (initial w)) as [[e|answer] s]; reflexivity.
Qed.

End Facts.
End OpenAIFacts.

(* ================================================================= *)
(** ** Facts about the Claude client *)

Module ClaudeFacts.
Import Claude.

#[local] Arguments exchange : simpl never.
#[local] Arguments request_of : simpl never.
#[local] Arguments call_params : simpl never.
#[local] Arguments toolResultText : simpl never.

Lemma claude_requests_app a b : requests (a ++ b) = requests a ++ requests b.
Proof. apply flat_map_app. Qed.

Lemma claude_results_app a b : results (a ++ b) = results a ++ results b.
Proof. apply flat_map_app. Qed.

(** *** The loop *)

Lemma Steps_plain tools before current blocks outcome events added parts :
  Steps tools before current blocks outcome events added parts ->
  uses blocks = [] ->
  outcome = inr tt /\ events = [] /\ added = [] /\ parts = texts blocks.
Proof.
  induction 1 as [| ? ? ? ? ? ? ? ? S IH | ? ? ? ? ? ? ? ? S IH | | |];
    cbn; intros U; try discriminate; auto.
  destruct (IH U) as (-> & -> & -> & ->). auto.
Qed.

Lemma Steps_single tools before current blocks outcome events added parts :
  Steps tools before current blocks outcome events added parts ->
  forall i, uses blocks = [i] ->
  requests events = []
  \/ exists result,
       requests events
       = [request_of (Some follow_up_model) tools
            (before ++ exchange current i result)].
Proof.
  induction 1 as [| ? ? ? ? ? ? ? ? S IH | ? ? ? ? ? ? ? ? S IH | | |
                  ? ? ? ? ? ? ? ? ? ? ? ? S IH];
    cbn; intros i U; try discriminate; auto.
  - injection U as <- U. right. exists result. reflexivity.
  - injection U as <- U. right. exists result.
    destruct (Steps_plain S U) as (_ & -> & _). reflexivity.
Qed.

Lemma Steps_results tools before current blocks outcome events added parts :
  Steps tools before current blocks outcome events added parts ->
  map snd (results added) = map toolResultText (returned events).
Proof.
  induction 1 as [| ? ? ? ? ? ? ? ? S IH | ? ? ? ? ? ? ? ? S IH | | |
                  ? ? ? ? ? ? ? ? ? ? ? ? S IH];
    cbn; auto.
  rewrite claude_results_app, map_app, IH. reflexivity.
Qed.

Lemma Steps_models tools before current blocks outcome events added parts :
  Steps tools before current blocks outcome events added parts ->
  Forall (fun r => model r = Some follow_up_model) (requests events).
Proof.
  induction 1; cbn; auto.
Qed.

Lemma Steps_params tools before current blocks outcome events added parts :
  Steps tools before current blocks outcome events added parts ->
  Forall (fun params => exists name input, params = call_params name input)
    (invocations events).
Proof.
  induction 1; cbn; auto; constructor; eauto.
Qed.

Lemma Steps_refusal tools before current blocks outcome events added parts :
  Steps tools before current blocks outcome events added parts ->
  forall error, In error (refusals events) -> outcome = inl error.
Proof.
  induction 1; cbn; auto; try contradiction.
  intros e [->|[]]. reflexivity.
Qed.

Lemma Steps_weave tools before current blocks outcome events added parts :
  Steps tools before current blocks outcome events added parts ->
  outcome = inr tt -> parts = weave blocks (turns events).
Proof.
  induction 1 as [| ? ? ? ? ? ? ? ? S IH | ? ? ? ? ? ? ? ? S IH | | |
                  ? ? ? ? ? ? ? ? ? ? ? ? S IH];
    cbn; intros E; try discriminate; auto.
  - now rewrite (IH E).
  - now rewrite (IH E).
Qed.

Section Facts.
Variable W : Type.
Variable client : option (Host W).
Variable create : Request -> W -> (Thrown + Response) * W.
Variable ANTHROPIC_MODEL : option string.

Local Abbreviation handle := (handle create).
Local Abbreviation processQuery := (processQuery client create ANTHROPIC_MODEL).

Ltac run :=
  cbv beta iota zeta delta
    [bind ret throw try_catch get modify Claude.remote Claude.push_message
     Claude.push_text Claude.set_messages set_response messages_create
     Claude.initial];
  cbn [world trace messages textResponses response app].

Lemma for_of_steps (c : Host W) tools blocks : forall s : State W,
  exists outcome events added parts s',
    for_of blocks (handle c tools) s = (outcome, s')
    /\ trace s' = trace s ++ events
    /\ messages s' = messages s ++ added
    /\ textResponses s' = textResponses s ++ parts
    /\ Steps tools (messages s) (response s) blocks outcome events added parts.
Proof.
  induction blocks as [|block rest IH]; intros s.
  - exists (inr tt), [], [], [], s. cbn. rewrite !app_nil_r.
    repeat split; constructor.
  - cbn [for_of]. destruct block as [text|id name input|type].
    + unfold Claude.handle at 1. run.
      match goal with |- context [for_of rest ?body ?s1] =>
        destruct (IH s1) as (outcome & events & added & parts & s'
                             & E & Ht & Hm & Hf & Rs) end.
      cbn [world trace messages textResponses response] in *.
      exists outcome, events, added, (text :: parts), s'.
      rewrite E, Ht, Hm, Hf, <- app_assoc. repeat split.
      now constructor.
    + unfold Claude.handle at 1. run.
      destruct (tools_call c (call_params name input) (world s))
        as [[error|result] w1]; run.
      * eexists (inl error), [_], [], [], _. split; [reflexivity|].
        cbn [world trace messages textResponses response].
        rewrite !app_nil_r. repeat split. constructor.
      * fold (exchange (response s) id result).
        match goal with |- context [create ?r ?w] =>
          destruct (create r w) as [[error|next] w2] end; run.
        -- eexists (inl error), [_; _], (exchange (response s) id result), [], _.
           split; [reflexivity|].
           cbn [world trace messages textResponses response].
           rewrite <- !app_assoc, !app_nil_r. repeat split. constructor.
        -- assert (L : forall s0 : State W,
                     match next with
                     | Text text :: _ => Claude.push_text text
                     | _ => ret tt
                     end s0
                     = (inr tt, {| world := world s0; trace := trace s0;
                                   messages := messages s0;
                                   textResponses :=
                                     textResponses s0 ++ leading_text next;
                                   response := response s0 |})).
           { intros [w0 t0 m0 x0 r0].
             destruct next as [|[text|i n j|ty] more]; run; cbn [leading_text];
               rewrite ?app_nil_r; reflexivity. }
           rewrite L. cbn [world trace messages textResponses response].
           match goal with |- context [for_of rest ?body ?s1] =>
             destruct (IH s1) as (outcome & events & added & parts & s'
                                  & E & Ht & Hm & Hf & Rs) end.
           cbn [world trace messages textResponses response] in *.
           rewrite E.
           eexists outcome, (_ :: _ :: events),
             (exchange (response s) id result ++ added),
             (leading_text next ++ parts), s'.
           rewrite Ht, Hm, Hf, <- !app_assoc. cbn [app].
           repeat split. rewrite <- app_assoc in Rs.
           now constructor.
    + unfold Claude.handle at 1. run.
      destruct (IH s) as (outcome & events & added & parts & s'
                             & E & Ht & Hm & Hf & Rs).
      exists outcome, events, added, parts, s'.
      rewrite E. repeat split; try assumption. now constructor.
Qed.

Lemma claude_query_shape (c : Host W) query (w : W) :
  client = Some c ->
  match tools_list c w with
  | (inl error, w1) =>
      processQuery query (initial w)
      = (inl error, {| world := w1; trace := [ToolsList (inl error)];
                       messages := []; textResponses := [];
                       response := [] |})
  | (inr listed, w1) =>
      let request := request_of ANTHROPIC_MODEL (formatTools listed)
                       [User query] in
      match create request w1 with
      | (inl error, w2) =>
          processQuery query (initial w)
          = (inl error,
             {| world := w2;
                trace := [ToolsList (inr listed); Create request (inl error)];
                messages := [User query]; textResponses := [];
                response := [] |})
      | (inr first, w2) =>
          exists outcome events added parts s',
            processQuery query (initial w)
            = (match outcome with
               | inl error => inl error
               | inr _ => inr (join newline parts)
               end, s')
            /\ trace s' = [ToolsList (inr listed);
                           Create request (inr first)] ++ events
            /\ messages s' = User query :: added
            /\ textResponses s' = parts
            /\ Steps (formatTools listed) [User query] first first
                 outcome events added parts
      end
  end.
Proof.
  intros Hc. unfold Claude.processQuery. rewrite Hc. run.
  destruct (tools_list c w) as [[error|listed] w1]; run; [reflexivity|].
  destruct (create (request_of ANTHROPIC_MODEL (formatTools listed)
                      [User query]) w1)
    as [[error|first] w2]; run; [reflexivity|].
  match goal with
  | |- context [for_of first ?body ?s] =>
      destruct (for_of_steps c (formatTools listed) first s)
        as (outcome & events & added & parts & s' & E & Ht & Hm & Hf & Rs)
  end.
  rewrite E. cbn [world trace messages textResponses response app] in *.
  exists outcome, events, added, parts, s'.
  destruct outcome as [error|[]]; run; rewrite Ht, Hm, Hf;
    repeat split; exact Rs.
Qed.

Lemma claude_query_cases query (w : W) :
  let run := processQuery query (initial w) in
  (turns (trace (snd run)) = []
   /\ invocations (trace (snd run)) = []
   /\ Forall (fun r => sent r = [User query] /\ model r = ANTHROPIC_MODEL)
        (requests (trace (snd run)))
   /\ length (requests (trace (snd run))) <= 1
   /\ results (messages (snd run)) = []
   /\ returned (trace (snd run)) = [])
  \/ (exists listed request first outcome events added parts,
        fst run = match outcome with
                  | inl error => inl error
                  | inr _ => inr (join newline parts)
                  end
        /\ trace (snd run) = [ToolsList (inr listed);
                              Create request (inr first)] ++ events
        /\ sent request = [User query]
        /\ model request = ANTHROPIC_MODEL
        /\ messages (snd run) = User query :: added
        /\ Steps (formatTools listed) [User query] first first
             outcome events added parts).
Proof.
  cbv zeta. destruct client as [c|] eqn:Hc.
  - pose proof (@claude_query_shape c query w Hc) as H. rewrite Hc in H.
    destruct (tools_list c w) as [[error|listed] w1].
    + left. rewrite H. cbn. repeat split; auto.
    + cbv zeta in H.
      destruct (create (request_of ANTHROPIC_MODEL (formatTools listed)
                          [User query]) w1)
        as [[error|first] w2].
      * left. rewrite H. cbn. repeat split; auto.
      * right. destruct H as (outcome & events & added & parts & s'
                              & E & Ht & Hm & Hf & Rs).
        exists listed, (request_of ANTHROPIC_MODEL (formatTools listed)
                          [User query]),
          first, outcome, events, added, parts.
        rewrite E. cbn [fst snd]. repeat split; assumption.
  - left. cbn. repeat split; auto.
Qed.

Lemma claude_query_failed query (w : W) :
  let run := processQuery query (initial w) in
  turns (trace (snd run)) = [] -> exists error, fst run = inl error.
Proof.
  cbv zeta. destruct client as [c|] eqn:Hc.
  - pose proof (@claude_query_shape c query w Hc) as H. rewrite Hc in H.
    destruct (tools_list c w) as [[error|listed] w1].
    + rewrite H. intros _. now exists error.
    + cbv zeta in H.
      destruct (create (request_of ANTHROPIC_MODEL (formatTools listed)
                          [User query]) w1)
        as [[error|first] w2].
      * rewrite H. intros _. now exists error.
      * destruct H as (outcome & events & added & parts & s'
                       & E & Ht & _).
        rewrite E. cbn [fst snd]. rewrite Ht. discriminate.
  - intros _. eexists. reflexivity.
Qed.

(** A failing LLM call makes [processQuery] throw what the call threw. *)
Lemma claude_query_refused query (w : W) error :
  let run := processQuery query (initial w) in
  In error (refusals (trace (snd run))) -> fst run = inl error.
Proof.
  cbv zeta. destruct client as [c|] eqn:Hc.
  - pose proof (@claude_query_shape c query w Hc) as H. rewrite Hc in H.
    destruct (tools_list c w) as [[e|listed] w1].
    + rewrite H. intros [].
    + cbv zeta in H.
      destruct (create (request_of ANTHROPIC_MODEL (formatTools listed)
                          [User query]) w1)
        as [[e|first] w2].
      * rewrite H. intros [->|[]]. reflexivity.
      * destruct H as (outcome & events & added & parts & s'
                       & E & Ht & _ & _ & Rs).
        rewrite E. cbn [fst snd]. rewrite Ht. intros Hin.
        change (In error (refusals events)) in Hin.
        now rewrite (Steps_refusal Rs error Hin).
  - intros [].
Qed.

(** When [processQuery] throws, the prompt callback prints nothing and
    does not ask again. *)
Lemma ask_abandons (line : string) (w : W) error :
  String.eqb (toLowerCase line) "quit" = false ->
  fst (processQuery line (initial w)) = inl error ->
  fst (ask client create ANTHROPIC_MODEL line w)
  = {| printed := None; reported := None; rejected := Some error;
       prompt := Abandoned |}.
Proof.
  intros Hq E. unfold ask. rewrite Hq.
  destruct (processQuery line (initial w)) as [[e|answer] s];
    cbn in E; [|discriminate].
  injection E as ->. reflexivity.
Qed.

End Facts.
End ClaudeFacts.

(* ================================================================= *)
(** ** Facts about the rounds of the tool loop *)

Module OpenAIRounds.
Import OpenAI.

#[local] Arguments calling_notice : simpl never.
#[local] Arguments error_notice : simpl never.
#[local] Arguments tool_message : simpl never.
#[local] Arguments request_of : simpl never.
#[local] Arguments call_params : simpl never.
#[local] Arguments reply_parts : simpl never.

Section Loop.
Variable OPENAI_MODEL : option string.
Variable JSON_parse : string -> Thrown + JSON.

Local Abbreviation Round := (Round OPENAI_MODEL).
Local Abbreviation Rounds := (Rounds OPENAI_MODEL JSON_parse).

Lemma Round_outcome tools before toolCall toolArgs events added parts :
  Round tools before toolCall toolArgs events added parts ->
  exists outcome,
    parts = calling_notice (function_name toolCall) toolArgs :: outcome
    /\ forall rest,
         outcomes (events ++ rest) = outcome :: outcomes rest
         /\ paced (events ++ rest) = paced rest.
Proof.
  intros [error|result reply].
  - exists [error_notice error]. split; [reflexivity|]. intros rest.
    split; reflexivity.
  - exists (reply_parts reply). split; [reflexivity|]. intros rest.
    split; reflexivity.
Qed.

Lemma Rounds_prefix tools before calls outcome events added parts :
  Rounds tools before calls outcome events added parts ->
  exists n,
    map inr (invocations events)
    = map (tool_params JSON_parse) (firstn n calls)
    /\ (n = length calls
        \/ exists toolCall error,
             nth_error calls n = Some toolCall
             /\ JSON_parse (function_arguments toolCall) = inl error).
Proof.
  induction 1 as [|? toolCall ? error P
                  |? toolCall ? ? ? ? ? ? ? ? ? P R Rs [n [IH Hn]]].
  - exists 0. split; [reflexivity | now left].
  - exists 0. split; [reflexivity|]. right. now exists toolCall, error.
  - exists (S n). split.
    + rewrite OpenAIFacts.invocations_app, map_app, IH,
        (OpenAIFacts.Round_invocations R).
      cbn. unfold tool_params at 2. rewrite P. reflexivity.
    + destruct Hn as [->|Hn]; [now left | now right].
Qed.

Lemma Rounds_paced tools before calls outcome events added parts :
  Rounds tools before calls outcome events added parts ->
  paced events = true.
Proof.
  induction 1 as [| |? ? ? ? ? ? ? ? ? ? ? P R Rs IH]; try reflexivity.
  destruct (Round_outcome R) as (o & _ & H).
  now rewrite (proj2 (H _)).
Qed.

Lemma Rounds_told tools before calls outcome events added parts :
  Rounds tools before calls outcome events added parts ->
  outcome = inr tt ->
  length (outcomes events) = length calls
  /\ parts = flat_map (told JSON_parse) (combine calls (outcomes events)).
Proof.
  induction 1 as [| |? toolCall ? ? ? ? ? ? ? ? ? P R Rs IH]; intros E.
  - split; reflexivity.
  - discriminate.
  - destruct (IH E) as [IHn IHp].
    destruct (Round_outcome R) as (o & -> & H).
    rewrite (proj1 (H _)). cbn [length combine flat_map].
    split; [now rewrite IHn|].
    unfold told at 1. cbn [fst snd]. rewrite P, <- IHp. reflexivity.
Qed.

End Loop.

Section Start.
Variable W : Type.
Variable client : option (Host W).
Variable create : Request -> W -> (Thrown + Completion) * W.
Variable OPENAI_MODEL : option string.
Variable JSON_parse : string -> Thrown + JSON.

(** A session that received no assistant turn made at most two remote
    calls. *)
Lemma openai_query_start query (w : W) :
  let t := trace (snd (processQuery client create OPENAI_MODEL JSON_parse
                         query (initial w))) in
  turns t = [] -> length t <= 2.
Proof.
  cbv zeta. destruct client as [c|] eqn:Hc.
  - pose proof (@OpenAIFacts.openai_query_shape W client create OPENAI_MODEL
                  JSON_parse c query w Hc) as H.
    rewrite Hc in H.
    destruct (tools_list c w) as [[e|listed] w1].
    + rewrite H. cbn. lia.
    + cbv zeta in H.
      destruct (create (request_of OPENAI_MODEL (formatTools listed)
                          (base query)) w1)
        as [[e|[|m others]] w2].
      * rewrite H. cbn. lia.
      * rewrite H. cbn. lia.
      * destruct H as (outcome & events & added & parts & s'
                       & E & Ht & _).
        rewrite E. cbn [fst snd]. rewrite Ht. discriminate.
  - cbn. lia.
Qed.

End Start.
End OpenAIRounds.

Module ClaudeSteps.
Import Claude.

Lemma Steps_followed tools before current blocks outcome events added parts :
  Steps tools before current blocks outcome events added parts ->
  outcome = inr tt ->
  length (turns events) = length (uses blocks)
  /\ length (invocations events) = length (uses blocks).
Proof.
  induction 1 as [| ? ? ? ? ? ? ? ? S IH | ? ? ? ? ? ? ? ? S IH | | |
                  ? ? ? ? ? ? ? ? ? ? ? ? S IH];
    intros E; try discriminate; cbn; auto.
  destruct (IH E) as [IH1 IH2]. unfold turns, invocations in *.
  split; now f_equal.
Qed.

End ClaudeSteps.

(** ** Facts about [includes] and [join] *)

Lemma prefix_append (part rest : string) :
  String.prefix part (part ++ rest) = true.
Proof.
  induction part as [|a part IH]; cbn.
  - now destruct rest.
  - destruct (ascii_dec a a); [exact IH | contradiction].
Qed.

Lemma includes_middle (a part b : string) :
  includes (a ++ part ++ b) part = true.
Proof.
  induction a as [|c a IH].
  - cbn [append].
    pose proof (prefix_append part b) as P.
    destruct (part ++ b)%string; cbn [includes]; now rewrite P.
  - change ((String c a ++ part ++ b)%string)
      with (String c (a ++ part ++ b)).
    cbn [includes]. rewrite IH.
    now destruct (String.prefix part (String c (a ++ part ++ b))).
Qed.

Lemma string_app_assoc (a b c : string) :
  ((a ++ b) ++ c)%string = (a ++ b ++ c)%string.
Proof. induction a as [|x a IH]; cbn; [reflexivity | now rewrite IH]. Qed.

Lemma string_app_nil (a : string) : (a ++ "")%string = a.
Proof. induction a as [|x a IH]; cbn; [reflexivity | now rewrite IH]. Qed.

Lemma join_holds sep parts x :
  In x parts -> exists a b, join sep parts = (a ++ x ++ b)%string.
Proof.
  induction parts as [|y rest IH]; intros Hin; [contradiction|].
  cbn [join]. destruct rest as [|z rest'].
  - destruct Hin as [->|[]]. exists "", "". cbn. now rewrite string_app_nil.
  - destruct Hin as [->|Hin].
    + exists "", (sep ++ join sep (z :: rest'))%string. reflexivity.
    + destruct (IH Hin) as (a & b & E). rewrite E.
      exists (y ++ sep ++ a)%string, b. now rewrite !string_app_assoc.
Qed.

Lemma includes_join sep parts x :
  In x parts -> includes (join sep parts) x = true.
Proof.
  intros Hin. destruct (join_holds sep parts x Hin) as (a & b & ->).
  apply includes_middle.
Qed.

(* ================================================================= *)
(** ** The claims *)

Lemma append_empty (a b : string) : (a ++ b)%string = "" -> a = "" /\ b = "".
Proof. destruct a; cbn; [auto | discriminate]. Qed.

Lemma join_nonempty sep parts x :
  In x parts -> x <> "" -> join sep parts <> "".
Proof.
  induction parts as [|y rest IH]; intros Hin Hx; [contradiction|].
  cbn [join]. destruct rest as [|z rest'].
  - destruct Hin as [->|[]]. exact Hx.
  - intros E. apply append_empty in E. destruct E as [Ey E].
    apply append_empty in E. destruct E as [_ E].
    destruct Hin as [->|Hin]; [exact (Hx Ey)|]. exact (IH Hin Hx E).
Qed.

Lemma OpenAI_answered_single model tools query m toolCall result :
  OpenAI.requested m = [toolCall] ->
  forallb (fun r => OpenAI.answered (OpenAI.sent r))
    [OpenAI.request_of model tools
       ((OpenAI.base query ++ [OpenAI.Assistant m])
          ++ [OpenAI.tool_message toolCall result])] = true.
Proof.
  intros E.
  unfold OpenAI.answered, OpenAI.tool_message, OpenAI.request_of.
  cbn. rewrite E. cbn.
  unfold OpenAI.answers. cbn. rewrite String.eqb_refl. reflexivity.
Qed.

Lemma Claude_answered_single model tools query first i result :
  Claude.uses first = [i] ->
  forallb (fun r => Claude.answered (Claude.sent r))
    [Claude.request_of model tools
       ([Claude.User query] ++ Claude.exchange first i result)] = true.
Proof.
  intros E.
  unfold Claude.answered, Claude.exchange, Claude.request_of.
  cbn. rewrite E. cbn.
  unfold Claude.answers. cbn. rewrite String.eqb_refl. reflexivity.
Qed.

(** Scenario B of the specification, on the OpenAI client: two LLM calls,
    one tool invocation, and an answer that starts with the notice of the
    tool call. *)
Example scenario_B :
  fst Scenario.run_one_tool
  = inr (join newline [OpenAI.calling_notice "list_files" Scenario.path;
                       "Found 2 files."])
  /\ length (OpenAI.requests (OpenAI.trace (snd Scenario.run_one_tool))) = 2
  /\ length (OpenAI.invocations (OpenAI.trace (snd Scenario.run_one_tool))) = 1.
Proof. vm_compute. repeat split. Qed.

(** Scenario D of the specification, on the OpenAI client: the failing
    first request leaves no tool result in the transcript, the second one
    does, and the LLM is called again after it. *)
Example scenario_D :
  OpenAI.results (OpenAI.messages (snd Scenario.run_first_fails))
  = [("call_2", "a.txt" ++ newline ++ "b.txt")%string]
  /\ length (OpenAI.requests (OpenAI.trace (snd Scenario.run_first_fails))) = 2.
Proof. vm_compute. repeat split. Qed.

(** C1, as stated, fails: with two tool requests in one assistant turn
    the OpenAI client calls the LLM again right after the first tool
    result, while the second request is still unanswered. *)
Lemma C1_unanswered_request_is_sent :
  forallb (fun r => OpenAI.answered (OpenAI.sent r))
    (OpenAI.requests (OpenAI.trace (snd Scenario.run_two_tools))) = false.
Proof. vm_compute. reflexivity. Qed.

(** C1, amended: in a session whose first assistant turn holds at most
    one tool request, every transcript sent to the LLM has, for each tool
    request in it, exactly one tool result with the request's correlation
    id, and that result stands after the request.  Both clients. *)
Theorem C1_single_request_is_answered :
  (forall (W : Type) client create model parse query (w : W),
      let s := snd (OpenAI.processQuery client create model parse query
                      (OpenAI.initial w)) in
      length (OpenAI.first_requests (OpenAI.trace s)) <= 1 ->
      forallb (fun r => OpenAI.answered (OpenAI.sent r))
        (OpenAI.requests (OpenAI.trace s)) = true)
  /\
  (forall (W : Type) client create model query (w : W),
      let s := snd (Claude.processQuery client create model query
                      (Claude.initial w)) in
      length (Claude.first_uses (Claude.trace s)) <= 1 ->
      forallb (fun r => Claude.answered (Claude.sent r))
        (Claude.requests (Claude.trace s)) = true).
Proof.
  split.
  - intros W client create model parse query w s H. subst s.
    destruct (OpenAIFacts.openai_query_cases client create model parse query w)
      as [(_ & _ & F & _)
         |(listed & request & m & others & outcome & events & added & parts
           & _ & Ht & Hs & _ & _ & Rs)].
    + apply forallb_forall. intros r Hin.
      rewrite Forall_forall in F. rewrite (F r Hin). reflexivity.
    + rewrite Ht in *. unfold OpenAI.first_requests in H. cbn in H.
      change (OpenAI.requests ([OpenAI.ToolsList (inr listed);
                                OpenAI.Create request (inr (m :: others))]
                                 ++ events))
        with (request :: OpenAI.requests events).
      cbn [forallb]. rewrite Hs. cbn [OpenAI.answered].
      change (OpenAI.answered (OpenAI.base query)) with true. cbn [andb].
      destruct (OpenAI.requested m) as [|toolCall [|]] eqn:E; cbn in H; [| |lia].
      * destruct (OpenAIFacts.Rounds_nil Rs) as (_ & -> & _). reflexivity.
      * destruct (OpenAIFacts.Rounds_single Rs) as [->|[result ->]];
          [reflexivity|].
        exact (OpenAI_answered_single model _ query m result E).
  - intros W client create model query w s H. subst s.
    destruct (ClaudeFacts.claude_query_cases client create model query w)
      as [(_ & _ & F & _)
         |(listed & request & first & outcome & events & added & parts
           & _ & Ht & Hs & _ & _ & Rs)].
    + apply forallb_forall. intros r Hin.
      rewrite Forall_forall in F. destruct (F r Hin) as [-> _]. reflexivity.
    + rewrite Ht in *. unfold Claude.first_uses in H. cbn in H.
      change (Claude.requests ([Claude.ToolsList (inr listed);
                                Claude.Create request (inr first)] ++ events))
        with (request :: Claude.requests events).
      cbn [forallb]. rewrite Hs.
      change (Claude.answered [Claude.User query]) with true. cbn [andb].
      destruct (Claude.uses first) as [|i [|]] eqn:E; cbn in H; [| |lia].
      * destruct (ClaudeFacts.Steps_plain Rs E) as (_ & -> & _). reflexivity.
      * destruct (ClaudeFacts.Steps_single Rs E) as [->|[result ->]];
          [reflexivity|].
        exact (Claude_answered_single _ _ query first result E).
Qed.

(** C1 at Scenario B, on both clients. *)
Lemma C1_single_request_is_answered_witness :
  (length (OpenAI.first_requests (OpenAI.trace (snd Scenario.run_one_tool))) <= 1
   /\ forallb (fun r => OpenAI.answered (OpenAI.sent r))
        (OpenAI.requests (OpenAI.trace (snd Scenario.run_one_tool))) = true)
  /\
  (length (Claude.first_uses (Claude.trace (snd Scenario.run_claude_one_tool)))
   <= 1
   /\ forallb (fun r => Claude.answered (Claude.sent r))
        (Claude.requests (Claude.trace (snd Scenario.run_claude_one_tool)))
      = true).
Proof.
  split; split.
  - vm_compute. lia.
  - apply (proj1 C1_single_request_is_answered). vm_compute. lia.
  - vm_compute. lia.
  - apply (proj2 C1_single_request_is_answered). vm_compute. lia.
Defined.

(** C2, as stated, fails: the OpenAI client returns normally although the
    most recent assistant turn holds a tool request that was never
    executed (one invocation for two requests in two turns). *)
Lemma C2_returns_with_pending_request :
  (exists answer, fst Scenario.run_chained = inr answer)
  /\ last (map OpenAI.has_tool_calls
             (OpenAI.turns (OpenAI.trace (snd Scenario.run_chained)))) false
     = true
  /\ length (OpenAI.invocations (OpenAI.trace (snd Scenario.run_chained))) = 1.
Proof. vm_compute. repeat split. eexists. reflexivity. Qed.

(** C2, amended (OpenAI client).  The tool invocations of a session are,
    in order, those of the tool requests of the first assistant turn, one
    invocation per request, with the request's own name and parsed
    arguments: all of them, or those before the first request whose
    arguments do not parse; tool requests of a later assistant turn are
    never executed.  At most one LLM call and no invocation is made
    before the tool loop, and in the loop every LLM call stands right
    behind a tool invocation that returned, one call behind each.  A
    later assistant turn that holds tool requests is marked in
    [finalText] by the notice [[Additional tool calls detected]]; when the
    arguments of all the requests of the first turn parse, the answer is
    the newline-join of [finalText] and contains the notice.  A session
    that received a first assistant turn returns normally. *)
Theorem C2_only_first_turn_is_executed :
  forall (W : Type) client create model parse query (w : W),
    let run := OpenAI.processQuery client create model parse query
                 (OpenAI.initial w) in
    let t := OpenAI.trace (snd run) in
    length (OpenAI.invocations t) <= length (OpenAI.first_requests t)
    /\ length (OpenAI.requests t) <= S (length (OpenAI.invocations t))
    /\ (exists n,
           map inr (OpenAI.invocations t)
           = map (OpenAI.tool_params parse)
               (firstn n (OpenAI.first_requests t))
           /\ (n = length (OpenAI.first_requests t)
               \/ exists toolCall error,
                    nth_error (OpenAI.first_requests t) n = Some toolCall
                    /\ parse (OpenAI.function_arguments toolCall)
                       = inl error))
    /\ length (OpenAI.requests (firstn 2 t)) <= 1
    /\ OpenAI.invocations (firstn 2 t) = []
    /\ OpenAI.paced (skipn 2 t) = true
    /\ (forall m, In m (tl (OpenAI.turns t)) ->
                  OpenAI.has_tool_calls m = true ->
                  In OpenAI.additional_notice (OpenAI.finalText (snd run))
                  /\ (Forall (fun toolCall =>
                                exists toolArgs,
                                  parse (OpenAI.function_arguments toolCall)
                                  = inr toolArgs)
                        (OpenAI.first_requests t) ->
                      exists answer,
                        fst run = inr answer
                        /\ answer = join newline (OpenAI.finalText (snd run))
                        /\ includes answer OpenAI.additional_notice = true))
    /\ (OpenAI.turns t <> [] -> exists answer, fst run = inr answer).
Proof.
  intros W client create model parse query w run t. subst t run.
  pose proof (OpenAIRounds.openai_query_start client create model parse
                query w) as Hshort. cbv zeta in Hshort.
  destruct (OpenAIFacts.openai_query_cases client create model parse query w)
    as [(Hturns & Hinv & _ & Hreq & _)
       |(listed & request & m & others & outcome & events & added & parts
         & Hrun & Ht & _ & _ & Hf & Rs)].
  - specialize (Hshort Hturns).
    rewrite Hturns, Hinv. unfold OpenAI.first_requests. rewrite Hturns.
    rewrite firstn_all2 by exact Hshort.
    rewrite skipn_all2 by exact Hshort.
    rewrite Hinv. cbn [length tl map].
    repeat split; try lia; try contradiction.
    exists 0. split; [reflexivity | now left].
  - clear Hshort. rewrite Ht, Hf, Hrun. unfold OpenAI.first_requests.
    change (OpenAI.turns ([OpenAI.ToolsList (inr listed);
                           OpenAI.Create request (inr (m :: others))]
                            ++ events))
      with (m :: OpenAI.turns events).
    change (OpenAI.invocations ([OpenAI.ToolsList (inr listed);
                                 OpenAI.Create request (inr (m :: others))]
                                  ++ events))
      with (OpenAI.invocations events).
    change (OpenAI.requests ([OpenAI.ToolsList (inr listed);
                              OpenAI.Create request (inr (m :: others))]
                               ++ events))
      with (request :: OpenAI.requests events).
    change (firstn 2 ([OpenAI.ToolsList (inr listed);
                       OpenAI.Create request (inr (m :: others))] ++ events))
      with [OpenAI.ToolsList (inr listed);
            OpenAI.Create request (inr (m :: others))].
    change (skipn 2 ([OpenAI.ToolsList (inr listed);
                      OpenAI.Create request (inr (m :: others))] ++ events))
      with events.
    destruct (OpenAIFacts.Rounds_bounds Rs) as [B1 B2].
    cbn [tl length].
    split; [lia|]. split; [lia|].
    split; [exact (OpenAIRounds.Rounds_prefix Rs)|].
    split; [cbn; lia|]. split; [reflexivity|].
    split; [exact (OpenAIRounds.Rounds_paced Rs)|].
    split.
    + intros m' Hin H.
      assert (Hnote : In OpenAI.additional_notice (OpenAI.text_part m ++ parts)).
      { apply in_or_app. right.
        exact (OpenAIFacts.Rounds_additional Rs m' Hin H). }
      split; [exact Hnote|].
      intros Hparse.
      destruct (OpenAIFacts.Rounds_complete Rs Hparse) as [-> _].
      eexists. split; [reflexivity|]. split; [reflexivity|].
      now apply includes_join.
    + intros _. eexists. reflexivity.
Qed.

(** C2 at a session whose follow-up turn requests a tool again. *)
Lemma C2_only_first_turn_is_executed_witness :
  In OpenAI.additional_notice (OpenAI.finalText (snd Scenario.run_chained))
  /\ (exists answer,
         fst Scenario.run_chained = inr answer
         /\ answer = join newline (OpenAI.finalText (snd Scenario.run_chained))
         /\ includes answer OpenAI.additional_notice = true)
  /\ exists answer, fst Scenario.run_chained = inr answer.
Proof.
  pose proof (C2_only_first_turn_is_executed
                (Some (Script.host OpenAI.Completion))
                (@Script.llm OpenAI.Request OpenAI.Completion)
                (Some "gpt-4o") Script.parse "List files in /tmp"
                Scenario.chained) as (_ & _ & _ & _ & _ & _ & Hmark & Hret).
  assert (Hin : In (hd {| OpenAI.content := None; OpenAI.tool_calls := None |}
                      (Scenario.asks [Scenario.list_files "call_2"]))
                  (tl (OpenAI.turns (OpenAI.trace (snd Scenario.run_chained)))))
    by (vm_compute; left; reflexivity).
  assert (Hparse : Forall (fun toolCall =>
                     exists toolArgs,
                       Script.parse (OpenAI.function_arguments toolCall)
                       = inr toolArgs)
                     (OpenAI.first_requests
                        (OpenAI.trace (snd Scenario.run_chained))))
    by (vm_compute; repeat constructor; eexists; reflexivity).
  destruct (Hmark _ Hin eq_refl) as [Hnote Hanswer].
  split; [exact Hnote|]. split; [exact (Hanswer Hparse)|].
  apply Hret. vm_compute. discriminate.
Defined.


(** The condition on the arguments is needed: when the second request
    of the first turn has malformed arguments, the notice of the
    follow-up turn is in [finalText], and the caller receives the string
    of the outer handler instead. *)
Example notice_is_lost_with_malformed_arguments :
  let run := Scenario.openai Stage.garbled_later "List files in /tmp" in
  In OpenAI.additional_notice (OpenAI.finalText (snd run))
  /\ fst run = inr "Unexpected error occurred: Unexpected token in JSON".
Proof. vm_compute. split; [right; left|]; reflexivity. Qed.

Lemma calling_notice_nonempty toolName toolArgs :
  OpenAI.calling_notice toolName toolArgs <> "".
Proof. discriminate. Qed.

(** C3, as stated, fails: in the OpenAI client the one tool request of
    the turn fails, and the final transcript holds no tool result at all,
    not one per request. *)
Lemma C3_failed_request_gets_no_result :
  OpenAI.failures (OpenAI.trace (snd Scenario.run_one_fails)) = [Scenario.boom]
  /\ length (OpenAI.results (OpenAI.messages (snd Scenario.run_one_fails)))
     <> length (OpenAI.first_requests
                  (OpenAI.trace (snd Scenario.run_one_fails))).
Proof. vm_compute. split; [reflexivity | discriminate]. Qed.

(** C3, amended (OpenAI client): when the first assistant turn holds
    N >= 1 tool requests whose arguments parse, a failing invocation is
    caught and the loop goes on: all N requests are invoked, in order,
    with their own name and arguments; the final transcript holds one tool
    result per invocation that succeeded (none for one that failed); the
    diagnostic [[Error calling tool: <message>]] of every failure is a part
    of the final answer, which is the newline-join of [finalText] and is
    not empty. *)
Theorem C3_tool_failure_is_isolated :
  forall (W : Type) client create model parse query (w : W),
    let run := OpenAI.processQuery client create model parse query
                 (OpenAI.initial w) in
    let t := OpenAI.trace (snd run) in
    OpenAI.first_requests t <> [] ->
    Forall (fun toolCall =>
              exists toolArgs,
                parse (OpenAI.function_arguments toolCall) = inr toolArgs)
      (OpenAI.first_requests t) ->
    map inr (OpenAI.invocations t)
    = map (OpenAI.tool_params parse) (OpenAI.first_requests t)
    /\ length (OpenAI.results (OpenAI.messages (snd run)))
       + length (OpenAI.failures t)
       = length (OpenAI.first_requests t)
    /\ (forall error, In error (OpenAI.failures t) ->
                      In (OpenAI.error_notice error)
                        (OpenAI.finalText (snd run)))
    /\ fst run = inr (join newline (OpenAI.finalText (snd run)))
    /\ join newline (OpenAI.finalText (snd run)) <> "".
Proof.
  intros W client create model parse query w run t. subst t run.
  destruct (OpenAIFacts.openai_query_cases client create model parse query w)
    as [(Hturns & _)
       |(listed & request & m & others & outcome & events & added & parts
         & Hrun & Ht & _ & Hm & Hf & Rs)].
  - unfold OpenAI.first_requests. rewrite Hturns. intros H. now destruct H.
  - rewrite Ht, Hf, Hm, Hrun. unfold OpenAI.first_requests.
    change (OpenAI.turns ([OpenAI.ToolsList (inr listed);
                           OpenAI.Create request (inr (m :: others))]
                            ++ events))
      with (m :: OpenAI.turns events).
    change (OpenAI.invocations ([OpenAI.ToolsList (inr listed);
                                 OpenAI.Create request (inr (m :: others))]
                                  ++ events))
      with (OpenAI.invocations events).
    change (OpenAI.failures ([OpenAI.ToolsList (inr listed);
                              OpenAI.Create request (inr (m :: others))]
                               ++ events))
      with (OpenAI.failures events).
    change (OpenAI.results (OpenAI.base query ++ OpenAI.Assistant m :: added))
      with (OpenAI.results added).
    intros Hne Hparse.
    destruct (OpenAIFacts.Rounds_complete Rs Hparse) as [-> Hinv].
    destruct (OpenAIFacts.Rounds_failures Rs) as [Hcount Hfail].
    pose proof (OpenAIFacts.Rounds_results Rs) as Hres.
    apply (f_equal (@length _)) in Hres. rewrite !length_map in Hres.
    pose proof (f_equal (@length _) Hinv) as Hlen. rewrite !length_map in Hlen.
    repeat split.
    + exact Hinv.
    + lia.
    + intros error Hin. apply in_or_app. right. exact (Hfail error Hin).
    + inversion Rs
        as [| |? toolCall rest toolArgs ? ev1 ev2 ad1 ad2 p1 p2 P R Rs'];
        subst; [congruence|].
      destruct (OpenAIFacts.Round_first R) as [more ->].
      apply join_nonempty with (x := OpenAI.calling_notice
                                       (OpenAI.function_name toolCall) toolArgs).
      * apply in_or_app. right. left. reflexivity.
      * apply calling_notice_nonempty.
Qed.

(** C3 at Scenario D. *)
Lemma C3_tool_failure_is_isolated_witness :
  In (OpenAI.error_notice Scenario.boom)
    (OpenAI.finalText (snd Scenario.run_first_fails))
  /\ length (OpenAI.results (OpenAI.messages (snd Scenario.run_first_fails)))
     + length (OpenAI.failures (OpenAI.trace (snd Scenario.run_first_fails)))
     = 2.
Proof.
  assert (Hne : OpenAI.first_requests
                  (OpenAI.trace (snd Scenario.run_first_fails)) <> [])
    by (vm_compute; discriminate).
  assert (Hparse : Forall (fun toolCall =>
                     exists toolArgs,
                       Script.parse (OpenAI.function_arguments toolCall)
                       = inr toolArgs)
                     (OpenAI.first_requests
                        (OpenAI.trace (snd Scenario.run_first_fails))))
    by (vm_compute; repeat constructor; eexists; reflexivity).
  destruct (C3_tool_failure_is_isolated
              (Some (Script.host OpenAI.Completion))
              (@Script.llm OpenAI.Request OpenAI.Completion)
              (Some "gpt-4o") Script.parse "List files in /tmp"
              Scenario.first_fails Hne Hparse)
    as (_ & Hcount & Hfail & _).
  split.
  - apply Hfail. vm_compute. left. reflexivity.
  - exact Hcount.
Defined.

Lemma text_blocks_kept ts :
  filter is_text (map text_block ts) = map text_block ts.
Proof. induction ts as [|t ts IH]; cbn; [reflexivity | now rewrite IH]. Qed.

Lemma text_blocks_read ts :
  map (fun item => join_element (lookup "text" item)) (map text_block ts) = ts.
Proof. induction ts as [|t ts IH]; cbn; [reflexivity | now rewrite IH]. Qed.

(** C4, as stated, fails: the Claude client serializes an array of text
    blocks to JSON instead of joining the texts, and the OpenAI client
    turns an array that holds no text block into the empty string instead
    of serializing it. *)
Lemma C4_text_differs_from_the_specified_one :
  map snd (Claude.results (Claude.messages (snd Scenario.run_claude_one_tool)))
  <> map specified_text
       (Claude.returned (Claude.trace (snd Scenario.run_claude_one_tool)))
  /\ OpenAI.toolResultText Scenario.picture <> specified_text Scenario.picture.
Proof. split; intros H; vm_compute in H; discriminate. Qed.

(** C4, amended: the texts of the tool results of the final transcript
    are, in order, the formatted contents of the invocations that
    succeeded.  The OpenAI client formats an array by joining, with
    newlines, the [text] fields of those blocks whose type is [text], so
    that an array of text blocks yields their texts joined, and blocks of
    another type are dropped; it serializes a content that is not an array
    to JSON.  The Claude client serializes every content to JSON. *)
Theorem C4_tool_result_text :
  (forall (W : Type) client create model parse query (w : W),
      let s := snd (OpenAI.processQuery client create model parse query
                      (OpenAI.initial w)) in
      map snd (OpenAI.results (OpenAI.messages s))
      = map OpenAI.toolResultText (OpenAI.returned (OpenAI.trace s)))
  /\ (forall items,
         OpenAI.toolResultText (Blocks items)
         = join newline
             (map (fun item => join_element (lookup "text" item))
                (filter is_text items)))
  /\ (forall ts,
         OpenAI.toolResultText (Blocks (map text_block ts)) = join newline ts)
  /\ (forall value,
         OpenAI.toolResultText (Structured value)
         = JSON_stringify (NonArray_json value))
  /\ (forall (W : Type) client create model query (w : W),
         let s := snd (Claude.processQuery client create model query
                         (Claude.initial w)) in
         map snd (Claude.results (Claude.messages s))
         = map (fun content => JSON_stringify (Content_json content))
             (Claude.returned (Claude.trace s))).
Proof.
  repeat split.
  - intros W client create model parse query w s. subst s.
    destruct (OpenAIFacts.openai_query_cases client create model parse query w)
      as [(_ & _ & _ & _ & -> & ->)
         |(listed & request & m & others & outcome & events & added & parts
           & _ & Ht & _ & Hm & _ & Rs)]; [reflexivity|].
    rewrite Ht, Hm. exact (OpenAIFacts.Rounds_results Rs).
  - intros ts. unfold OpenAI.toolResultText.
    now rewrite text_blocks_kept, text_blocks_read.
  - intros W client create model query w s. subst s.
    destruct (ClaudeFacts.claude_query_cases client create model query w)
      as [(_ & _ & _ & _ & -> & ->)
         |(listed & request & first & outcome & events & added & parts
           & _ & Ht & _ & _ & Hm & Rs)]; [reflexivity|].
    rewrite Ht, Hm. exact (ClaudeFacts.Steps_results Rs).
Qed.

(** C5, as stated, fails: in Scenario B the answer of the OpenAI client
    starts with the notice of the tool call, which is no assistant text. *)
Lemma C5_answer_holds_more_than_assistant_text :
  fst Scenario.run_one_tool
  <> inr (join newline
            (OpenAI.spoken (OpenAI.trace (snd Scenario.run_one_tool)))).
Proof. intros H. vm_compute in H. discriminate. Qed.

(** C5, amended.  OpenAI client: when the first assistant turn arrived
    and the arguments of its tool requests parse, every tool request of
    that turn is invoked, in order, and the final answer is the
    newline-join of these parts, in order: the text of the first
    assistant turn if it is not empty; then, for each tool request of that
    turn, the notice [[Calling tool <name> with args <json>]], followed, if
    the invocation failed or the LLM call after it failed or gave no
    choice, by [[Error calling tool: <message>]], and otherwise by the text
    of the follow-up turn if it is not empty and by
    [[Additional tool calls detected]] if that turn holds tool requests.
    Claude client: the answer that [processQuery] returns is the
    newline-join of the text blocks of the first response, in order, with,
    at the place of each of its tool requests, the leading block of the
    follow-up response when that block is a text block; every tool
    request of the first response was invoked and has its follow-up
    response. *)
Theorem C5_answer_is_the_story :
  (forall (W : Type) client create model parse query (w : W),
      let run := OpenAI.processQuery client create model parse query
                   (OpenAI.initial w) in
      let t := OpenAI.trace (snd run) in
      OpenAI.turns t <> [] ->
      Forall (fun toolCall =>
                exists toolArgs,
                  parse (OpenAI.function_arguments toolCall) = inr toolArgs)
        (OpenAI.first_requests t) ->
      fst run = inr (join newline (OpenAI.story t))
      /\ map inr (OpenAI.invocations t)
         = map (OpenAI.tool_params parse) (OpenAI.first_requests t)
      /\ length (OpenAI.outcomes t) = length (OpenAI.first_requests t)
      /\ fst run
         = inr (join newline
                  (flat_map OpenAI.text_part (firstn 1 (OpenAI.turns t))
                   ++ flat_map (OpenAI.told parse)
                        (combine (OpenAI.first_requests t)
                           (OpenAI.outcomes t)))))
  /\
  (forall (W : Type) client create model query (w : W) answer,
      let run := Claude.processQuery client create model query
                   (Claude.initial w) in
      let t := Claude.trace (snd run) in
      fst run = inr answer ->
      answer = join newline (Claude.story t)
      /\ length (Claude.invocations t) = length (Claude.first_uses t)
      /\ length (Claude.turns t) = S (length (Claude.first_uses t))).
Proof.
  split.
  - intros W client create model parse query w run t. subst t run.
    destruct (OpenAIFacts.openai_query_cases client create model parse query w)
      as [(Hturns & _)
         |(listed & request & m & others & outcome & events & added & parts
           & Hrun & Ht & _ & _ & _ & Rs)].
    + rewrite Hturns. intros H. now destruct H.
    + rewrite Ht, Hrun. unfold OpenAI.first_requests.
      change (OpenAI.turns ([OpenAI.ToolsList (inr listed);
                             OpenAI.Create request (inr (m :: others))]
                              ++ events))
        with (m :: OpenAI.turns events).
      change (OpenAI.invocations ([OpenAI.ToolsList (inr listed);
                                   OpenAI.Create request (inr (m :: others))]
                                    ++ events))
        with (OpenAI.invocations events).
      change (OpenAI.outcomes ([OpenAI.ToolsList (inr listed);
                                OpenAI.Create request (inr (m :: others))]
                                 ++ events))
        with (OpenAI.outcomes events).
      intros _ Hparse.
      destruct (OpenAIFacts.Rounds_complete Rs Hparse) as [-> Hinv].
      destruct (OpenAIRounds.Rounds_told Rs eq_refl) as [Hn Hp].
      cbn [app OpenAI.story firstn flat_map]. rewrite app_nil_r.
      split; [now rewrite (OpenAIFacts.Rounds_narrate Rs)|].
      split; [exact Hinv|]. split; [exact Hn|].
      now rewrite <- Hp.
  - intros W client create model query w answer run t. subst t run.
    pose proof (ClaudeFacts.claude_query_failed client create model query w)
      as Hfail.
    destruct (ClaudeFacts.claude_query_cases client create model query w)
      as [(Hturns & _)
         |(listed & request & first & outcome & events & added & parts
           & Hrun & Ht & _ & _ & _ & Rs)].
    + intros E. destruct (Hfail Hturns) as [error He]. congruence.
    + rewrite Ht, Hrun. unfold Claude.story, Claude.first_uses.
      change (Claude.turns ([Claude.ToolsList (inr listed);
                             Claude.Create request (inr first)] ++ events))
        with (first :: Claude.turns events).
      change (Claude.invocations ([Claude.ToolsList (inr listed);
                                   Claude.Create request (inr first)]
                                    ++ events))
        with (Claude.invocations events).
      destruct outcome as [error|[]]; [discriminate|].
      destruct (ClaudeSteps.Steps_followed Rs eq_refl) as [Hn Hi].
      intros [= <-]. cbn [length].
      split; [now rewrite (ClaudeFacts.Steps_weave Rs eq_refl)|].
      split; [exact Hi | now rewrite Hn].
Qed.

(** C5 at Scenario D (OpenAI) and Scenario B (Claude). *)
Lemma C5_answer_is_the_story_witness :
  (fst Scenario.run_first_fails
   = inr (join newline
            (OpenAI.story (OpenAI.trace (snd Scenario.run_first_fails))))
   /\ length (OpenAI.outcomes (OpenAI.trace (snd Scenario.run_first_fails)))
      = 2)
  /\ "Found 2 files."
     = join newline
         (Claude.story (Claude.trace (snd Scenario.run_claude_one_tool))).
Proof.
  split.
  - destruct (proj1 C5_answer_is_the_story
                (Script.World OpenAI.Completion)
                (Some (Script.host OpenAI.Completion))
                (@Script.llm OpenAI.Request OpenAI.Completion)
                (Some "gpt-4o") Script.parse "List files in /tmp"
                Scenario.first_fails) as (Hstory & _ & Hn & _).
    + vm_compute. discriminate.
    + vm_compute. repeat constructor; eexists; reflexivity.
    + split; [exact Hstory | exact Hn].
  - apply (proj2 C5_answer_is_the_story
             (Script.World Claude.Response)
             (Some (Script.host Claude.Response))
             (@Script.llm Claude.Request Claude.Response)
             (Some "claude-3-opus-20240229") "List files in /tmp"
             Scenario.claude_one_tool "Found 2 files.").
    reflexivity.
Defined.


(** C6: the code at the failing inputs.  In the Claude client a failing
    LLM call rejects [processQuery]; the prompt callback has no handler,
    prints nothing and does not ask again.  In the OpenAI client a failure
    of an LLM call made after a tool invocation is caught by the handler
    of the tool call: the loop goes on to the next request and the next
    LLM call, and the caller receives an ordinary answer in which the
    failure is reported as a tool error. *)
Theorem C6_llm_failure_is_not_contained :
  Scenario.claude_ask Scenario.claude_refused "What is 2+2?"
  = ({| printed := None; reported := None;
        rejected := Some (APIError "429 rate limit");
        prompt := Abandoned |},
     Scenario.claude_world [] [])
  /\ OpenAI.refusals (OpenAI.trace (snd Scenario.run_refused_later))
     = [APIError "429 rate limit"]
  /\ length (OpenAI.requests (OpenAI.trace (snd Scenario.run_refused_later)))
     = 3
  /\ fst Scenario.run_refused_later
     = inr (join newline
              [OpenAI.calling_notice "list_files" Scenario.path;
               "[Error calling tool: 429 rate limit]";
               OpenAI.calling_notice "list_files" Scenario.path;
               "Two."]).
Proof. vm_compute. repeat split. Qed.

(** What the OpenAI client does when its first LLM call fails: the
    caller receives the error-prefixed string, no further remote call is
    made, and the prompt asks again. *)
Lemma OpenAI_first_refusal_is_reported :
  Scenario.openai_ask Scenario.refused "What is 2+2?"
  = ({| printed := Some "Error: 429 rate limit"; reported := None;
        rejected := None; prompt := Rearmed |},
     Scenario.openai_world [] []).
Proof. vm_compute. reflexivity. Qed.

(** C7, as stated, fails: the Claude client passes an absent description
    on as absent, not as the empty string. *)
Lemma C7_absent_description_stays_absent :
  map Claude.Schema.description (Claude.formatTools [Scenario.undescribed])
  <> map (fun tool => Some (or_empty (Tool.description tool)))
       [Scenario.undescribed].
Proof. intros H. vm_compute in H. discriminate. Qed.

(** C7, amended: both adapters keep the order of the descriptors, map the
    name to the name and pass the input schema through unchanged (as
    [parameters] of a [function] tool for OpenAI, as [input_schema] for
    Claude).  The OpenAI adapter substitutes the empty string for an absent
    description; the Claude adapter passes the description through
    unchanged, absent when it is absent. *)
Theorem C7_schema_adapters :
  forall tools : list Tool.t,
    map (fun f => OpenAI.Fn.name (OpenAI.function f)) (OpenAI.formatTools tools)
    = map Tool.name tools
    /\ map (fun f => OpenAI.Fn.description (OpenAI.function f))
         (OpenAI.formatTools tools)
       = map (fun tool => or_empty (Tool.description tool)) tools
    /\ map (fun f => OpenAI.Fn.parameters (OpenAI.function f))
         (OpenAI.formatTools tools)
       = map Tool.inputSchema tools
    /\ map OpenAI.type (OpenAI.formatTools tools)
       = map (fun _ => "function") tools
    /\ map Claude.Schema.name (Claude.formatTools tools) = map Tool.name tools
    /\ map Claude.Schema.description (Claude.formatTools tools)
       = map Tool.description tools
    /\ map Claude.Schema.input_schema (Claude.formatTools tools)
       = map Tool.inputSchema tools.
Proof.
  intros tools. unfold OpenAI.formatTools, Claude.formatTools.
  rewrite !map_map. repeat split.
Qed.

Lemma text_part_joined m :
  join newline (OpenAI.text_part m) = or_empty (OpenAI.content m).
Proof.
  unfold OpenAI.text_part. destruct (OpenAI.content m) as [[|c s]|]; reflexivity.
Qed.

(** C8: when the first LLM response holds no tool request, [processQuery]
    returns the text of that response after exactly one LLM call and no
    tool invocation.  The text is [content] (the empty string when it is
    null) for OpenAI, and the newline-join of the text blocks for Claude. *)
Theorem C8_plain_answer_after_one_call :
  (forall (W : Type) client create model parse query (w : W) m,
      let run := OpenAI.processQuery client create model parse query
                   (OpenAI.initial w) in
      let t := OpenAI.trace (snd run) in
      hd_error (OpenAI.turns t) = Some m ->
      OpenAI.requested m = [] ->
      fst run = inr (or_empty (OpenAI.content m))
      /\ length (OpenAI.requests t) = 1
      /\ OpenAI.invocations t = [])
  /\
  (forall (W : Type) client create model query (w : W) first,
      let run := Claude.processQuery client create model query
                   (Claude.initial w) in
      let t := Claude.trace (snd run) in
      hd_error (Claude.turns t) = Some first ->
      Claude.uses first = [] ->
      fst run = inr (join newline (Claude.texts first))
      /\ length (Claude.requests t) = 1
      /\ Claude.invocations t = []).
Proof.
  split.
  - intros W client create model parse query w m0 run t. subst t run.
    destruct (OpenAIFacts.openai_query_cases client create model parse query w)
      as [(-> & _)
         |(listed & request & m & others & outcome & events & added & parts
           & Hrun & Ht & _ & _ & _ & Rs)]; [discriminate|].
    rewrite Ht, Hrun. cbn [app]. cbn.
    intros [= <-] E. rewrite E in Rs.
    destruct (OpenAIFacts.Rounds_nil Rs) as (-> & -> & _ & ->).
    rewrite app_nil_r, text_part_joined. auto.
  - intros W client create model query w first0 run t. subst t run.
    destruct (ClaudeFacts.claude_query_cases client create model query w)
      as [(-> & _)
         |(listed & request & first & outcome & events & added & parts
           & Hrun & Ht & _ & _ & _ & Rs)]; [discriminate|].
    rewrite Ht, Hrun. cbn [app]. cbn.
    intros [= <-] E.
    destruct (ClaudeFacts.Steps_plain Rs E) as (-> & -> & _ & ->). auto.
Qed.

(** C8 at Scenario A, on both clients. *)
Lemma C8_plain_answer_after_one_call_witness :
  (fst Scenario.run_plain = inr "4"
   /\ length (OpenAI.requests (OpenAI.trace (snd Scenario.run_plain))) = 1
   /\ OpenAI.invocations (OpenAI.trace (snd Scenario.run_plain)) = [])
  /\
  (fst Scenario.run_claude_plain = inr "4"
   /\ length (Claude.requests (Claude.trace (snd Scenario.run_claude_plain))) = 1
   /\ Claude.invocations (Claude.trace (snd Scenario.run_claude_plain)) = []).
Proof.
  split.
  - apply (proj1 C8_plain_answer_after_one_call
             (Script.World OpenAI.Completion)
             (Some (Script.host OpenAI.Completion))
             (@Script.llm OpenAI.Request OpenAI.Completion)
             (Some "gpt-4o") Script.parse "What is 2+2?" Scenario.plain
             {| OpenAI.content := Some "4"; OpenAI.tool_calls := None |});
      reflexivity.
  - apply (proj2 C8_plain_answer_after_one_call
             (Script.World Claude.Response)
             (Some (Script.host Claude.Response))
             (@Script.llm Claude.Request Claude.Response)
             (Some "claude-3-opus-20240229") "What is 2+2?"
             Scenario.claude_plain [Claude.Text "4"]);
      reflexivity.
Defined.

(** C9: the code at the failing input, and at every other one.  Every
    [tools/call] request of the Claude client has the members [name] and
    [args]; none has a member [arguments], under which the OpenAI client
    sends the arguments of the request. *)
Theorem C9_claude_sends_args_not_arguments :
  Claude.invocations (Claude.trace (snd Scenario.run_claude_one_tool))
  = [JObject [("name", JString "list_files");
              ("args", JObject [("path", JString "/tmp")])]]
  /\ OpenAI.invocations (OpenAI.trace (snd Scenario.run_one_tool))
     = [JObject [("name", JString "list_files");
                 ("arguments", JObject [("path", JString "/tmp")])]]
  /\ forall (W : Type) client create model query (w : W),
       Forall (fun params =>
                 exists name input,
                   params = JObject [("name", JString name); ("args", input)])
         (Claude.invocations
            (Claude.trace (snd (Claude.processQuery client create model query
                                  (Claude.initial w))))).
Proof.
  split; [reflexivity|]. split; [reflexivity|].
  intros W client create model query w.
  destruct (ClaudeFacts.claude_query_cases client create model query w)
    as [(_ & -> & _)
       |(listed & request & first & outcome & events & added & parts
         & _ & Ht & _ & _ & _ & Rs)]; [constructor|].
  rewrite Ht. exact (ClaudeFacts.Steps_params Rs).
Qed.

(** C10: in the Claude client the first LLM call of a session carries the
    configured model, and every later call of the session carries
    [claude-3-5-sonnet-20241022], whatever the configuration is. *)
Theorem C10_follow_up_model_is_fixed :
  forall (W : Type) client create model query (w : W),
    match Claude.requests
            (Claude.trace (snd (Claude.processQuery client create model query
                                  (Claude.initial w)))) with
    | [] => True
    | first :: later =>
        Claude.model first = model
        /\ Forall (fun r => Claude.model r = Some "claude-3-5-sonnet-20241022")
             later
    end.
Proof.
  intros W client create model query w.
  destruct (ClaudeFacts.claude_query_cases client create model query w)
    as [(_ & _ & F & L & _)
       |(listed & request & first & outcome & events & added & parts
         & _ & Ht & _ & Hmodel & _ & Rs)].
  - destruct (Claude.requests _) as [|r [|r' rest]]; [exact I| |cbn in L; lia].
    inversion F as [|? ? Hr _]; subst. destruct Hr as [_ Hm].
    split; [exact Hm | constructor].
  - rewrite Ht.
    change (Claude.requests ([Claude.ToolsList (inr listed);
                              Claude.Create request (inr first)] ++ events))
      with (request :: Claude.requests events).
    split; [exact Hmodel | exact (ClaudeFacts.Steps_models Rs)].
Qed.

(* ================================================================= *)
(** ** Further properties: starting the clients *)

Lemma endsWith_suffix s suffix :
  endsWith s suffix = true <-> exists p, s = (p ++ suffix)%string.
Proof.
  split.
  - induction s as [|c s IH]; cbn [endsWith].
    + destruct (String.eqb "" suffix) eqn:E; [|discriminate].
      apply String.eqb_eq in E. intros _. exists "". now subst.
    + destruct (String.eqb (String c s) suffix) eqn:E.
      * apply String.eqb_eq in E. intros _. exists "". now subst.
      * intros H. destruct (IH H) as [p ->]. now exists (String c p).
  - intros [p ->]. induction p as [|c p IH]; cbn [append].
    + destruct suffix; cbn [endsWith]; now rewrite String.eqb_refl.
    + cbn [endsWith]. rewrite IH. now destruct (String.eqb _ suffix).
Qed.

Lemma endsWith_no_suffix s suffix :
  endsWith s suffix = false -> ~ exists p, s = (p ++ suffix)%string.
Proof.
  intros E H. apply endsWith_suffix in H. congruence.
Qed.

Lemma prefix_before (part : string) (m : ascii) :
  ~ In m (list_ascii_of_string part) ->
  forall s rest,
    String.prefix part (s ++ String m rest) = String.prefix part s.
Proof.
  induction part as [|a part IH]; intros Hm s rest;
    [destruct s; reflexivity|].
  cbn in Hm. destruct s as [|b s]; cbn.
  - destruct (ascii_dec a m) as [->|_]; [|reflexivity].
    exfalso. apply Hm. now left.
  - destruct (ascii_dec a b); [|reflexivity].
    apply IH. intros H. apply Hm. now right.
Qed.

Lemma includes_before (part : string) (m : ascii) (rest : string) :
  ~ In m (list_ascii_of_string part) ->
  forall s,
    includes (s ++ String m rest) part
    = includes s part || includes (String m rest) part.
Proof.
  intros Hm. induction s as [|c s IH].
  - cbn [append includes orb].
    destruct (String.prefix part "") eqn:E; [|reflexivity].
    destruct part; [reflexivity | discriminate].
  - change ((String c s ++ String m rest)%string)
      with (String c (s ++ String m rest)).
    cbn [includes].
    change (String c (s ++ String m rest))
      with ((String c s ++ String m rest)%string).
    rewrite (prefix_before part m Hm (String c s) rest), IH.
    now destruct (String.prefix part (String c s)).
Qed.

Lemma js_is_not_py p q : (p ++ ".js")%string = (q ++ ".py")%string -> False.
Proof.
  revert q. induction p as [|c p IH]; intros q E.
  - destruct q as [|a [|b [|c0 [|d q]]]]; cbn in E; discriminate E.
  - destruct q as [|a q]; cbn in E.
    + destruct p as [|x [|y [|z p]]]; cbn in E; discriminate E.
    + injection E as _ E. exact (IH q E).
Qed.

Lemma js_not_py path :
  (exists p, path = (p ++ ".js")%string) -> endsWith path ".py" = false.
Proof.
  intros [p ->]. destruct (endsWith (p ++ ".js") ".py") eqn:E; [|reflexivity].
  apply endsWith_suffix in E. destruct E as [q E].
  destruct (js_is_not_py p q E).
Qed.

(** X1.  [connectToServer] of the OpenAI client refuses a script path
    that ends neither in [.py] nor in [.js] before it creates anything:
    the fields and the world stay as they were.  A path that ends in
    [.py] is launched with [python], one that ends in [.js] with [node],
    each with the path as the only argument: that transport is the one
    handed to [connect] and the one the stored client speaks over; a
    failure of [connect] is thrown on, and after a [connect] that
    succeeded the outcome is that of [tools/list] on that client. *)
Theorem X1_openai_connect_by_suffix :
  forall (W : Type) server connect path self (w : W),
    ((~ exists p, path = (p ++ ".py")%string) ->
     (~ exists p, path = (p ++ ".js")%string) ->
     OpenAIMain.connectToServer server connect path self w
     = (inl (JsError "Server script must be a .py or .js file"), (self, w)))
    /\ ((exists p, path = (p ++ ".py")%string) ->
        fst (snd (OpenAIMain.connectToServer server connect path self w))
        = Some (server {| command := "python"; args := [path] |}))
    /\ ((exists p, path = (p ++ ".js")%string) ->
        fst (snd (OpenAIMain.connectToServer server connect path self w))
        = Some (server {| command := "node"; args := [path] |}))
    /\ (forall transport,
           (exists p, path = (p ++ ".py")%string)
           /\ transport = {| command := "python"; args := [path] |}
           \/ (exists p, path = (p ++ ".js")%string)
              /\ transport = {| command := "node"; args := [path] |} ->
           OpenAIMain.connectToServer server connect path self w
           = match connect transport w with
             | (inl error, w1) => (inl error, (Some (server transport), w1))
             | (inr _, w1) =>
                 (match fst (tools_list (server transport) w1) with
                  | inl error => inl error
                  | inr tools => inr (map Tool.name tools)
                  end,
                  (Some (server transport),
                   snd (tools_list (server transport) w1)))
             end).
Proof.
  intros W server connect path self w. unfold OpenAIMain.connectToServer.
  split; [|split; [|split]].
  - intros Hpy Hjs.
    destruct (endsWith path ".py") eqn:Epy;
      [exfalso; apply Hpy; now apply endsWith_suffix|].
    destruct (endsWith path ".js") eqn:Ejs;
      [exfalso; apply Hjs; now apply endsWith_suffix|].
    reflexivity.
  - intros Hpy. apply endsWith_suffix in Hpy. rewrite Hpy. cbn.
    destruct (connect _ w) as [[e|[]] w1]; [reflexivity|].
    destruct (tools_list _ w1) as [[e|tools] w2]; reflexivity.
  - intros Hjs. rewrite (js_not_py Hjs).
    apply endsWith_suffix in Hjs. rewrite Hjs. cbn.
    destruct (connect _ w) as [[e|[]] w1]; [reflexivity|].
    destruct (tools_list _ w1) as [[e|tools] w2]; reflexivity.
  - intros transport [[Hpy ->]|[Hjs ->]].
    + apply endsWith_suffix in Hpy. rewrite Hpy. cbn [negb andb].
      destruct (connect _ w) as [[e|[]] w1]; [reflexivity|].
      destruct (tools_list _ w1) as [[e|tools] w2]; reflexivity.
    + rewrite (js_not_py Hjs).
      apply endsWith_suffix in Hjs. rewrite Hjs. cbn [negb andb].
      destruct (connect _ w) as [[e|[]] w1]; [reflexivity|].
      destruct (tools_list _ w1) as [[e|tools] w2]; reflexivity.
Qed.

(** X1 at the paths [server.rb], [server.py] and [build/index.js], on a
    machine that keeps a log of the transports launched, and on one that
    has no [python]. *)
Lemma X1_openai_connect_by_suffix_witness :
  OpenAIMain.connectToServer (fun _ => Stage.quiet) Stage.launches
    "server.rb" None []
  = (inl (JsError "Server script must be a .py or .js file"), (None, []))
  /\ snd (snd (OpenAIMain.connectToServer (fun _ => Stage.quiet)
                 Stage.launches "server.py" None []))
     = [{| command := "python"; args := ["server.py"] |}]
  /\ snd (snd (OpenAIMain.connectToServer (fun _ => Stage.quiet)
                 Stage.launches "build/index.js" None []))
     = [{| command := "node"; args := ["build/index.js"] |}]
  /\ fst (OpenAIMain.connectToServer (fun _ => Stage.quiet)
            Stage.no_python "server.py" None [])
     = inl (JsError "spawn python ENOENT").
Proof.
  split; [|split; [|split]].
  - apply (proj1 (X1_openai_connect_by_suffix (fun _ => Stage.quiet)
                    Stage.launches "server.rb" None []));
      apply endsWith_no_suffix; reflexivity.
  - rewrite (proj2 (proj2 (proj2 (X1_openai_connect_by_suffix
                                    (fun _ => Stage.quiet) Stage.launches
                                    "server.py" None [])))
               {| command := "python"; args := ["server.py"] |}).
    + reflexivity.
    + left. split; [now exists "server" | reflexivity].
  - rewrite (proj2 (proj2 (proj2 (X1_openai_connect_by_suffix
                                    (fun _ => Stage.quiet) Stage.launches
                                    "build/index.js" None [])))
               {| command := "node"; args := ["build/index.js"] |}).
    + reflexivity.
    + right. split; [now exists "build/index" | reflexivity].
  - rewrite (proj2 (proj2 (proj2 (X1_openai_connect_by_suffix
                                    (fun _ => Stage.quiet) Stage.no_python
                                    "server.py" None [])))
               {| command := "python"; args := ["server.py"] |}).
    + reflexivity.
    + left. split; [now exists "server" | reflexivity].
Defined.

(** X2.  [connectToServer] of the Claude client refuses no path: a path
    that ends in [.py] is launched with [python], and every other path,
    whatever its name, with [node], each with the path as the only
    argument: that transport is the one handed to [connect] and the one
    the stored client speaks over; a failure of [connect] is thrown on,
    and after a [connect] that succeeded the outcome is that of
    [tools/list] on that client. *)
Theorem X2_claude_connect_by_suffix :
  forall (W : Type) server connect path self (w : W),
    ((exists p, path = (p ++ ".py")%string) ->
     fst (snd (ClaudeMain.connectToServer server connect path self w))
     = Some (server {| command := "python"; args := [path] |}))
    /\ ((~ exists p, path = (p ++ ".py")%string) ->
        fst (snd (ClaudeMain.connectToServer server connect path self w))
        = Some (server {| command := "node"; args := [path] |}))
    /\ (forall transport,
           (exists p, path = (p ++ ".py")%string)
           /\ transport = {| command := "python"; args := [path] |}
           \/ (~ exists p, path = (p ++ ".py")%string)
              /\ transport = {| command := "node"; args := [path] |} ->
           ClaudeMain.connectToServer server connect path self w
           = match connect transport w with
             | (inl error, w1) => (inl error, (Some (server transport), w1))
             | (inr _, w1) =>
                 (match fst (tools_list (server transport) w1) with
                  | inl error => inl error
                  | inr tools => inr (map Tool.name tools)
                  end,
                  (Some (server transport),
                   snd (tools_list (server transport) w1)))
             end).
Proof.
  intros W server connect path self w. unfold ClaudeMain.connectToServer.
  split; [|split].
  - intros Hpy. apply endsWith_suffix in Hpy. rewrite Hpy.
    destruct (connect _ w) as [[e|[]] w1]; [reflexivity|].
    destruct (tools_list _ w1) as [[e|tools] w2]; reflexivity.
  - intros Hpy.
    destruct (endsWith path ".py") eqn:Epy;
      [exfalso; apply Hpy; now apply endsWith_suffix|].
    destruct (connect _ w) as [[e|[]] w1]; [reflexivity|].
    destruct (tools_list _ w1) as [[e|tools] w2]; reflexivity.
  - intros transport [[Hpy ->]|[Hpy ->]].
    + apply endsWith_suffix in Hpy. rewrite Hpy.
      destruct (connect _ w) as [[e|[]] w1]; [reflexivity|].
      destruct (tools_list _ w1) as [[e|tools] w2]; reflexivity.
    + destruct (endsWith path ".py") eqn:Epy;
        [exfalso; apply Hpy; now apply endsWith_suffix|].
      destruct (connect _ w) as [[e|[]] w1]; [reflexivity|].
      destruct (tools_list _ w1) as [[e|tools] w2]; reflexivity.
Qed.

(** X2 at the paths [server.py] and [server.rb], on a machine that keeps
    a log of the transports launched. *)
Lemma X2_claude_connect_by_suffix_witness :
  snd (snd (ClaudeMain.connectToServer (fun _ => Stage.quiet)
              Stage.launches "server.py" None []))
  = [{| command := "python"; args := ["server.py"] |}]
  /\ snd (snd (ClaudeMain.connectToServer (fun _ => Stage.quiet)
                 Stage.launches "server.rb" None []))
     = [{| command := "node"; args := ["server.rb"] |}].
Proof.
  split.
  - rewrite (proj2 (proj2 (X2_claude_connect_by_suffix
                             (fun _ => Stage.quiet) Stage.launches
                             "server.py" None []))
               {| command := "python"; args := ["server.py"] |}).
    + reflexivity.
    + left. split; [now exists "server" | reflexivity].
  - rewrite (proj2 (proj2 (X2_claude_connect_by_suffix
                             (fun _ => Stage.quiet) Stage.launches
                             "server.rb" None []))
               {| command := "node"; args := ["server.rb"] |}).
    + reflexivity.
    + right. split; [apply endsWith_no_suffix; reflexivity | reflexivity].
Defined.


Lemma openai_main_exit_code (W : Type) server connect key argv (w : W) code :
  fst (OpenAIMain.main server connect key argv w) = Exited code -> code = 1.
Proof.
  unfold OpenAIMain.main, OpenAIMain.construct, OpenAIMain.connectToServer.
  destruct (length argv <? 3)%nat; [now intros [= <-]|].
  destruct (truthy key); [|discriminate].
  destruct (negb (endsWith (nth 2 argv "") ".py")
            && negb (endsWith (nth 2 argv "") ".js"));
    [cbn; now intros [= <-]|].
  set (transport := {| command := _; args := _ |}).
  destruct (connect transport w) as [[e|[]] w1].
  - unfold OpenAI.cleanup.
    destruct (transport_close _ w1) as [[e'|[]] w2];
      [discriminate | now intros [= <-]].
  - destruct (tools_list (server transport) w1) as [[e|tools] w2];
      [|discriminate].
    unfold OpenAI.cleanup.
    destruct (transport_close _ w2) as [[e'|[]] w3];
      [discriminate | now intros [= <-]].
Qed.

(** X3.  [main] of the OpenAI client arms the prompt only when
    [process.argv] has at least three entries, the API key is a non-empty
    string, the script path ends in [.py] or [.js], and both [connect] and
    the first [tools/list] succeeded.  It never ends with an exit code
    other than 1.  Without an API key it rejects before anything is
    launched.  A script path of another suffix ends it with code 1, with
    nothing launched and nothing to close.  When [connect] or the first
    [tools/list] fails, for a [.py] as for a [.js] script, [main] closes
    the transport it created before it exits with code 1, or rejects
    with what the close threw. *)
Theorem X3_openai_main :
  forall (W : Type) server connect key argv (w : W),
    let path := nth 2 argv "" in
    (forall state,
        OpenAIMain.main server connect key argv w = (Prompting, state) ->
        3 <= length argv
        /\ truthy key = true
        /\ (exists p, path = (p ++ ".py")%string \/ path = (p ++ ".js")%string)
        /\ exists transport w1 tools,
             args transport = [path]
             /\ connect transport w = (inr tt, w1)
             /\ tools_list (server transport) w1 = (inr tools, snd state)
             /\ fst state = Some (server transport))
    /\ (forall code,
           fst (OpenAIMain.main server connect key argv w) = Exited code ->
           code = 1)
    /\ (3 <= length argv ->
        truthy key = false ->
        OpenAIMain.main server connect key argv w
        = (Rejected (JsError "OPENAI_API_KEY environment variable is not set"),
           (None, w)))
    /\ (3 <= length argv ->
        truthy key = true ->
        (~ exists p, path = (p ++ ".py")%string) ->
        (~ exists p, path = (p ++ ".js")%string) ->
        OpenAIMain.main server connect key argv w = (Exited 1, (None, w)))
    /\ (forall transport error w1,
           3 <= length argv ->
           truthy key = true ->
           (exists p, path = (p ++ ".py")%string)
           /\ transport = {| command := "python"; args := [path] |}
           \/ (exists p, path = (p ++ ".js")%string)
              /\ transport = {| command := "node"; args := [path] |} ->
           connect transport w = (inl error, w1)
           \/ (exists w0, connect transport w = (inr tt, w0)
                          /\ tools_list (server transport) w0
                             = (inl error, w1)) ->
           let client := server transport in
           OpenAIMain.main server connect key argv w
           = (match fst (transport_close client w1) with
              | inr _ => Exited 1
              | inl thrown => Rejected thrown
              end,
              (Some client, snd (transport_close client w1)))).
Proof.
  intros W server connect key argv w path. subst path.
  unfold OpenAIMain.main, OpenAIMain.construct, OpenAIMain.connectToServer.
  split; [|split; [|split; [|split]]].
  - intros state H.
    destruct (length argv <? 3)%nat eqn:L; [discriminate|].
    apply Nat.ltb_ge in L.
    destruct (truthy key) eqn:K; [|discriminate].
    assert (S : exists p, nth 2 argv "" = (p ++ ".py")%string
                          \/ nth 2 argv "" = (p ++ ".js")%string).
    { destruct (endsWith (nth 2 argv "") ".py") eqn:Epy.
      - apply endsWith_suffix in Epy. destruct Epy as [p E]. exists p.
        now left.
      - destruct (endsWith (nth 2 argv "") ".js") eqn:Ejs.
        + apply endsWith_suffix in Ejs. destruct Ejs as [p E]. exists p.
          now right.
        + cbn in H. discriminate. }
    repeat split; try assumption.
    destruct (negb (endsWith (nth 2 argv "") ".py")
              && negb (endsWith (nth 2 argv "") ".js"));
      [cbn in H; discriminate|].
    set (transport := {| command := _; args := _ |}) in *.
    exists transport.
    destruct (connect transport w) as [[e|[]] w1].
    + unfold OpenAI.cleanup in H.
      destruct (transport_close _ w1) as [[e'|[]] w2]; discriminate.
    + destruct (tools_list (server transport) w1) as [[e|tools] w2] eqn:T.
      * unfold OpenAI.cleanup in H.
        destruct (transport_close _ w2) as [[e'|[]] w3]; discriminate.
      * injection H as <-. exists w1, tools. cbn [fst snd args].
        repeat split; assumption.
  - intros code. apply openai_main_exit_code.
  - intros L K. apply Nat.ltb_ge in L. rewrite L, K. reflexivity.
  - intros L K Hpy Hjs. apply Nat.ltb_ge in L. rewrite L, K.
    destruct (endsWith (nth 2 argv "") ".py") eqn:Epy;
      [exfalso; apply Hpy; now apply endsWith_suffix|].
    destruct (endsWith (nth 2 argv "") ".js") eqn:Ejs;
      [exfalso; apply Hjs; now apply endsWith_suffix|].
    reflexivity.
  - intros transport error w1 L K S C. apply Nat.ltb_ge in L. rewrite L, K.
    assert (E : negb (endsWith (nth 2 argv "") ".py")
                && negb (endsWith (nth 2 argv "") ".js") = false
                /\ {| command := if endsWith (nth 2 argv "") ".py"
                                 then "python" else "node";
                      args := [nth 2 argv ""] |} = transport).
    { destruct S as [[Hpy ->]|[Hjs ->]].
      - apply endsWith_suffix in Hpy. rewrite Hpy. now split.
      - rewrite (js_not_py Hjs). apply endsWith_suffix in Hjs.
        rewrite Hjs. now split. }
    destruct E as [-> ->]. unfold OpenAI.cleanup.
    destruct C as [C|(w0 & C & T)]; rewrite C; [|rewrite T];
      destruct (transport_close _ w1) as [[e'|[]] w2]; reflexivity.
Qed.

(** X3 at a launch that succeeds, at a [.py] launch whose [connect]
    fails, and at a [.js] launch whose [connect] fails and whose
    transport cannot be closed. *)
Lemma X3_openai_main_witness :
  (exists p, "server.py" = (p ++ ".py")%string
             \/ "server.py" = (p ++ ".js")%string)
  /\ OpenAIMain.main (Stage.server OpenAI.Completion)
       (Stage.refuses (R:=OpenAI.Completion)) (Some "sk-test")
       ["node"; "build/openai-client.js"; "server.py"] Scenario.plain
     = (Exited 1, (Some (Script.host OpenAI.Completion), Scenario.plain))
  /\ OpenAIMain.main (fun _ => Stage.stuck OpenAI.Completion)
       (Stage.refuses (R:=OpenAI.Completion)) (Some "sk-test")
       ["node"; "build/openai-client.js"; "build/index.js"] Scenario.plain
     = (Rejected Scenario.boom,
        (Some (Stage.stuck OpenAI.Completion), Scenario.plain)).
Proof.
  split; [|split].
  - apply (proj1 (X3_openai_main (Stage.server OpenAI.Completion)
                    (Stage.connects (R:=OpenAI.Completion)) (Some "sk-test")
                    ["node"; "build/openai-client.js"; "server.py"]
                    Scenario.plain)
             (Some (Script.host OpenAI.Completion), Scenario.plain)).
    reflexivity.
  - apply (proj2 (proj2 (proj2 (proj2
             (X3_openai_main (Stage.server OpenAI.Completion)
                (Stage.refuses (R:=OpenAI.Completion)) (Some "sk-test")
                ["node"; "build/openai-client.js"; "server.py"]
                Scenario.plain))))
             {| command := "python"; args := ["server.py"] |}
             Scenario.boom Scenario.plain).
    + cbn. lia.
    + reflexivity.
    + left. split; [now exists "server" | reflexivity].
    + left. reflexivity.
  - apply (proj2 (proj2 (proj2 (proj2
             (X3_openai_main (fun _ => Stage.stuck OpenAI.Completion)
                (Stage.refuses (R:=OpenAI.Completion)) (Some "sk-test")
                ["node"; "build/openai-client.js"; "build/index.js"]
                Scenario.plain))))
             {| command := "node"; args := ["build/index.js"] |}
             Scenario.boom Scenario.plain).
    + cbn. lia.
    + reflexivity.
    + right. split; [now exists "build/index" | reflexivity].
    + left. reflexivity.
Defined.

(** X4.  [main] of the Claude client arms the prompt only when
    [process.argv[2]] is a non-empty string, the API key is a non-empty
    string, and both [connect] and the first [tools/list] succeeded; the
    name of the script is not checked.  When [connect] fails, [main]
    rejects with the error and leaves the transport it created open: the
    world is the one [connect] left. *)
Theorem X4_claude_main :
  forall (W : Type) server connect key argv (w : W),
    let path := nth 2 argv "" in
    let transport :=
      {| command := if endsWith path ".py" then "python" else "node";
         args := [path] |} in
    (forall state,
        ClaudeMain.main server connect key argv w = (Prompting, state) ->
        truthy (nth_error argv 2) = true
        /\ truthy key = true
        /\ exists w1 tools,
             connect transport w = (inr tt, w1)
             /\ tools_list (server transport) w1 = (inr tools, snd state)
             /\ fst state = Some (server transport))
    /\ (forall error w1,
           truthy (nth_error argv 2) = true ->
           truthy key = true ->
           connect transport w = (inl error, w1) ->
           ClaudeMain.main server connect key argv w
           = (Rejected error, (Some (server transport), w1))).
Proof.
  intros W server connect key argv w path transport. subst transport path.
  unfold ClaudeMain.main, ClaudeMain.construct, ClaudeMain.connectToServer.
  split.
  - intros state H.
    destruct (truthy (nth_error argv 2)); [|discriminate].
    destruct (truthy key); [|discriminate].
    split; [reflexivity|]. split; [reflexivity|].
    set (transport := {| command := _; args := _ |}) in *.
    destruct (connect transport w) as [[e|[]] w1]; [discriminate|].
    destruct (tools_list (server transport) w1) as [[e|tools] w2] eqn:T;
      [discriminate|].
    injection H as <-. exists w1, tools. cbn [fst snd].
    repeat split; assumption.
  - intros error w1 A K C. rewrite A, K, C. reflexivity.
Qed.

(** X4 at a launch that succeeds and at one whose [connect] fails. *)
Lemma X4_claude_main_witness :
  truthy (Some "sk-ant-test") = true
  /\ ClaudeMain.main (Stage.server Claude.Response)
       (Stage.refuses (R:=Claude.Response)) (Some "sk-ant-test")
       ["node"; "build/mcp-client-claude.js"; "server.rb"]
       Scenario.claude_plain
     = (Rejected Scenario.boom,
        (Some (Script.host Claude.Response), Scenario.claude_plain)).
Proof.
  split.
  - apply (proj1 (X4_claude_main (Stage.server Claude.Response)
                    (Stage.connects (R:=Claude.Response)) (Some "sk-ant-test")
                    ["node"; "build/mcp-client-claude.js"; "server.rb"]
                    Scenario.claude_plain)
             (Some (Script.host Claude.Response), Scenario.claude_plain)).
    reflexivity.
  - apply (proj2 (X4_claude_main (Stage.server Claude.Response)
                    (Stage.refuses (R:=Claude.Response)) (Some "sk-ant-test")
                    ["node"; "build/mcp-client-claude.js"; "server.rb"]
                    Scenario.claude_plain));
      reflexivity.
Defined.

Lemma prefix_split part : forall s,
  String.prefix part s = true -> exists b, s = (part ++ b)%string.
Proof.
  induction part as [|a part IH]; intros s H.
  - now exists s.
  - destruct s as [|c s]; [discriminate|]. cbn in H.
    destruct (ascii_dec a c) as [->|]; [|discriminate].
    destruct (IH s H) as [b ->]. now exists b.
Qed.

Lemma includes_split part : forall s,
  includes s part = true -> exists a b, s = (a ++ part ++ b)%string.
Proof.
  induction s as [|c s IH]; cbn [includes]; intros H.
  - destruct (String.prefix part "") eqn:P; [|discriminate].
    destruct (prefix_split part "" P) as [b E]. now exists "", b.
  - destruct (String.prefix part (String c s)) eqn:P.
    + destruct (prefix_split part _ P) as [b E]. now exists "", b.
    + destruct (IH H) as (a & b & ->). now exists (String c a), b.
Qed.

(** X5.  The entry point of the OpenAI client calls [main] only when
    [process.argv[1]] contains [openai-client]; it then ends as [main]
    ends, except that a rejection of [main] becomes exit code 1, the only
    exit code there is: a missing API key, which rejects [main], ends
    the process with code 1 and nothing launched.  Started as
    [mcp-client-openai.js] from a directory whose path does not contain
    [openai-client], it calls nothing: no client is built and no server
    is launched. *)
Theorem X5_openai_entry_guard :
  forall (W : Type) server connect key argv (w : W),
    (fst (OpenAIMain.start server connect key argv w) <> Idle ->
     exists script a b,
       nth_error argv 1 = Some script
       /\ script = (a ++ "openai-client" ++ b)%string)
    /\ (forall error,
           fst (OpenAIMain.start server connect key argv w) <> Rejected error)
    /\ (forall node dir more,
           argv = node :: (dir ++ "mcp-client-openai.js")%string :: more ->
           includes dir "openai-client" = false ->
           OpenAIMain.start server connect key argv w = (Idle, (None, w)))
    /\ (forall script a b,
           nth_error argv 1 = Some script ->
           script = (a ++ "openai-client" ++ b)%string ->
           (forall error state,
               OpenAIMain.main server connect key argv w
               = (Rejected error, state) ->
               OpenAIMain.start server connect key argv w
               = (Exited 1, state))
           /\ (forall outcome state,
                  OpenAIMain.main server connect key argv w
                  = (outcome, state) ->
                  (forall error, outcome <> Rejected error) ->
                  OpenAIMain.start server connect key argv w
                  = (outcome, state))
           /\ (3 <= length argv ->
               truthy key = false ->
               OpenAIMain.start server connect key argv w
               = (Exited 1, (None, w))))
    /\ (forall code,
           fst (OpenAIMain.start server connect key argv w) = Exited code ->
           code = 1).
Proof.
  intros W server connect key argv w. unfold OpenAIMain.start.
  split; [|split; [|split; [|split]]].
  - destruct (nth_error argv 1) as [script|]; [|now intros []].
    destruct (includes script "openai-client") eqn:I; [|now intros []].
    intros _. destruct (includes_split _ _ I) as (a & b & E).
    now exists script, a, b.
  - intros error.
    destruct (nth_error argv 1) as [script|]; [|discriminate].
    destruct (includes script "openai-client"); [|discriminate].
    destruct (OpenAIMain.main server connect key argv w) as [[] state];
      discriminate.
  - intros node dir more -> I. cbn [nth_error].
    rewrite (includes_before "openai-client" "m" "cp-client-openai.js").
    + rewrite I. reflexivity.
    + cbn. intuition discriminate.
  - intros script a b -> ->. rewrite includes_middle.
    split; [|split].
    + intros error state ->. reflexivity.
    + intros outcome state -> H. destruct outcome; try reflexivity.
      now destruct (H error).
    + intros L K. unfold OpenAIMain.main, OpenAIMain.construct.
      apply Nat.ltb_ge in L. rewrite L, K. reflexivity.
  - intros code.
    destruct (nth_error argv 1) as [script|]; [|discriminate].
    destruct (includes script "openai-client"); [|discriminate].
    pose proof (@openai_main_exit_code W server connect key argv w code)
      as H.
    destruct (OpenAIMain.main server connect key argv w) as [[] state];
      cbn [fst] in *; try discriminate.
    + exact H.
    + now intros [= <-].
Qed.

(** X5 at the command line of the README, at a script whose name
    contains the marker, and at a start without an API key. *)
Lemma X5_openai_entry_guard_witness :
  OpenAIMain.start (Stage.server OpenAI.Completion)
    (Stage.connects (R:=OpenAI.Completion)) (Some "sk-test")
    ["/usr/bin/node"; "/home/dev/MCP-Client/build/mcp-client-openai.js";
     "server.py"] Scenario.plain
  = (Idle, (None, Scenario.plain))
  /\ (exists script a b,
         nth_error ["/usr/bin/node"; "build/openai-client.js"; "server.py"] 1
         = Some script
         /\ script = (a ++ "openai-client" ++ b)%string)
  /\ OpenAIMain.start (Stage.server OpenAI.Completion)
       (Stage.connects (R:=OpenAI.Completion)) None
       ["/usr/bin/node"; "build/openai-client.js"; "server.py"]
       Scenario.plain
     = (Exited 1, (None, Scenario.plain)).
Proof.
  split; [|split].
  - apply (proj1 (proj2 (proj2 (X5_openai_entry_guard
                           (Stage.server OpenAI.Completion)
                           (Stage.connects (R:=OpenAI.Completion))
                           (Some "sk-test")
                           ["/usr/bin/node";
                            "/home/dev/MCP-Client/build/mcp-client-openai.js";
                            "server.py"] Scenario.plain)))
             "/usr/bin/node" "/home/dev/MCP-Client/build/" ["server.py"]);
      reflexivity.
  - apply (proj1 (X5_openai_entry_guard
                    (Stage.server OpenAI.Completion)
                    (Stage.connects (R:=OpenAI.Completion))
                    (Some "sk-test")
                    ["/usr/bin/node"; "build/openai-client.js"; "server.py"]
                    Scenario.plain)).
    vm_compute. discriminate.
  - apply (proj1 (proj2 (proj2 (proj2 (X5_openai_entry_guard
                           (Stage.server OpenAI.Completion)
                           (Stage.connects (R:=OpenAI.Completion))
                           None
                           ["/usr/bin/node"; "build/openai-client.js";
                            "server.py"] Scenario.plain))))
             "build/openai-client.js" "build/" ".js").
    + reflexivity.
    + reflexivity.
    + cbn. lia.
    + reflexivity.
Defined.

(* ================================================================= *)
(** ** Further properties: the prompt loops *)

Lemma openai_chatLoop_app (W : Type) self create model parse
    (before more : list string) :
  Forall (fun line => String.eqb (toLowerCase line) "quit" = false) before ->
  forall w : W,
    OpenAIMain.chatLoop create model parse self (before ++ more) w
    = let (turns, w1) :=
        OpenAIMain.chatLoop create model parse self before w in
      let (turns', w2) :=
        OpenAIMain.chatLoop create model parse self more w1 in
      (turns ++ turns', w2).
Proof.
  induction 1 as [|line before Hq _ IH]; intros w.
  - cbn. now destruct (OpenAIMain.chatLoop _ _ _ _ more w).
  - cbn [app OpenAIMain.chatLoop].
    pose proof (OpenAIFacts.askQuestion_rearms self create model parse line w Hq)
      as R.
    destruct (OpenAI.askQuestion self create model parse line w)
      as [turn w1]. cbn [fst] in R. rewrite R, IH.
    destruct (OpenAIMain.chatLoop _ _ _ _ before w1) as [turns w2].
    destruct (OpenAIMain.chatLoop _ _ _ _ more w2) as [turns' w3].
    reflexivity.
Qed.

(** X6.  The prompt of the OpenAI client survives every query: as long
    as no line is [quit], each line gets its turn and the question is
    asked again after it, whatever the tool host and the LLM do. *)
Theorem X6_openai_prompt_survives :
  forall (W : Type) self create model parse lines (w : W),
    Forall (fun line => String.eqb (toLowerCase line) "quit" = false) lines ->
    length (fst (OpenAIMain.chatLoop create model parse self lines w))
    = length lines
    /\ Forall (fun turn => prompt turn = Rearmed)
         (fst (OpenAIMain.chatLoop create model parse self lines w)).
Proof.
  intros W self create model parse lines w H. revert w.
  induction H as [|line lines Hq _ IH]; intros w.
  - cbn. auto.
  - cbn [OpenAIMain.chatLoop].
    pose proof (OpenAIFacts.askQuestion_rearms self create model parse line w Hq)
      as R.
    destruct (OpenAI.askQuestion self create model parse line w)
      as [turn w1]. cbn [fst] in R. rewrite R.
    specialize (IH w1).
    destruct (OpenAIMain.chatLoop _ _ _ _ lines w1) as [turns w2].
    cbn [fst length] in *. destruct IH as [IHn IHf].
    split; [now rewrite IHn | now constructor].
Qed.

(** X6 at a session in which the LLM refuses the first query. *)
Lemma X6_openai_prompt_survives_witness :
  length (fst (OpenAIMain.chatLoop
                 (@Script.llm OpenAI.Request OpenAI.Completion)
                 (Some "gpt-4o") Script.parse
                 (Some (Script.host OpenAI.Completion))
                 ["What is 2+2?"; "And 3+3?"] Scenario.refused))
  = 2.
Proof.
  apply (@X6_openai_prompt_survives _
           (Some (Script.host OpenAI.Completion))
           (@Script.llm OpenAI.Request OpenAI.Completion)
           (Some "gpt-4o") Script.parse
           ["What is 2+2?"; "And 3+3?"] Scenario.refused).
  repeat constructor.
Defined.

(** X7.  In the OpenAI client a line that spells [quit] in any letter
    case closes the transport and ends the loop when the close succeeds:
    the lines after it are not read.  When the close throws, the error is
    logged and the question is asked again, so the loop goes on with the
    lines after [quit]. *)
Theorem X7_openai_quit :
  forall (W : Type) self create model parse before line rest
         (w : W) turns w1,
    Forall (fun line => String.eqb (toLowerCase line) "quit" = false) before ->
    toLowerCase line = "quit" ->
    OpenAIMain.chatLoop create model parse self before w = (turns, w1) ->
    OpenAIMain.chatLoop create model parse self (before ++ line :: rest) w
    = match OpenAI.cleanup self w1 with
      | (inr _, w2) =>
          (turns ++ [{| printed := None; reported := None; rejected := None;
                        prompt := Closed |}], w2)
      | (inl error, w2) =>
          (turns ++ {| printed := None; reported := Some error;
                       rejected := None; prompt := Rearmed |}
                    :: fst (OpenAIMain.chatLoop create model parse self rest w2),
           snd (OpenAIMain.chatLoop create model parse self rest w2))
      end.
Proof.
  intros W self create model parse before line rest w turns w1 Hb Hq E.
  rewrite (openai_chatLoop_app self create model parse (line :: rest) Hb), E.
  cbn [OpenAIMain.chatLoop]. unfold OpenAI.askQuestion. rewrite Hq.
  cbn [String.eqb Ascii.eqb Bool.eqb].
  change (("quit" =? "quit")%string) with true. cbv iota.
  destruct (OpenAI.cleanup self w1) as [[error|[]] w2]; cbn [prompt].
  - destruct (OpenAIMain.chatLoop _ _ _ _ rest w2) as [turns' w3].
    reflexivity.
  - reflexivity.
Qed.

(** X7 at a session that quits in upper case, and at one whose transport
    cannot be closed. *)
Lemma X7_openai_quit_witness :
  map prompt
    (fst (OpenAIMain.chatLoop (@Script.llm OpenAI.Request OpenAI.Completion)
            (Some "gpt-4o") Script.parse
            (Some (Script.host OpenAI.Completion))
            (["What is 2+2?"] ++ "QUIT" :: ["And 3+3?"]) Scenario.plain))
  = [Rearmed; Closed]
  /\ map prompt
       (fst (OpenAIMain.chatLoop
               (@Script.llm OpenAI.Request OpenAI.Completion)
               (Some "gpt-4o") Script.parse
               (Some (Stage.stuck OpenAI.Completion))
               ([] ++ "quit" :: ["What is 2+2?"]) Scenario.plain))
     = [Rearmed; Rearmed].
Proof.
  split.
  - rewrite (@X7_openai_quit _ (Some (Script.host OpenAI.Completion))
               (@Script.llm OpenAI.Request OpenAI.Completion)
               (Some "gpt-4o") Script.parse
               ["What is 2+2?"] "QUIT" ["And 3+3?"]
               Scenario.plain
               [{| printed := Some "4"; reported := None;
                   rejected := None; prompt := Rearmed |}]
               (Scenario.openai_world [] [])).
    + reflexivity.
    + repeat constructor.
    + reflexivity.
    + reflexivity.
  - rewrite (@X7_openai_quit _ (Some (Stage.stuck OpenAI.Completion))
               (@Script.llm OpenAI.Request OpenAI.Completion)
               (Some "gpt-4o") Script.parse
               [] "quit" ["What is 2+2?"]
               Scenario.plain [] Scenario.plain).
    + reflexivity.
    + constructor.
    + reflexivity.
    + reflexivity.
Defined.

Lemma claude_ask_rearmed (W : Type) self create model line (w : W) :
  prompt (fst (Claude.ask self create model line w)) = Rearmed ->
  exists answer,
    printed (fst (Claude.ask self create model line w)) = Some answer.
Proof.
  unfold Claude.ask.
  destruct (String.eqb (toLowerCase line) "quit").
  - destruct (Claude.cleanup self w) as [[e|[]] w1]; discriminate.
  - destruct (Claude.processQuery self create model line (Claude.initial w))
      as [[e|answer] s]; [discriminate|].
    intros _. now exists answer.
Qed.

Lemma claude_chatLoop_app (W : Type) self create model
    (before more : list string) :
  forall (w : W) turns w1,
    ClaudeMain.chatLoop create model self before w = (turns, w1) ->
    Forall (fun turn => prompt turn = Rearmed) turns ->
    ClaudeMain.chatLoop create model self (before ++ more) w
    = (turns ++ fst (ClaudeMain.chatLoop create model self more w1),
       snd (ClaudeMain.chatLoop create model self more w1)).
Proof.
  induction before as [|line before IH]; intros w turns w1 E F.
  - cbn in E. injection E as <- <-. cbn [app].
    now destruct (ClaudeMain.chatLoop create model self more w).
  - cbn [app ClaudeMain.chatLoop] in *.
    destruct (Claude.ask self create model line w) as [turn w0].
    destruct (prompt turn) eqn:P.
    + destruct (ClaudeMain.chatLoop create model self before w0)
        as [turns' w2] eqn:E'.
      injection E as <- <-. inversion F as [|? ? _ F']; subst.
      rewrite (IH w0 turns' w2 E' F'). reflexivity.
    + injection E as <- <-. inversion F as [|? ? P' _]; subst. congruence.
    + injection E as <- <-. inversion F as [|? ? P' _]; subst. congruence.
Qed.

(** X8.  The prompt of the Claude client ends with the first query that
    throws: every turn before the last one printed an answer and asked
    again, no more turns are taken than lines were given, and when
    [processQuery] throws on a line, the first or a later one, that
    line's turn prints nothing and is the last one: the lines after it
    are not read, and the world is the one that query left. *)
Theorem X8_claude_prompt_ends_on_failure :
  forall (W : Type) self create model lines (w : W),
    length (fst (ClaudeMain.chatLoop create model self lines w))
    <= length lines
    /\ Forall (fun turn => prompt turn = Rearmed
                           /\ exists answer, printed turn = Some answer)
         (removelast (fst (ClaudeMain.chatLoop create model self lines w)))
    /\ (forall line rest error,
           lines = line :: rest ->
           String.eqb (toLowerCase line) "quit" = false ->
           fst (Claude.processQuery self create model line (Claude.initial w))
           = inl error ->
           fst (ClaudeMain.chatLoop create model self lines w)
           = [{| printed := None; reported := None; rejected := Some error;
                 prompt := Abandoned |}])
    /\ (forall before line rest turns w1 error,
           lines = before ++ line :: rest ->
           ClaudeMain.chatLoop create model self before w = (turns, w1) ->
           Forall (fun turn => prompt turn = Rearmed) turns ->
           String.eqb (toLowerCase line) "quit" = false ->
           fst (Claude.processQuery self create model line (Claude.initial w1))
           = inl error ->
           ClaudeMain.chatLoop create model self lines w
           = (turns ++ [{| printed := None; reported := None;
                           rejected := Some error; prompt := Abandoned |}],
              Claude.world
                (snd (Claude.processQuery self create model line
                        (Claude.initial w1))))).
Proof.
  intros W self create model lines w. split; [|split; [|split]].
  - revert w. induction lines as [|line lines IH]; intros w; cbn; [lia|].
    destruct (Claude.ask self create model line w) as [turn w1].
    destruct (prompt turn); cbn; try lia.
    specialize (IH w1).
    destruct (ClaudeMain.chatLoop create model self lines w1). cbn in *. lia.
  - revert w. induction lines as [|line lines IH]; intros w;
      cbn [ClaudeMain.chatLoop]; [constructor|].
    pose proof (claude_ask_rearmed self create model line w) as A.
    destruct (Claude.ask self create model line w) as [turn w1].
    cbn [fst] in A.
    destruct (prompt turn) eqn:P; try constructor.
    specialize (IH w1).
    destruct (ClaudeMain.chatLoop create model self lines w1) as [turns w2].
    cbn [fst] in *. destruct turns as [|next turns]; [constructor|].
    change (removelast (turn :: next :: turns))
      with (turn :: removelast (next :: turns)).
    constructor; [split; [exact P | now apply A] | exact IH].
  - intros line rest error -> Hq E. cbn [ClaudeMain.chatLoop].
    pose proof (ClaudeFacts.ask_abandons self create model line w Hq E) as A.
    destruct (Claude.ask self create model line w) as [turn w1].
    cbn [fst] in A. subst turn. reflexivity.
  - intros before line rest turns w1 error -> E F Hq T.
    rewrite (@claude_chatLoop_app W self create model before (line :: rest) w
               turns w1 E F).
    cbn [ClaudeMain.chatLoop]. unfold Claude.ask. rewrite Hq.
    destruct (Claude.processQuery self create model line (Claude.initial w1))
      as [[e|answer] s]; cbn in T; [|discriminate].
    injection T as ->. reflexivity.
Qed.

(** X8 at a session whose first query the LLM refuses, and at one whose
    second query it refuses. *)
Lemma X8_claude_prompt_ends_on_failure_witness :
  fst (ClaudeMain.chatLoop (@Script.llm Claude.Request Claude.Response)
         (Some "claude-3-opus-20240229")
         (Some (Script.host Claude.Response))
         ["What is 2+2?"; "And 3+3?"] Scenario.claude_refused)
  = [{| printed := None; reported := None;
        rejected := Some Scenario.rate_limit; prompt := Abandoned |}]
  /\ map printed
       (fst (ClaudeMain.chatLoop (@Script.llm Claude.Request Claude.Response)
               (Some "claude-3-opus-20240229")
               (Some (Script.host Claude.Response))
               (["What is 2+2?"] ++ "And 3+3?" :: ["And 4+5?"])
               Stage.claude_second_refused))
     = [Some "4"; None].
Proof.
  split.
  - apply (proj1 (proj2 (proj2 (X8_claude_prompt_ends_on_failure
                         (Some (Script.host Claude.Response))
                         (@Script.llm Claude.Request Claude.Response)
                         (Some "claude-3-opus-20240229")
                         ["What is 2+2?"; "And 3+3?"]
                         Scenario.claude_refused)))
             "What is 2+2?" ["And 3+3?"] Scenario.rate_limit);
      reflexivity.
  - rewrite (proj2 (proj2 (proj2 (X8_claude_prompt_ends_on_failure
                         (Some (Script.host Claude.Response))
                         (@Script.llm Claude.Request Claude.Response)
                         (Some "claude-3-opus-20240229")
                         (["What is 2+2?"] ++ "And 3+3?" :: ["And 4+5?"])
                         Stage.claude_second_refused)))
               ["What is 2+2?"] "And 3+3?" ["And 4+5?"]
               [{| printed := Some "4"; reported := None; rejected := None;
                   prompt := Rearmed |}]
               (Scenario.claude_world []
                  [inl Scenario.rate_limit; inr [Claude.Text "9"]])
               Scenario.rate_limit).
    + reflexivity.
    + reflexivity.
    + reflexivity.
    + repeat constructor.
    + reflexivity.
    + reflexivity.
Defined.

(* ================================================================= *)
(** ** Further properties: the sessions of the OpenAI client *)

Lemma grows_trans {A : Type} (a b c : list A) :
  grows a b -> starts_with b c -> grows a c.
Proof.
  intros (m1 & N & ->) (m2 & ->). exists (m1 ++ m2). split.
  - destruct m1; [contradiction | discriminate].
  - now rewrite app_assoc.
Qed.

Module OpenAIMore.
Import OpenAI.

Section More.
Variable OPENAI_MODEL : option string.
Variable JSON_parse : string -> Thrown + JSON.

Local Abbreviation Round := (Round OPENAI_MODEL).
Local Abbreviation Rounds := (Rounds OPENAI_MODEL JSON_parse).

Lemma Rounds_garbled tools good bad later : forall before outcome events
    added parts error,
  Rounds tools before (good ++ bad :: later) outcome events added parts ->
  Forall (fun toolCall =>
            exists toolArgs,
              JSON_parse (function_arguments toolCall) = inr toolArgs) good ->
  JSON_parse (function_arguments bad) = inl error ->
  outcome = inl error
  /\ map inr (invocations events) = map (tool_params JSON_parse) good.
Proof.
  induction good as [|toolCall good IH];
    intros before outcome events added parts error Rs Hgood Hbad.
  - cbn in Rs. inversion Rs as [| |? ? ? ? ? ? ? ? ? ? ? P R Rs']; subst.
    + split; [congruence | reflexivity].
    + congruence.
  - cbn in Rs. inversion Hgood as [|? ? [toolArgs Q] Hgood']; subst.
    inversion Rs as [| |? ? ? ? ? ? ? ? ? ? ? P R Rs']; subst; [congruence|].
    destruct (IH _ _ _ _ _ _ Rs' Hgood' Hbad) as [-> E].
    split; [reflexivity|].
    rewrite OpenAIFacts.invocations_app, map_app, E,
      (OpenAIFacts.Round_invocations R).
    cbn. unfold tool_params at 2. rewrite P. reflexivity.
Qed.

Lemma Rounds_uniform tools before calls outcome events added parts :
  Rounds tools before calls outcome events added parts ->
  Forall (fun r => model r = OPENAI_MODEL /\ tool_choice r = "auto"
                   /\ OpenAI.tools r = tools) (requests events).
Proof.
  induction 1 as [| |? ? ? ? ? ? ? ? ? ? ? P R Rs IH]; try constructor.
  rewrite OpenAIFacts.requests_app. apply Forall_app. split; [|exact IH].
  destruct (OpenAIFacts.Round_requests R) as [->|[result ->]];
    repeat constructor.
Qed.

Lemma Rounds_count tools before calls outcome events added parts :
  Rounds tools before calls outcome events added parts ->
  length (requests events) = length (returned events).
Proof.
  induction 1 as [| |? ? ? ? ? ? ? ? ? ? ? P R Rs IH]; try reflexivity.
  rewrite OpenAIFacts.requests_app, OpenAIFacts.returned_app, !length_app, IH.
  f_equal. destruct R; reflexivity.
Qed.

Lemma Rounds_added tools before calls outcome events added parts :
  Rounds tools before calls outcome events added parts ->
  Forall (fun message =>
            exists toolCall result,
              In toolCall calls /\ In result (returned events)
              /\ message = tool_message toolCall result) added.
Proof.
  induction 1 as [| |before toolCall rest toolArgs outcome events events'
                    added added' parts parts' P R Rs IH];
    [constructor | constructor |].
  apply Forall_app. split.
  - destruct R as [error|result reply]; constructor; [|constructor].
    exists toolCall, result. repeat split; [now left | now left].
  - eapply Forall_impl; [|exact IH].
    intros message (c & result & Hc & Hr & ->). exists c, result.
    repeat split; [now right|].
    rewrite OpenAIFacts.returned_app. apply in_or_app. now right.
Qed.

Lemma Rounds_grow tools before calls outcome events added parts :
  Rounds tools before calls outcome events added parts ->
  Forall (fun r => grows before (sent r)) (requests events)
  /\ Forall (fun r => starts_with (sent r) (before ++ added)) (requests events)
  /\ StronglySorted (fun r1 r2 => grows (sent r1) (sent r2)) (requests events).
Proof.
  induction 1 as [| |before toolCall rest toolArgs outcome events events'
                    added added' parts parts' P R Rs (IH1 & IH2 & IH3)];
    [repeat split; constructor | repeat split; constructor |].
  rewrite OpenAIFacts.requests_app.
  assert (B : starts_with before (before ++ added)) by now exists added.
  destruct (OpenAIFacts.Round_requests R) as [->|[result E]].
  - cbn [app]. repeat split.
    + eapply Forall_impl; [|exact IH1].
      intros r (more & N & ->). exists (added ++ more). split.
      * destruct added; [exact N | discriminate].
      * now rewrite app_assoc.
    + eapply Forall_impl; [|exact IH2].
      intros r (more & E). exists more. now rewrite app_assoc.
    + exact IH3.
  - rewrite E. cbn [app].
    assert (A : added = [tool_message toolCall result]).
    { destruct R as [error|result' reply]; [discriminate|].
      cbn in E. injection E as E. apply app_inv_head in E. exact E. }
    subst added. repeat split.
    + constructor.
      * exists [tool_message toolCall result]. split; [discriminate|reflexivity].
      * eapply Forall_impl; [|exact IH1].
        intros r (more & N & ->).
        exists ([tool_message toolCall result] ++ more).
        split; [discriminate | now rewrite app_assoc].
    + constructor.
      * exists added'. now rewrite app_assoc.
      * eapply Forall_impl; [|exact IH2].
        intros r (more & E'). exists more. now rewrite app_assoc.
    + constructor; [exact IH3|].
      eapply Forall_impl; [|exact IH1].
      intros r G. exact G.
Qed.

Lemma Rounds_refusals tools before calls outcome events added parts :
  Rounds tools before calls outcome events added parts ->
  forall error, In error (refusals events) -> In (error_notice error) parts.
Proof.
  induction 1 as [| |before toolCall rest toolArgs outcome events events'
                    added added' parts parts' P R Rs IH];
    [intros ? [] | intros ? [] |].
  intros error Hin. unfold refusals in Hin. rewrite flat_map_app in Hin.
  apply in_or_app. apply in_app_or in Hin. destruct Hin as [Hin|Hin].
  - left. destruct R as [e|result [e|completion]]; cbn in Hin.
    + contradiction.
    + destruct Hin as [<-|[]]. right. now left.
    + contradiction.
  - right. exact (IH error Hin).
Qed.

End More.
End OpenAIMore.

(* ================================================================= *)
(** ** Further properties: the sessions of the Claude client *)

Module ClaudeMore.
Import Claude.

Lemma Steps_count tools before current blocks outcome events added parts :
  Steps tools before current blocks outcome events added parts ->
  length (requests events) = length (returned events)
  /\ length added = 2 * length (returned events).
Proof.
  induction 1 as [| ? ? ? ? ? ? ? ? S IH | ? ? ? ? ? ? ? ? S IH | | |
                  ? ? ? ? ? ? ? ? ? ? ? ? S IH];
    cbn; auto.
  destruct IH as [IH1 IH2]. unfold requests, returned in *. lia.
Qed.

Lemma Steps_uniform tools before current blocks outcome events added parts :
  Steps tools before current blocks outcome events added parts ->
  Forall (fun r => max_tokens r = 1000 /\ Claude.tools r = tools)
    (requests events).
Proof.
  induction 1; cbn; auto; repeat constructor; auto.
Qed.

Lemma Steps_grow tools before current blocks outcome events added parts :
  Steps tools before current blocks outcome events added parts ->
  Forall (fun r => grows before (sent r)) (requests events)
  /\ Forall (fun r => starts_with (sent r) (before ++ added)) (requests events)
  /\ StronglySorted (fun r1 r2 => grows (sent r1) (sent r2)) (requests events).
Proof.
  induction 1 as [| ? ? ? ? ? ? ? ? S IH | ? ? ? ? ? ? ? ? S IH | |
                  before current id name input rest result error |
                  before current id name input rest result next outcome
                    events added parts S (IH1 & IH2 & IH3)];
    cbn [requests flat_map app]; auto.
  - repeat split; constructor.
  - repeat split; constructor.
  - repeat split; repeat constructor.
    + exists (exchange current id result). split; [discriminate|reflexivity].
    + exists []. now rewrite app_nil_r.
  - change (flat_map _ events) with (requests events). repeat split.
    + constructor.
      * exists (exchange current id result). split; [discriminate|reflexivity].
      * eapply Forall_impl; [|exact IH1].
        intros r (more & N & ->). exists (exchange current id result ++ more).
        split; [discriminate | now rewrite app_assoc].
    + constructor.
      * exists added. now rewrite app_assoc.
      * eapply Forall_impl; [|exact IH2].
        intros r (more & E). exists more. now rewrite app_assoc.
    + constructor; [exact IH3 | exact IH1].
Qed.

Lemma Steps_failure tools before current blocks outcome events added parts :
  Steps tools before current blocks outcome events added parts ->
  match outcome with
  | inl error =>
      exists earlier event,
        events = earlier ++ [event]
        /\ ClaudeMain.failure event = Some error
        /\ Forall (fun e => ClaudeMain.failure e = None) earlier
  | inr _ => Forall (fun e => ClaudeMain.failure e = None) events
  end.
Proof.
  induction 1 as [| ? ? ? ? ? ? ? ? S IH | ? ? ? ? ? ? ? ? S IH | |
                  before current id name input rest result error |
                  before current id name input rest result next outcome
                    events added parts S IH];
    auto.
  - eexists [], _. repeat split. constructor.
  - eexists [_], _. repeat split. repeat constructor.
  - destruct outcome as [error|[]].
    + destruct IH as (earlier & event & -> & F & A).
      eexists (_ :: _ :: earlier), event. repeat split; auto.
    + repeat constructor. exact IH.
Qed.

Lemma Steps_pairing tools before current blocks outcome events added parts :
  Steps tools before current blocks outcome events added parts ->
  ClaudeMain.assistants added
  = firstn (length (returned events)) (current :: turns events)
  /\ map fst (results added) = firstn (length (returned events)) (uses blocks).
Proof.
  induction 1 as [| ? ? ? ? ? ? ? ? S IH | ? ? ? ? ? ? ? ? S IH | |
                  before current id name input rest result error |
                  before current id name input rest result next outcome
                    events added parts S [IH1 IH2]];
    cbn; auto.
  unfold ClaudeMain.assistants, results, returned, turns in *.
  now rewrite IH1, IH2.
Qed.

End ClaudeMore.

(* ================================================================= *)
(** ** Further properties: whole sessions *)

Module Sessions.

Section OpenAISession.
Variable W : Type.
Variable client : option (Host W).
Variable create : OpenAI.Request -> W -> (Thrown + OpenAI.Completion) * W.
Variable OPENAI_MODEL : option string.
Variable JSON_parse : string -> Thrown + JSON.

Local Abbreviation run query w :=
  (OpenAI.processQuery client create OPENAI_MODEL JSON_parse query
     (OpenAI.initial w)).

(** The four ways a session of the OpenAI client goes. *)
Lemma openai_session query (w : W) :
  (client = None
   /\ run query w = (inl (JsError "Client not connected"), OpenAI.initial w))
  \/ (exists c error w1,
         client = Some c /\ tools_list c w = (inl error, w1)
         /\ run query w
            = (inl error,
               {| OpenAI.world := w1;
                  OpenAI.trace := [OpenAI.ToolsList (inl error)];
                  OpenAI.messages := OpenAI.base query;
                  OpenAI.finalText := [] |}))
  \/ (exists c listed w1 reply error w2,
         client = Some c /\ tools_list c w = (inr listed, w1)
         /\ (reply = inl error \/ (reply = inr [] /\ error = OpenAI.no_choice))
         /\ run query w
            = (inr (OpenAI.failure_text error),
               {| OpenAI.world := w2;
                  OpenAI.trace :=
                    [OpenAI.ToolsList (inr listed);
                     OpenAI.Create
                       (OpenAI.request_of OPENAI_MODEL
                          (OpenAI.formatTools listed) (OpenAI.base query))
                       reply];
                  OpenAI.messages := OpenAI.base query;
                  OpenAI.finalText := [] |}))
  \/ (exists c listed m others outcome events added parts,
         client = Some c
         /\ fst (run query w)
            = inr match outcome with
                  | inl error => OpenAI.failure_text error
                  | inr _ => join newline (OpenAI.text_part m ++ parts)
                  end
         /\ OpenAI.trace (snd (run query w))
            = OpenAI.ToolsList (inr listed)
              :: OpenAI.Create
                   (OpenAI.request_of OPENAI_MODEL (OpenAI.formatTools listed)
                      (OpenAI.base query))
                   (inr (m :: others))
              :: events
         /\ OpenAI.messages (snd (run query w))
            = OpenAI.base query ++ OpenAI.Assistant m :: added
         /\ OpenAI.Rounds OPENAI_MODEL JSON_parse (OpenAI.formatTools listed)
              (OpenAI.base query ++ [OpenAI.Assistant m])
              (OpenAI.requested m) outcome events added parts).
Proof.
  destruct client as [c|] eqn:Hc.
  - right. pose proof (@OpenAIFacts.openai_query_shape W (Some c) create
                         OPENAI_MODEL JSON_parse c query w eq_refl) as H.
    destruct (tools_list c w) as [[error|listed] w1] eqn:L.
    + left. now exists c, error, w1.
    + right. cbv zeta in H.
      destruct (create _ w1) as [[error|[|m others]] w2] eqn:C.
      * left. exists c, listed, w1, (inl error), error, w2.
        repeat split; auto.
      * left. exists c, listed, w1, (inr []), OpenAI.no_choice, w2.
        repeat split; auto.
      * right. destruct H as (outcome & events & added & parts & s'
                              & E & Ht & Hm & Hf & Rs).
        exists c, listed, m, others, outcome, events, added, parts.
        rewrite E. cbn [fst snd]. repeat split; auto.
  - left. auto.
Qed.

End OpenAISession.

Section ClaudeSession.
Variable W : Type.
Variable client : option (Host W).
Variable create : Claude.Request -> W -> (Thrown + Claude.Response) * W.
Variable ANTHROPIC_MODEL : option string.

Local Abbreviation run query w :=
  (Claude.processQuery client create ANTHROPIC_MODEL query (Claude.initial w)).

(** The four ways a session of the Claude client goes. *)
Lemma claude_session query (w : W) :
  (client = None
   /\ run query w = (inl (JsError "Client not connected"), Claude.initial w))
  \/ (exists c error w1,
         client = Some c /\ tools_list c w = (inl error, w1)
         /\ run query w
            = (inl error,
               {| Claude.world := w1;
                  Claude.trace := [Claude.ToolsList (inl error)];
                  Claude.messages := []; Claude.textResponses := [];
                  Claude.response := [] |}))
  \/ (exists c listed w1 error w2,
         client = Some c /\ tools_list c w = (inr listed, w1)
         /\ run query w
            = (inl error,
               {| Claude.world := w2;
                  Claude.trace :=
                    [Claude.ToolsList (inr listed);
                     Claude.Create
                       (Claude.request_of ANTHROPIC_MODEL
                          (Claude.formatTools listed) [Claude.User query])
                       (inl error)];
                  Claude.messages := [Claude.User query];
                  Claude.textResponses := []; Claude.response := [] |}))
  \/ (exists c listed first outcome events added parts,
         client = Some c
         /\ fst (run query w)
            = match outcome with
              | inl error => inl error
              | inr _ => inr (join newline parts)
              end
         /\ Claude.trace (snd (run query w))
            = Claude.ToolsList (inr listed)
              :: Claude.Create
                   (Claude.request_of ANTHROPIC_MODEL
                      (Claude.formatTools listed) [Claude.User query])
                   (inr first)
              :: events
         /\ Claude.messages (snd (run query w)) = Claude.User query :: added
         /\ Claude.Steps (Claude.formatTools listed) [Claude.User query]
              first first outcome events added parts).
Proof.
  destruct client as [c|] eqn:Hc.
  - right. pose proof (@ClaudeFacts.claude_query_shape W (Some c) create
                         ANTHROPIC_MODEL c query w eq_refl) as H.
    destruct (tools_list c w) as [[error|listed] w1] eqn:L.
    + left. now exists c, error, w1.
    + right. cbv zeta in H.
      destruct (create _ w1) as [[error|first] w2] eqn:C.
      * left. exists c, listed, w1, error, w2. repeat split; auto.
      * right. destruct H as (outcome & events & added & parts & s'
                              & E & Ht & Hm & Hf & Rs).
        exists c, listed, first, outcome, events, added, parts.
        rewrite E. cbn [fst snd]. repeat split; auto.
  - left. auto.
Qed.

End ClaudeSession.

End Sessions.

(** X9.  [processQuery] of the OpenAI client throws only before its
    conversation starts: when the client is not connected, and when
    [tools/list] fails, whose error it passes on.  No LLM call and no
    tool invocation has been made then.  Every failure after that point
    comes back as a string. *)
Theorem X9_openai_throws_only_before_the_conversation :
  forall (W : Type) client create model parse query (w : W) error,
    let run := OpenAI.processQuery client create model parse query
                 (OpenAI.initial w) in
    (fst run = inl error <->
     (client = None /\ error = JsError "Client not connected")
     \/ exists c w1, client = Some c /\ tools_list c w = (inl error, w1))
    /\ (fst run = inl error ->
        OpenAI.requests (OpenAI.trace (snd run)) = []
        /\ OpenAI.invocations (OpenAI.trace (snd run)) = []).
Proof.
  intros W client create model parse query w error run. subst run.
  destruct (Sessions.openai_session client create model parse query w)
    as [(Hc & E)
       |[(c & e & w1 & Hc & L & E)
        |[(c & listed & w1 & reply & e & w2 & Hc & L & _ & E)
         |(c & listed & m & others & outcome & events & added & parts
           & Hc & E & Ht & _)]]]; rewrite ?E; cbn [fst snd].
  - split; [|intros _; split; reflexivity]. split.
    + intros [= <-]. now left.
    + intros [[_ ->]|(c & w1 & Hc' & _)]; [reflexivity | congruence].
  - split; [|intros _; split; reflexivity]. split.
    + intros [= <-]. right. now exists c, w1.
    + intros [[Hc' _]|(c' & w1' & Hc' & L')]; [congruence|].
      rewrite Hc in Hc'. injection Hc' as <-. congruence.
  - split; [|discriminate]. split; [discriminate|].
    intros [[Hc' _]|(c' & w1' & Hc' & L')]; [congruence|].
    rewrite Hc in Hc'. injection Hc' as <-. congruence.
  - split; [|discriminate]. split; [discriminate|].
    intros [[Hc' _]|(c' & w1' & Hc' & L')]; [congruence|].
    exfalso. rewrite Hc in Hc'. injection Hc' as <-.
    pose proof (@OpenAIFacts.openai_query_shape W client create model parse
                  c query w Hc) as H.
    rewrite L' in H.
    assert (T : OpenAI.trace
                  (snd (OpenAI.processQuery client create model parse query
                          (OpenAI.initial w)))
                = [OpenAI.ToolsList (inl error)]) by now rewrite H.
    rewrite Ht in T. discriminate.
Qed.

(** X9 at a host whose [tools/list] fails. *)
Lemma X9_openai_throws_only_before_the_conversation_witness :
  fst (OpenAI.processQuery (Some (Stage.deaf OpenAI.Completion))
         (@Script.llm OpenAI.Request OpenAI.Completion) (Some "gpt-4o")
         Script.parse "What is 2+2?" (OpenAI.initial Scenario.plain))
  = inl Scenario.boom.
Proof.
  apply (proj1 (X9_openai_throws_only_before_the_conversation
                  (Some (Stage.deaf OpenAI.Completion))
                  (@Script.llm OpenAI.Request OpenAI.Completion)
                  (Some "gpt-4o") Script.parse "What is 2+2?"
                  Scenario.plain Scenario.boom)).
  right. exists (Stage.deaf OpenAI.Completion), Scenario.plain.
  split; reflexivity.
Defined.

(** X10.  In the OpenAI client a tool request whose arguments are not
    valid JSON ends the session: the requests before it have been
    invoked, it and the requests after it are not, and the caller
    receives [Unexpected error occurred: <message>] alone, without the
    text collected so far. *)
Theorem X10_openai_malformed_arguments_end_the_session :
  forall (W : Type) client create model parse query (w : W)
         m good bad later error,
    let run := OpenAI.processQuery client create model parse query
                 (OpenAI.initial w) in
    let t := OpenAI.trace (snd run) in
    hd_error (OpenAI.turns t) = Some m ->
    OpenAI.requested m = good ++ bad :: later ->
    Forall (fun toolCall =>
              exists toolArgs,
                parse (OpenAI.function_arguments toolCall) = inr toolArgs)
      good ->
    parse (OpenAI.function_arguments bad) = inl error ->
    fst run = inr (OpenAI.failure_text error)
    /\ map inr (OpenAI.invocations t) = map (OpenAI.tool_params parse) good.
Proof.
  intros W client create model parse query w m0 good bad later error run t.
  subst t run.
  destruct (Sessions.openai_session client create model parse query w)
    as [(Hc & E)
       |[(c & e & w1 & Hc & L & E)
        |[(c & listed & w1 & reply & e & w2 & Hc & L & [->|[-> _]] & E)
         |(c & listed & m & others & outcome & events & added & parts
           & Hc & E & Ht & _ & Rs)]]];
    rewrite ?E, ?Ht; cbn [fst snd]; try discriminate.
  change (OpenAI.turns (OpenAI.ToolsList (inr listed)
                        :: OpenAI.Create _ (inr (m :: others)) :: events))
    with (m :: OpenAI.turns events).
  change (OpenAI.invocations (OpenAI.ToolsList (inr listed)
                              :: OpenAI.Create _ (inr (m :: others)) :: events))
    with (OpenAI.invocations events).
  intros [= <-] Hreq Hgood Hbad. rewrite Hreq in Rs.
  destruct (@OpenAIMore.Rounds_garbled model parse _ good bad later
              _ _ _ _ _ error Rs Hgood Hbad) as [-> Hinv].
  split; [reflexivity | exact Hinv].
Qed.

(** X10 at a turn whose second request has malformed arguments. *)
Lemma X10_openai_malformed_arguments_end_the_session_witness :
  fst (Scenario.openai Stage.garbled "List files in /tmp")
  = inr "Unexpected error occurred: Unexpected token in JSON"
  /\ length (OpenAI.invocations
               (OpenAI.trace
                  (snd (Scenario.openai Stage.garbled "List files in /tmp"))))
     = 1.
Proof.
  destruct (@X10_openai_malformed_arguments_end_the_session _
              (Some (Script.host OpenAI.Completion))
              (@Script.llm OpenAI.Request OpenAI.Completion)
              (Some "gpt-4o") Script.parse "List files in /tmp" Stage.garbled
              {| OpenAI.content := None;
                 OpenAI.tool_calls :=
                   Some [Scenario.list_files "call_1";
                         {| OpenAI.id := "call_2";
                            OpenAI.function_name := "list_files";
                            OpenAI.function_arguments := "{path" |};
                         Scenario.list_files "call_3"] |}
              [Scenario.list_files "call_1"]
              {| OpenAI.id := "call_2"; OpenAI.function_name := "list_files";
                 OpenAI.function_arguments := "{path" |}
              [Scenario.list_files "call_3"]
              (JsError "Unexpected token in JSON"))
    as [Hanswer Hinv].
  - reflexivity.
  - reflexivity.
  - repeat constructor. eexists. reflexivity.
  - reflexivity.
  - split; [exact Hanswer|].
    apply (f_equal (@length _)) in Hinv. rewrite !length_map in Hinv.
    exact Hinv.
Defined.

(** X11.  Within one query every LLM call carries the same settings.
    OpenAI client: the configured model, tool choice [auto], and the
    adapted schemas of the tools that the session listed.  Claude client:
    [max_tokens] 1000 and the adapted schemas of the tools that the
    session listed. *)
Theorem X11_same_settings_on_every_call :
  (forall (W : Type) client create model parse query (w : W),
      let t := OpenAI.trace
                 (snd (OpenAI.processQuery client create model parse query
                         (OpenAI.initial w))) in
      Forall (fun r => OpenAI.model r = model
                       /\ OpenAI.tool_choice r = "auto"
                       /\ OpenAI.tools r
                          = OpenAI.formatTools (OpenAIMain.listed t))
        (OpenAI.requests t))
  /\
  (forall (W : Type) client create model query (w : W),
      let t := Claude.trace
                 (snd (Claude.processQuery client create model query
                         (Claude.initial w))) in
      Forall (fun r => Claude.max_tokens r = 1000
                       /\ Claude.tools r
                          = Claude.formatTools (ClaudeMain.listed t))
        (Claude.requests t)).
Proof.
  split.
  - intros W client create model parse query w t. subst t.
    destruct (Sessions.openai_session client create model parse query w)
      as [(Hc & E)
         |[(c & e & w1 & Hc & L & E)
          |[(c & listed & w1 & reply & e & w2 & Hc & L & _ & E)
           |(c & listed & m & others & outcome & events & added & parts
             & Hc & _ & Ht & _ & Rs)]]];
      rewrite ?E, ?Ht; cbn [fst snd OpenAI.trace].
    + constructor.
    + constructor.
    + repeat constructor.
    + unfold OpenAI.requests. cbn [flat_map app].
      change (flat_map _ events) with (OpenAI.requests events).
      constructor; [repeat split|].
      exact (OpenAIMore.Rounds_uniform Rs).
  - intros W client create model query w t. subst t.
    destruct (Sessions.claude_session client create model query w)
      as [(Hc & E)
         |[(c & e & w1 & Hc & L & E)
          |[(c & listed & w1 & e & w2 & Hc & L & E)
           |(c & listed & first & outcome & events & added & parts
             & Hc & _ & Ht & _ & Rs)]]];
      rewrite ?E, ?Ht; cbn [fst snd Claude.trace].
    + constructor.
    + constructor.
    + repeat constructor.
    + unfold Claude.requests. cbn [flat_map app].
      change (flat_map _ events) with (Claude.requests events).
      constructor; [repeat split|].
      exact (ClaudeMore.Steps_uniform Rs).
Qed.

(** X12.  The transcript of a query only grows.  In both clients each
    LLM call of a session sends the transcript of the call before it with
    at least one message appended, every transcript sent starts with the
    opening of the session (the system prompt and the query for OpenAI,
    the query for Claude), and the transcript at the end of the session
    starts with every transcript sent. *)
Theorem X12_transcript_only_grows :
  (forall (W : Type) client create model parse query (w : W),
      let s := snd (OpenAI.processQuery client create model parse query
                      (OpenAI.initial w)) in
      StronglySorted (fun r1 r2 => grows (OpenAI.sent r1) (OpenAI.sent r2))
        (OpenAI.requests (OpenAI.trace s))
      /\ Forall (fun r => starts_with (OpenAI.base query) (OpenAI.sent r)
                          /\ starts_with (OpenAI.sent r) (OpenAI.messages s))
           (OpenAI.requests (OpenAI.trace s)))
  /\
  (forall (W : Type) client create model query (w : W),
      let s := snd (Claude.processQuery client create model query
                      (Claude.initial w)) in
      StronglySorted (fun r1 r2 => grows (Claude.sent r1) (Claude.sent r2))
        (Claude.requests (Claude.trace s))
      /\ Forall (fun r => starts_with [Claude.User query] (Claude.sent r)
                          /\ starts_with (Claude.sent r) (Claude.messages s))
           (Claude.requests (Claude.trace s))).
Proof.
  split.
  - intros W client create model parse query w s. subst s.
    destruct (Sessions.openai_session client create model parse query w)
      as [(Hc & E)
         |[(c & e & w1 & Hc & L & E)
          |[(c & listed & w1 & reply & e & w2 & Hc & L & _ & E)
           |(c & listed & m & others & outcome & events & added & parts
             & Hc & _ & Ht & Hm & Rs)]]];
      rewrite ?E, ?Ht, ?Hm; cbn [fst snd OpenAI.trace OpenAI.messages].
    + split; constructor.
    + split; constructor.
    + split; repeat constructor; exists []; now rewrite app_nil_r.
    + unfold OpenAI.requests. cbn [flat_map app].
      change (flat_map _ events) with (OpenAI.requests events).
      destruct (OpenAIMore.Rounds_grow Rs) as (G1 & G2 & G3).
      assert (B : grows (OpenAI.base query)
                    (OpenAI.base query ++ [OpenAI.Assistant m]))
        by (eexists; split; [|reflexivity]; discriminate).
      split.
      * constructor; [exact G3|].
        eapply Forall_impl; [|exact G1].
        intros r (more & N & ->). cbn [OpenAI.sent OpenAI.request_of].
        exists ([OpenAI.Assistant m] ++ more).
        split; [discriminate | now rewrite <- app_assoc].
      * constructor.
        -- cbn [OpenAI.sent OpenAI.request_of]. split.
           ++ exists []. now rewrite app_nil_r.
           ++ now exists (OpenAI.Assistant m :: added).
        -- rewrite Forall_forall in *. intros r Hin. split.
           ++ destruct (G1 r Hin) as (more & _ & ->).
              exists ([OpenAI.Assistant m] ++ more). now rewrite <- app_assoc.
           ++ destruct (G2 r Hin) as (more & E). exists more.
              rewrite <- E, <- app_assoc. reflexivity.
  - intros W client create model query w s. subst s.
    destruct (Sessions.claude_session client create model query w)
      as [(Hc & E)
         |[(c & e & w1 & Hc & L & E)
          |[(c & listed & w1 & e & w2 & Hc & L & E)
           |(c & listed & first & outcome & events & added & parts
             & Hc & _ & Ht & Hm & Rs)]]];
      rewrite ?E, ?Ht, ?Hm; cbn [fst snd Claude.trace Claude.messages].
    + split; constructor.
    + split; constructor.
    + split; repeat constructor; exists []; now rewrite app_nil_r.
    + unfold Claude.requests. cbn [flat_map app].
      change (flat_map _ events) with (Claude.requests events).
      destruct (ClaudeMore.Steps_grow Rs) as (G1 & G2 & G3).
      split.
      * constructor; [exact G3 | exact G1].
      * constructor.
        -- cbn [Claude.sent Claude.request_of]. split.
           ++ exists []. reflexivity.
           ++ now exists added.
        -- rewrite Forall_forall in *. intros r Hin. split.
           ++ destruct (G1 r Hin) as (more & _ & ->). now exists more.
           ++ exact (G2 r Hin).
Qed.

Lemma tool_messages_are_no_assistants (calls : list OpenAI.ToolCall)
    (contents : list Content) (added : list OpenAI.Message) :
  Forall (fun message =>
            exists toolCall result,
              In toolCall calls /\ In result contents
              /\ message = OpenAI.tool_message toolCall result) added ->
  OpenAIMain.assistants added = [].
Proof.
  induction 1 as [|message added (c & r & _ & _ & ->) _ IH]; [reflexivity|].
  exact IH.
Qed.

(** X13.  The OpenAI client appends one assistant message at most: the
    assistant messages of the final transcript are the first assistant
    turn alone, and no follow-up turn is ever appended.  Every tool
    message of the final transcript carries the id and the name of a tool
    request of that first turn, and the formatted content of an
    invocation that succeeded. *)
Theorem X13_openai_final_transcript :
  forall (W : Type) client create model parse query (w : W),
    let s := snd (OpenAI.processQuery client create model parse query
                    (OpenAI.initial w)) in
    OpenAIMain.assistants (OpenAI.messages s)
    = firstn 1 (OpenAI.turns (OpenAI.trace s))
    /\ Forall (fun message =>
                 match message with
                 | OpenAI.ToolMessage _ _ _ =>
                     exists toolCall result,
                       In toolCall (OpenAI.first_requests (OpenAI.trace s))
                       /\ In result (OpenAI.returned (OpenAI.trace s))
                       /\ message = OpenAI.tool_message toolCall result
                 | _ => True
                 end) (OpenAI.messages s).
Proof.
  intros W client create model parse query w s. subst s.
  destruct (Sessions.openai_session client create model parse query w)
    as [(Hc & E)
       |[(c & e & w1 & Hc & L & E)
        |[(c & listed & w1 & reply & e & w2 & Hc & L & [->|[-> _]] & E)
         |(c & listed & m & others & outcome & events & added & parts
           & Hc & _ & Ht & Hm & Rs)]]];
    rewrite ?E, ?Ht, ?Hm; cbn [fst snd OpenAI.trace OpenAI.messages];
    try (split; [reflexivity | repeat constructor]).
  pose proof (OpenAIMore.Rounds_added Rs) as A.
  unfold OpenAI.first_requests, OpenAI.turns, OpenAI.returned.
  cbn [flat_map app firstn].
  change (flat_map _ events) with (OpenAI.returned events).
  split.
  - unfold OpenAIMain.assistants. rewrite flat_map_app. cbn [flat_map app].
    change (flat_map _ added) with (OpenAIMain.assistants added).
    now rewrite (@tool_messages_are_no_assistants _ _ _ A).
  - apply Forall_app. split; [repeat constructor|].
    constructor; [exact I|].
    eapply Forall_impl; [|exact A].
    intros message (c' & r & Hc' & Hr & ->). cbn. now exists c', r.
Qed.

(** X14.  In both clients every tool invocation that succeeds is followed
    by exactly one LLM call: a session that reached the LLM made one call
    more than it had successful invocations. *)
Theorem X14_one_call_per_result :
  (forall (W : Type) client create model parse query (w : W),
      let t := OpenAI.trace
                 (snd (OpenAI.processQuery client create model parse query
                         (OpenAI.initial w))) in
      OpenAI.requests t = []
      \/ length (OpenAI.requests t) = S (length (OpenAI.returned t)))
  /\
  (forall (W : Type) client create model query (w : W),
      let t := Claude.trace
                 (snd (Claude.processQuery client create model query
                         (Claude.initial w))) in
      Claude.requests t = []
      \/ length (Claude.requests t) = S (length (Claude.returned t))).
Proof.
  split.
  - intros W client create model parse query w t. subst t.
    destruct (Sessions.openai_session client create model parse query w)
      as [(Hc & E)
         |[(c & e & w1 & Hc & L & E)
          |[(c & listed & w1 & reply & e & w2 & Hc & L & [->|[-> _]] & E)
           |(c & listed & m & others & outcome & events & added & parts
             & Hc & _ & Ht & _ & Rs)]]];
      rewrite ?E, ?Ht; cbn [fst snd OpenAI.trace];
      [now left | now left | now right | now right |].
    right. unfold OpenAI.requests, OpenAI.returned. cbn [flat_map app length].
    f_equal. exact (OpenAIMore.Rounds_count Rs).
  - intros W client create model query w t. subst t.
    destruct (Sessions.claude_session client create model query w)
      as [(Hc & E)
         |[(c & e & w1 & Hc & L & E)
          |[(c & listed & w1 & e & w2 & Hc & L & E)
           |(c & listed & first & outcome & events & added & parts
             & Hc & _ & Ht & _ & Rs)]]];
      rewrite ?E, ?Ht; cbn [fst snd Claude.trace];
      [now left | now left | now right |].
    right. unfold Claude.requests, Claude.returned. cbn [flat_map app length].
    f_equal. exact (proj1 (ClaudeMore.Steps_count Rs)).
Qed.

(** X15.  In the Claude client any remote call that fails ends
    [processQuery]: it throws the error of that call, which is the last
    call of the session, and no failure is absorbed.  When it returns an
    answer, no remote call of the session failed. *)
Theorem X15_claude_any_failure_ends_the_session :
  forall (W : Type) client create model query (w : W),
    let run := Claude.processQuery client create model query
                 (Claude.initial w) in
    let t := Claude.trace (snd run) in
    (forall error,
        fst run = inl error ->
        (client = None /\ error = JsError "Client not connected" /\ t = [])
        \/ exists earlier event,
             t = earlier ++ [event]
             /\ ClaudeMain.failure event = Some error
             /\ Forall (fun e => ClaudeMain.failure e = None) earlier)
    /\ (forall answer,
           fst run = inr answer ->
           Forall (fun e => ClaudeMain.failure e = None) t).
Proof.
  intros W client create model query w run t. subst t run.
  destruct (Sessions.claude_session client create model query w)
    as [(Hc & E)
       |[(c & e & w1 & Hc & L & E)
        |[(c & listed & w1 & e & w2 & Hc & L & E)
         |(c & listed & first & outcome & events & added & parts
           & Hc & E & Ht & _ & Rs)]]];
    rewrite ?E, ?Ht; cbn [fst snd Claude.trace].
  - split; [|discriminate]. intros error [= <-]. left. auto.
  - split; [|discriminate]. intros error [= <-]. right.
    exists [], (Claude.ToolsList (inl e)). repeat split. constructor.
  - split; [|discriminate]. intros error [= <-]. right.
    eexists [_], _. repeat split. repeat constructor.
  - pose proof (ClaudeMore.Steps_failure Rs) as F.
    destruct outcome as [error|[]]; (split; [|try discriminate]).
    + intros error' [= <-]. right.
      destruct F as (earlier & event & -> & Fe & Fa).
      eexists (_ :: _ :: earlier), event. repeat split; auto.
    + discriminate.
    + intros answer _. repeat constructor. exact F.
Qed.

(** X15 at a session whose tool invocation fails. *)
Lemma X15_claude_any_failure_ends_the_session_witness :
  exists earlier event,
    Claude.trace (snd (Scenario.claude Stage.claude_tool_fails "List files"))
    = earlier ++ [event]
    /\ ClaudeMain.failure event = Some Scenario.boom
    /\ Forall (fun e => ClaudeMain.failure e = None) earlier.
Proof.
  destruct (proj1 (X15_claude_any_failure_ends_the_session
                     (Some (Script.host Claude.Response))
                     (@Script.llm Claude.Request Claude.Response)
                     (Some "claude-3-opus-20240229") "List files"
                     Stage.claude_tool_fails) Scenario.boom eq_refl)
    as [(H & _)|H].
  - discriminate H.
  - exact H.
Defined.

(** X16.  In the Claude client the assistant message pushed before a
    tool result is the response received last, not the response that
    holds the request: the assistant messages of the final transcript
    are, in order, the first responses of the session, one per successful
    invocation, while the tool results answer, in order, the requests of
    the first response.  A session that reached the LLM ends with the
    query followed by two messages per successful invocation. *)
Theorem X16_claude_pairs_results_with_latest_response :
  forall (W : Type) client create model query (w : W),
    let s := snd (Claude.processQuery client create model query
                    (Claude.initial w)) in
    let n := length (Claude.returned (Claude.trace s)) in
    ClaudeMain.assistants (Claude.messages s)
    = firstn n (Claude.turns (Claude.trace s))
    /\ map fst (Claude.results (Claude.messages s))
       = firstn n (Claude.first_uses (Claude.trace s))
    /\ (Claude.requests (Claude.trace s) <> [] ->
        length (Claude.messages s) = 1 + 2 * n).
Proof.
  intros W client create model query w s n. subst n s.
  destruct (Sessions.claude_session client create model query w)
    as [(Hc & E)
       |[(c & e & w1 & Hc & L & E)
        |[(c & listed & w1 & e & w2 & Hc & L & E)
         |(c & listed & first & outcome & events & added & parts
           & Hc & _ & Ht & Hm & Rs)]]];
    rewrite ?E, ?Ht, ?Hm; cbn [fst snd Claude.trace Claude.messages].
  - repeat split. intros H. now destruct H.
  - repeat split. intros H. now destruct H.
  - repeat split.
  - destruct (ClaudeMore.Steps_pairing Rs) as [P1 P2].
    destruct (ClaudeMore.Steps_count Rs) as [_ C].
    unfold Claude.first_uses.
    match goal with
    | |- context [Claude.Create ?r _ :: events] =>
        change (Claude.turns (Claude.ToolsList (inr listed)
                              :: Claude.Create r (inr first) :: events))
          with (first :: Claude.turns events);
        change (Claude.returned (Claude.ToolsList (inr listed)
                                 :: Claude.Create r (inr first) :: events))
          with (Claude.returned events)
    end.
    repeat split.
    + exact P1.
    + exact P2.
    + intros _. cbn [length]. rewrite C. reflexivity.
Qed.

(** X16 at a session with two tool requests in the first response: the
    second tool result stands behind the follow-up response. *)
Lemma X16_claude_pairs_results_with_latest_response_witness :
  length (Claude.messages
            (snd (Scenario.claude Stage.claude_two_tools "List files")))
  = 1 + 2 * length (Claude.returned
                      (Claude.trace
                         (snd (Scenario.claude Stage.claude_two_tools
                                 "List files")))).
Proof.
  apply (X16_claude_pairs_results_with_latest_response
           (Some (Script.host Claude.Response))
           (@Script.llm Claude.Request Claude.Response)
           (Some "claude-3-opus-20240229") "List files"
           Stage.claude_two_tools).
  vm_compute. discriminate.
Defined.

(** X17.  How the OpenAI client reports a failing LLM call.  When the
    first call of a session fails, the caller receives [Error: <message>]
    for an API error and [Unexpected error occurred: <message>] for any
    other error, and no further remote call is made.  When a later call
    fails, its error is kept in [finalText] under the wording of a tool
    error, [[Error calling tool: <message>]]. *)
Theorem X17_openai_llm_failure_report :
  forall (W : Type) client create model parse query (w : W) error,
    let run := OpenAI.processQuery client create model parse query
                 (OpenAI.initial w) in
    let t := OpenAI.trace (snd run) in
    In error (OpenAI.refusals t) ->
    (OpenAI.turns t = [] ->
     fst run = inr match error with
                   | APIError message => ("Error: " ++ message)%string
                   | _ => ("Unexpected error occurred: "
                             ++ error_text error)%string
                   end
     /\ length (OpenAI.requests t) = 1
     /\ OpenAI.invocations t = [])
    /\ (OpenAI.turns t <> [] ->
        In ("[Error calling tool: " ++ error_text error ++ "]")%string
          (OpenAI.finalText (snd run))).
Proof.
  intros W client create model parse query w error run t Hin. subst t run.
  split.
  - intros Hturns.
    exact (OpenAIFacts.openai_first_refusal client create model parse query w
             error Hturns Hin).
  - revert Hin.
    destruct (OpenAIFacts.openai_query_cases client create model parse query w)
      as [(Hturns & _)
         |(listed & request & m & others & outcome & events & added & parts
           & _ & Ht & _ & _ & Hf & Rs)].
    + intros _ H. now destruct H.
    + rewrite Ht, Hf. intros Hin _. apply in_or_app. right.
      exact (OpenAIMore.Rounds_refusals Rs error Hin).
Qed.

(** X17 at a session whose first LLM call is refused, and at one whose
    second call is. *)
Lemma X17_openai_llm_failure_report_witness :
  fst (Scenario.openai Scenario.refused "What is 2+2?")
  = inr "Error: 429 rate limit"
  /\ In "[Error calling tool: 429 rate limit]"
       (OpenAI.finalText (snd Scenario.run_refused_later)).
Proof.
  split.
  - apply (proj1 (@X17_openai_llm_failure_report _
                    (Some (Script.host OpenAI.Completion))
                    (@Script.llm OpenAI.Request OpenAI.Completion)
                    (Some "gpt-4o") Script.parse "What is 2+2?"
                    Scenario.refused Scenario.rate_limit
                    (or_introl eq_refl))).
    reflexivity.
  - apply (proj2 (@X17_openai_llm_failure_report _
                    (Some (Script.host OpenAI.Completion))
                    (@Script.llm OpenAI.Request OpenAI.Completion)
                    (Some "gpt-4o") Script.parse "List files in /tmp"
                    Scenario.refused_later Scenario.rate_limit
                    (or_introl eq_refl))).
    vm_compute. discriminate.
Defined.
